(** * autoRig: the rigging managers over an abstract scene-graph host

    The repository is a set of six "manager" classes that forward
    validated UI input to the host's command layer ([maya.cmds]).  The
    host is not part of the repository: it is a parameter of this
    development (class [Host]).  Every manager method is embedded as a
    computation in a small monad that threads the host scene and the
    managers' own fields, may raise a Python exception, and writes the
    trace of what the method emitted: warnings, dialogs, printed lines
    and the scene-changing host commands it issued. *)

From Stdlib Require Import Ascii ZArith QArith Lia.
From Stdlib Require String DecimalString.
From stdpp Require Import base strings list gmap.


(** ** Python strings

    A Python [str] is modelled as a [string] whose characters are code
    points below 256. *)

Module PyStr.

(** [str.isspace] on one character (code points below 256). *)
Definition is_space (c : ascii) : bool :=
  let n := nat_of_ascii c in
  ((9 <=? n)%nat && (n <=? 13)%nat)
  || ((28 <=? n)%nat && (n <=? 32)%nat)
  || (n =? 133)%nat || (n =? 160)%nat.

Definition is_empty (s : string) : bool :=
  match s with EmptyString => true | String _ _ => false end.

Fixpoint lstrip (s : string) : string :=
  match s with
  | EmptyString => EmptyString
  | String c s' => if is_space c then lstrip s' else s
  end.

Fixpoint rstrip (s : string) : string :=
  match s with
  | EmptyString => EmptyString
  | String c s' =>
      let r := rstrip s' in
      if is_empty r && is_space c then EmptyString else String c r
  end.

(** [s.strip()] *)
Definition strip (s : string) : string := rstrip (lstrip s).

(** [s.replace(old, new)] for a non-empty [old]: scan from the left,
    [skip] counts the characters of a match still to be dropped. *)
Fixpoint replace_from (old new : string) (skip : nat) (s : string) : string :=
  match s with
  | EmptyString => EmptyString
  | String c s' =>
      match skip with
      | S k => replace_from old new k s'
      | O =>
          if String.prefix old s
          then new +:+ replace_from old new (String.length old - 1) s'
          else String c (replace_from old new 0 s')
      end
  end.

(** [s.replace("", new)] puts [new] before every character and at the end. *)
Fixpoint intersperse (new s : string) : string :=
  match s with
  | EmptyString => new
  | String c s' => new +:+ String c (intersperse new s')
  end.

(** [s.replace(old, new)]: every non-overlapping occurrence, leftmost first. *)
Definition replace (old new s : string) : string :=
  if is_empty old then intersperse new s else replace_from old new 0 s.

(** [str(n)] for a non-negative integer. *)
Definition of_nat (n : nat) : string :=
  DecimalString.NilEmpty.string_of_uint (Nat.to_uint n).

Definition is_lower (c : ascii) : bool :=
  let n := nat_of_ascii c in (97 <=? n)%nat && (n <=? 122)%nat.
Definition is_upper (c : ascii) : bool :=
  let n := nat_of_ascii c in (65 <=? n)%nat && (n <=? 90)%nat.
Definition upper (c : ascii) : ascii :=
  if is_lower c then ascii_of_nat (nat_of_ascii c - 32) else c.
Definition lower (c : ascii) : ascii :=
  if is_upper c then ascii_of_nat (nat_of_ascii c + 32) else c.

(** [s.title()] on ASCII letters: a letter that follows a non-letter is
    upper-cased, every other letter is lower-cased. *)
Fixpoint title_from (in_word : bool) (s : string) : string :=
  match s with
  | EmptyString => EmptyString
  | String c s' =>
      let letter := is_lower c || is_upper c in
      String (if in_word then lower c else upper c) (title_from letter s')
  end.
Definition title (s : string) : string := title_from false s.

(** Truth value of a string and of a list: empty is false. *)
Definition truthy (s : string) : bool := negb (is_empty s).

End PyStr.

Definition list_truthy {A} (l : list A) : bool :=
  match l with [] => false | _ :: _ => true end.

(** [x or default] on a value that is [None] or a list. *)
Definition or_list {A} (x : option (list A)) (default : list A) : list A :=
  match x with
  | Some (a :: l) => a :: l
  | Some [] | None => default
  end.

(** Truth value of a value that is [None] or a string. *)
Definition opt_truthy (x : option string) : bool :=
  match x with Some s => PyStr.truthy s | None => false end.

(** ** Exceptions and results *)

Inductive exn : Type :=
| RuntimeError (msg : string)       (* what a failing host command raises *)
| TypeError (msg : string)          (* iterating over [None] *)
| IndexError (msg : string)         (* [l[0]] on an empty list *)
| ValueError (msg : string)         (* unpacking a list of the wrong length *)
| KeyError (msg : string)           (* [d[k]] on a missing key *)
| UnboundLocalError (msg : string). (* reading a local that was never bound *)

(** [str(e)] *)
Definition str_exn (e : exn) : string :=
  match e with
  | RuntimeError m | TypeError m | IndexError m
  | ValueError m | KeyError m | UnboundLocalError m => m
  end.

Inductive result (A : Type) : Type :=
| Ok (a : A)
| Raise (e : exn).
Arguments Ok {A} a.
Arguments Raise {A} e.

Definition is_ok {A} (r : result A) : bool :=
  match r with Ok _ => true | Raise _ => false end.

(** ** The host's command layer

    The scene-changing commands the managers issue, with the arguments
    the source passes that vary from call to call. *)

Definition position : Type := Q * Q * Q.

Inductive command : Type :=
| select_clear                                   (* select(clear=True) *)
| joint (name : string) (pos : position)         (* joint(name=, position=) *)
| parent (child new_parent : string)             (* parent(child, new_parent) *)
| circle (n : string)                            (* circle(n=, nr=(0,1,0), ch=0) *)
| group (member n : string)                      (* group(member, n=) *)
| matchTransform (target source : string)        (* matchTransform(target, source) *)
| parentConstraint (driver driven : string)      (* parentConstraint(driver, driven, mo=True) *)
| duplicate (node : string)                      (* duplicate(node, renameChildren=True) *)
| rename (old new : string)                      (* rename(old, new) *)
| ikHandle (sj ee : string)                      (* ikHandle(sj=, ee=, sol='ikRPsolver') *)
| hide (node : string)                           (* hide(node) *)
| showHidden (node : string)                     (* showHidden(node) *)
| setAttr_flags (attr : string) (lock keyable channelBox : bool)
                                                 (* setAttr(attr, lock=, keyable=, channelBox=) *)
| setAttr_value (attr : string) (v : Z)          (* setAttr(attr, v) *)
| copySkinWeights (ss ds : string)               (* copySkinWeights(ss=, ds=, noMirror=True) *)
| file_rename (path : string)                    (* file(rename=path) *)
| file_save (type : string).                     (* file(save=True, type=) *)

(** What the source reads from a command's return value. *)
Definition ret_of (c : command) : Type :=
  match c with
  | joint _ _ | group _ _ | rename _ _ => string
  | circle _ | duplicate _ | ikHandle _ _ => list string
  | _ => unit
  end.

(** A host: a scene type, the queries the managers ask of it and the
    execution of a command.  Queries read the scene and always answer;
    a command may change the scene and may raise. *)
Class Host (Scene : Type) : Type := {
  ls_selection : Scene -> list string;                  (* ls(sl=True) *)
  ls_selected_joints : Scene -> list string;            (* ls(sl=True, type="joint") *)
  ls_joints : Scene -> list string;                     (* ls(type="joint") *)
  ls_pattern : string -> Scene -> list string;          (* ls(pattern) *)
  ls_skinClusters : option (list string) -> Scene -> list string;
                                                        (* ls(history, type='skinCluster') *)
  listHistory : string -> Scene -> option (list string);(* listHistory(obj) *)
  objExists : string -> Scene -> bool;                  (* objExists(name) *)
  listRelatives_ad : string -> Scene -> option (list string);
                                        (* listRelatives(node, ad=True, type='joint') *)
  listRelatives_parent : string -> Scene -> option (list string);
                                        (* listRelatives(node, parent=True, type='joint') *)
  getFileList : string -> Scene -> result (option (list string));
                                                        (* getFileList(folder=) *)
  exec : forall c : command, Scene -> result (ret_of c) * Scene;
  path_join : string -> string -> string                (* os.path.join, per platform *)
}.

(** ** What a method emits *)

Inductive event : Type :=
| EWarning (msg : string)               (* cmds.warning(msg) *)
| EDialog (title message : string)      (* cmds.confirmDialog(title=, message=) *)
| EPrint (line : string)                (* print(line) *)
| ECall (c : command) (ok : bool).      (* a command was issued; [ok]: it did not raise *)

Definition is_warning (e : event) : bool :=
  match e with EWarning _ => true | _ => false end.

(** The commands issued, in order, each with whether it succeeded. *)
Fixpoint calls (evs : list event) : list (command * bool) :=
  match evs with
  | [] => []
  | ECall c ok :: evs' => (c, ok) :: calls evs'
  | _ :: evs' => calls evs'
  end.

(** ** The managers' own fields

    One toolkit holds one instance of each manager class; only four of
    the six classes have fields. *)
Record managers : Type := {
  fk_ctrls : gmap string string;             (* RigBuilder.fk_ctrls *)
  target_objects : list string;              (* SkinWeightManager.target_objects *)
  attributes : gmap string (list string);    (* AttributeLocker.attributes *)
  filepath : string                          (* AssetManager.filepath *)
}.

(** The values the constructors store ([filepath] is what
    [os.path.expanduser] answered). *)
Definition init_attributes : gmap string (list string) :=
  <["Translate" := [".translateX"; ".translateY"; ".translateZ"]]>
  (<["Rotate" := [".rotateX"; ".rotateY"; ".rotateZ"]]>
  (<["Scale" := [".scaleX"; ".scaleY"; ".scaleZ"]]> ∅)).

Definition init_managers (asset_dir : string) : managers :=
  {| fk_ctrls := ∅;
     target_objects := ["two"; "three"; "four"];
     attributes := init_attributes;
     filepath := asset_dir |}.

Definition set_fk_ctrls (d : gmap string string) (m : managers) : managers :=
  {| fk_ctrls := d;
     target_objects := target_objects m;
     attributes := attributes m;
     filepath := filepath m |}.

(** ** The monad of manager methods *)

Record state (Scene : Type) : Type := {
  scene : Scene;      (* the host's scene graph *)
  mgr : managers      (* the fields of the manager objects *)
}.
Arguments scene {Scene} s.
Arguments mgr {Scene} s.

Record outcome (Scene A : Type) : Type := {
  res : result A;           (* returned value or propagated exception *)
  final : state Scene;      (* state when the method ended *)
  out : list event          (* what the method emitted, oldest first *)
}.
Arguments res {Scene A} o.
Arguments final {Scene A} o.
Arguments out {Scene A} o.

Definition M (Scene A : Type) : Type := state Scene -> outcome Scene A.

Section Monad.
Context {Scene : Type} `{!Host Scene}.

Definition ret {A} (a : A) : M Scene A :=
  fun s => {| res := Ok a; final := s; out := [] |}.

Definition bind {A B} (m : M Scene A) (f : A -> M Scene B) : M Scene B :=
  fun s =>
    let o := m s in
    match res o with
    | Ok a =>
        let o' := f a (final o) in
        {| res := res o'; final := final o'; out := out o ++ out o' |}
    | Raise e => {| res := Raise e; final := final o; out := out o |}
    end.

(** [raise e] *)
Definition raise {A} (e : exn) : M Scene A :=
  fun s => {| res := Raise e; final := s; out := [] |}.

(** [try: m except Exception as e: handler(e)] *)
Definition try_except {A} (m : M Scene A) (handler : exn -> M Scene A) : M Scene A :=
  fun s =>
    let o := m s in
    match res o with
    | Ok a => o
    | Raise e =>
        let o' := handler e (final o) in
        {| res := res o'; final := final o'; out := out o ++ out o' |}
    end.

Definition emit (e : event) : M Scene unit :=
  fun s => {| res := Ok tt; final := s; out := [e] |}.

Definition warning (msg : string) : M Scene unit := emit (EWarning msg).
Definition confirmDialog (title message : string) : M Scene unit :=
  emit (EDialog title message).
Definition print (line : string) : M Scene unit := emit (EPrint line).

(** Ask the host a question about the current scene. *)
Definition query {A} (q : Scene -> A) : M Scene A :=
  fun s => {| res := Ok (q (scene s)); final := s; out := [] |}.

(** Ask a question that the source guards with [try]. *)
Definition query_guarded {A} (q : Scene -> result A) : M Scene A :=
  fun s => {| res := q (scene s); final := s; out := [] |}.

(** Issue a scene-changing command. *)
Definition call (c : command) : M Scene (ret_of c) :=
  fun s =>
    let '(r, sc) := exec c (scene s) in
    {| res := r;
       final := {| scene := sc; mgr := mgr s |};
       out := [ECall c (is_ok r)] |}.

(** Read and write the managers' fields ([self.x], [self.x = v]). *)
Definition self {A} (field : managers -> A) : M Scene A :=
  fun s => {| res := Ok (field (mgr s)); final := s; out := [] |}.

Definition self_update (f : managers -> managers) : M Scene unit :=
  fun s => {| res := Ok tt;
              final := {| scene := scene s; mgr := f (mgr s) |};
              out := [] |}.
End Monad.

Notation "'let*' x ':=' m 'in' k" := (bind m (fun x => k))
  (at level 10, x pattern, m at level 100, k at level 200,
   format "'[v' 'let*'  x  ':='  m  'in' '/' k ']'").
Notation "m ';;' k" := (bind m (fun _ => k))
  (at level 100, k at level 200, right associativity,
   format "'[v' m  ';;' '/' k ']'").

Section Loops.
Context {Scene : Type} `{!Host Scene}.

(** [for x in xs: acc = body(x, acc)], the loop's local variables in [acc]. *)
Fixpoint for_in {X A} (xs : list X) (body : X -> A -> M Scene A) (acc : A)
  : M Scene A :=
  match xs with
  | [] => ret acc
  | x :: xs' => let* acc' := body x acc in for_in xs' body acc'
  end.

(** [for x in xs: body(x)] *)
Definition for_each {X} (xs : list X) (body : X -> M Scene unit) : M Scene unit :=
  for_in xs (fun x _ => body x) tt.

(** [for x in v: ...] where [v] may be [None]. *)
Definition iterate {X} (v : option (list X)) : M Scene (list X) :=
  match v with
  | Some l => ret l
  | None => raise (TypeError "'NoneType' object is not iterable")
  end.

(** [l[0]] *)
Definition index0 {X} (l : list X) : M Scene X :=
  match l with
  | x :: _ => ret x
  | [] => raise (IndexError "list index out of range")
  end.

(** [a, b = l] *)
Definition unpack2 {X} (l : list X) : M Scene (X * X) :=
  match l with
  | [a; b] => ret (a, b)
  | _ => raise (ValueError "wrong number of values to unpack")
  end.
End Loops.

(** ** The six managers *)

Section Managers.
Context {Scene : Type} `{!Host Scene}.

(** A falsy value ([None] or the empty string) as [None]. *)
Definition truthy_value (x : option string) : option string :=
  match x with
  | Some s => if PyStr.truthy s then Some s else None
  | None => None
  end.

(** *** RigBuilder *)

Definition joint_creation (name : string) (pos : position)
    (parent_name : option string) : M Scene string :=
  call select_clear ;;
  let* j := call (joint (name +:+ "_drv_jnt") pos) in
  match truthy_value parent_name with
  | Some p => call (parent j p)
  | None => ret tt
  end ;;
  ret (j : string).

Definition setup_control (jnt : string) : M Scene string :=
  let* c := call (circle (PyStr.replace "_jnt" "_CTRL" jnt)) in
  let* ctrl := index0 c in
  let* offset := call (group ctrl (PyStr.replace "_jnt" "_offset" jnt)) in
  let* grp := call (group offset (PyStr.replace "_jnt" "_GRP" jnt)) in
  call (matchTransform grp jnt) ;;
  call (parentConstraint ctrl jnt) ;;
  ret grp.

Definition one_half : Q := 1 # 2.

Definition create_basic_skeleton : M Scene unit :=
  (* Spine and torso *)
  let* spine := joint_creation "spine" (0, 8, - one_half)%Q None in
  let* hip := joint_creation "hip" (0, 6 + one_half, - one_half)%Q (Some spine) in
  let* chest := joint_creation "chest" (0, 10, - one_half)%Q (Some spine) in
  let* head := joint_creation "head" (0, 12, - one_half)%Q (Some chest) in
  (* Right leg *)
  let* rt_thigh := joint_creation "rt_thigh" (1, 5, - one_half)%Q (Some hip) in
  let* rt_knee := joint_creation "rt_knee" (1, 2, 0)%Q (Some rt_thigh) in
  let* rt_ankle := joint_creation "rt_ankle" (1, 0, - one_half)%Q (Some rt_knee) in
  let* rt_foot := joint_creation "rt_foot" (1, 0, 1)%Q (Some rt_ankle) in
  (* Left leg *)
  let* lt_thigh := joint_creation "lt_thigh" (- (1), 5, - one_half)%Q (Some hip) in
  let* lt_knee := joint_creation "lt_knee" (- (1), 2, 0)%Q (Some lt_thigh) in
  let* lt_ankle := joint_creation "lt_ankle" (- (1), 0, - one_half)%Q (Some lt_knee) in
  let* lt_foot := joint_creation "lt_foot" (- (1), 0, 1)%Q (Some lt_ankle) in
  (* Right arm *)
  let* rt_shoulder := joint_creation "rt_shoulder" (- (1), 11, - one_half)%Q (Some chest) in
  let* rt_elbow := joint_creation "rt_elbow" (- (3), 8 + one_half, - (1))%Q (Some rt_shoulder) in
  let* rt_wrist := joint_creation "rt_wrist" (- (4), 6, - one_half)%Q (Some rt_elbow) in
  (* Left arm *)
  let* lt_shoulder := joint_creation "lt_shoulder" (1, 11, - one_half)%Q (Some chest) in
  let* lt_elbow := joint_creation "lt_elbow" (3, 8 + one_half, - (1))%Q (Some lt_shoulder) in
  let* lt_wrist := joint_creation "lt_wrist" (4, 6, - one_half)%Q (Some lt_elbow) in
  ret tt.

(** The body of the second loop of [create_fk_chain], in two parts:
    the control with its offset and group, then its place in the
    control hierarchy. *)
Definition fk_rig (base_name jnt : string) : M Scene (string * string) :=
  let* c := call (circle (base_name +:+ "_CTRL")) in
  let* ctrl := index0 c in
  let* offset := call (group ctrl (base_name +:+ "_offset")) in
  let* grp := call (group offset (base_name +:+ "_GRP")) in
  call (matchTransform grp jnt) ;;
  call (parentConstraint ctrl jnt) ;;
  ret ((ctrl, grp) : string * string).

Definition fk_base (jnt : string) : string := PyStr.replace "_FK_jnt" "" jnt.

Definition fk_attach (jnt base_name ctrl grp : string) : M Scene unit :=
  let* parent_jnt := query (listRelatives_parent jnt) in
  match parent_jnt with
  | Some (p :: _) =>
      let parent_base := fk_base p in
      let* parent_ctrl := self (fun m => fk_ctrls m !! parent_base) in
      match truthy_value parent_ctrl with
      | Some pc => call (parent grp pc)
      | None => ret tt
      end
  | Some [] | None => ret tt
  end ;;
  self_update (fun m => set_fk_ctrls (<[base_name := ctrl]> (fk_ctrls m)) m).

Definition fk_control (jnt : string) : M Scene unit :=
  let base_name := fk_base jnt in
  let* made := fk_rig base_name jnt in
  fk_attach jnt base_name (fst made) (snd made).

Definition no_skeleton : string :=
  "No base skeleton found. Create skeleton first.".

(** The order in which the FK joints get their controls. *)
Definition fk_order (rel : option (list string)) : list string :=
  rev (or_list rel [] ++ ["spine_FK_jnt"]).

(** The part of [create_fk_chain] under "Create FK controls". *)
Definition create_fk_controls : M Scene unit :=
  let* rel := query (listRelatives_ad "spine_FK_jnt") in
  let fk_joints := fk_order rel in
  for_each fk_joints fk_control.

(** The part of [create_fk_chain] under "Duplicate and rename for FK". *)
Definition duplicate_for_fk : M Scene unit :=
  let* d := call (duplicate "spine_drv_jnt") in
  let* fk_root := index0 d in
  let* fk_root := call (rename fk_root "spine_FK_jnt") in
  let* rel := query (listRelatives_ad fk_root) in
  let* joints := iterate rel in
  for_each joints (fun joint =>
    call (rename joint (PyStr.replace "_drv_jnt" "_FK_jnt" joint)) ;; ret tt).

Definition create_fk_chain : M Scene unit :=
  let* found := query (objExists "spine_drv_jnt") in
  if negb found then warning no_skeleton
  else
    duplicate_for_fk ;;
    create_fk_controls.

Definition limbs : list (string * string * string) :=
  [ ("rt_thigh_IK_jnt1", "rt_ankle_IK_jnt1", "rt_leg_IKHandle");
    ("lt_thigh_IK_jnt1", "lt_ankle_IK_jnt1", "lt_leg_IKHandle");
    ("rt_shoulder_IK_jnt1", "rt_wrist_IK_jnt1", "rt_arm_IKHandle");
    ("lt_shoulder_IK_jnt1", "lt_wrist_IK_jnt1", "lt_arm_IKHandle") ].

Definition ik_limb (limb : string * string * string) : M Scene unit :=
  let '(start_jnt, end_jnt, handle_name) := limb in
  let* both := query (fun sc => objExists start_jnt sc && objExists end_jnt sc) in
  if both then
    let* h := call (ikHandle start_jnt end_jnt) in
    let* handle_effector := unpack2 h in
    let (ik_handle, effector) := handle_effector : string * string in
    let* ik_handle := call (rename ik_handle handle_name) in
    let* ctrl_grp := setup_control end_jnt in
    let ctrl_name := PyStr.replace "_jnt1" "_CTRL1" end_jnt in
    let* found := query (objExists ctrl_name) in
    if found then call (parent ik_handle ctrl_name) else ret tt
  else ret tt.

Definition create_ik_setup : M Scene unit :=
  let* found := query (objExists "spine_drv_jnt") in
  if negb found then warning no_skeleton
  else
    (* Duplicate for IK *)
    let* d := call (duplicate "spine_drv_jnt") in
    let* ik_root := index0 d in
    let* ik_root := call (rename ik_root "spine_IK_jnt") in
    let* rel := query (listRelatives_ad ik_root) in
    let ik_joints := or_list rel [] ++ [ik_root] in
    for_each ik_joints (fun joint =>
      let new_name := PyStr.replace "_drv_jnt" "_IK_jnt" joint in
      call (rename joint new_name) ;; ret tt) ;;
    (* Create IK handles for limbs *)
    for_each limbs ik_limb.

Definition hide_or_show (cmd : string -> command) (node : string) : M Scene unit :=
  let* found := query (objExists node) in
  if found then call (cmd node) ;; ret tt else ret tt.

Definition show_display_mode (mode : string) : M Scene unit :=
  let* all_nodes := query (fun sc =>
    ls_pattern "*_drv_jnt" sc ++ ls_pattern "*_FK_jnt" sc ++ ls_pattern "*_IK_jnt" sc ++
    ls_pattern "*_CTRL" sc ++ ls_pattern "*_GRP" sc ++ ls_pattern "*_offset" sc ++
    ls_pattern "*_IKHandle" sc) in
  (* Hide all first *)
  for_each all_nodes (hide_or_show hide) ;;
  (* Show based on mode; [None]: the local was never assigned *)
  let* nodes_to_show :=
    if String.eqb mode "base" then
      query (fun sc => Some (ls_pattern "*_drv_jnt" sc))
    else if String.eqb mode "fk" then
      query (fun sc => Some (ls_pattern "*_FK_jnt" sc ++ ls_pattern "*_CTRL" sc ++
                             ls_pattern "*_GRP" sc ++ ls_pattern "*_offset" sc))
    else if String.eqb mode "ik" then
      query (fun sc => Some (ls_pattern "*_IK_jnt" sc ++ ls_pattern "*_CTRL" sc ++
                             ls_pattern "*_GRP" sc ++ ls_pattern "*_offset" sc ++
                             ls_pattern "*_IKHandle" sc))
    else ret None in
  match nodes_to_show with
  | Some nodes => for_each nodes (hide_or_show showHidden)
  | None => raise (UnboundLocalError "nodes_to_show")
  end.

(** *** SkinWeightManager *)

Definition get_skin_cluster (obj : string) : M Scene (option string) :=
  let* history := query (listHistory obj) in
  let* skin_clusters := query (ls_skinClusters history) in
  ret (match skin_clusters with c :: _ => Some c | [] => None end).

(** The body of the loop of [copy_weights]. *)
Definition copy_to (source_skin target : string) (success_count : nat) : M Scene nat :=
  let* found := query (objExists target) in
  if negb found then
    warning ("Target object '" +:+ target +:+ "' does not exist. Skipping.") ;;
    ret success_count
  else
    let* dest_skin := get_skin_cluster target in
    match truthy_value dest_skin with
    | None =>
        warning ("No skinCluster found on " +:+ target +:+ ". Skipping.") ;;
        ret success_count
    | Some dest_skin =>
        try_except
          (call (copySkinWeights source_skin dest_skin) ;;
           ret (success_count + 1))
          (fun e =>
             warning ("Failed to copy weights to " +:+ target +:+ ": " +:+ str_exn e) ;;
             ret success_count)
    end.

Definition copied_message (success_count : nat) : string :=
  "Skin weights copied successfully to " +:+ PyStr.of_nat success_count +:+ " objects!".

Definition copy_weights (source_obj : string) (target_list : option (list string))
  : M Scene bool :=
  if negb (PyStr.truthy source_obj) then
    warning "No source object specified" ;; ret false
  else
    let* found := query (objExists source_obj) in
    if negb found then
      warning ("Source object '" +:+ source_obj +:+ "' does not exist") ;; ret false
    else
      let* source_skin := get_skin_cluster source_obj in
      match truthy_value source_skin with
      | None =>
          warning ("No skinCluster found on " +:+ source_obj) ;; ret false
      | Some source_skin =>
          let* default := self target_objects in
          let targets := or_list target_list default in
          let* success_count := for_in targets (copy_to source_skin) 0 in
          (if 0 <? success_count
           then confirmDialog "Copy Skin Weights" (copied_message success_count)
           else ret tt) ;;
          ret (0 <? success_count)
      end.

(** *** JointDisplayManager *)

Definition set_draw_style (draw_style : Z) (joint : string) : M Scene unit :=
  try_except
    (call (setAttr_value (joint +:+ ".drawStyle") draw_style))
    (fun e => warning ("Failed to set display for " +:+ joint +:+ ": " +:+ str_exn e)).

Definition display_message (show selected_only : bool) (joints : list string) : string :=
  let action := if show then "shown" else "hidden" in
  let scope := if selected_only then "selected" else "all" in
  PyStr.title action +:+ " " +:+ PyStr.of_nat (length joints) +:+ " " +:+ scope
    +:+ " joints".

Definition toggle_joint_display (show selected_only : bool) : M Scene bool :=
  let draw_style := (if show then 0 else 2)%Z in
  let rest (joints : list string) : M Scene bool :=
    for_each joints (set_draw_style draw_style) ;;
    print (display_message show selected_only joints) ;;
    ret true in
  if selected_only then
    let* joints := query ls_selected_joints in
    if negb (list_truthy joints) then
      warning "No joints selected." ;; ret false
    else rest joints
  else
    let* joints := query ls_joints in
    rest joints.

(** *** AttributeLocker *)

(** [self.attributes[key]] *)
Definition attributes_item (key : string) : M Scene (list string) :=
  let* d := self attributes in
  match d !! key with
  | Some v => ret v
  | None => raise (KeyError key)
  end.

(** [if flag: attr_groups.extend(self.attributes[key])] *)
Definition extend_if (flag : bool) (key : string) (attr_groups : list string)
  : M Scene (list string) :=
  if flag then
    let* v := attributes_item key in
    ret (attr_groups ++ v)
  else ret attr_groups.

(** The body of the loop of [lock_unlock_attributes]. *)
Definition lock_object (lock : bool) (attr_groups : list string)
    (obj : string) (success_count : nat) : M Scene nat :=
  try_except
    (for_each attr_groups (fun attr =>
       call (setAttr_flags (obj +:+ attr) lock (negb lock) (negb lock))) ;;
     ret (success_count + 1))
    (fun e =>
       warning ("Failed to modify attributes on " +:+ obj +:+ ": " +:+ str_exn e) ;;
       ret success_count).

Definition locked_message (lock : bool) (success_count : nat) : string :=
  let action := if lock then "locked" else "unlocked" in
  "Successfully " +:+ action +:+ " attributes on " +:+ PyStr.of_nat success_count
    +:+ " objects".

Definition lock_unlock_attributes (lock translate rotate scale : bool) : M Scene bool :=
  let* sel := query ls_selection in
  if negb (list_truthy sel) then
    warning "No objects selected." ;; ret false
  else
    let* attr_groups := extend_if translate "Translate" [] in
    let* attr_groups := extend_if rotate "Rotate" attr_groups in
    let* attr_groups := extend_if scale "Scale" attr_groups in
    if negb (list_truthy attr_groups) then
      warning "No attributes specified." ;; ret false
    else
      let* success_count := for_in sel (lock_object lock attr_groups) 0 in
      (if 0 <? success_count
       then print (locked_message lock success_count)
       else ret tt) ;;
      ret (0 <? success_count).

(** *** ObjectRenamer *)

Definition new_name (is_prefix : bool) (name obj : string) : string :=
  if is_prefix then name +:+ "_" +:+ obj else obj +:+ "_" +:+ name.

(** The body of the loop of [rename_objects]. *)
Definition rename_object (is_prefix : bool) (name obj : string) (renamed_count : nat)
  : M Scene nat :=
  try_except
    (call (rename obj (new_name is_prefix name obj)) ;;
     ret (renamed_count + 1))
    (fun e =>
       warning ("Failed to rename " +:+ obj +:+ ": " +:+ str_exn e) ;;
       ret renamed_count).

Definition renamed_message (renamed_count : nat) : string :=
  "Successfully renamed " +:+ PyStr.of_nat renamed_count +:+ " objects!".

Definition rename_objects (name_input : string) (is_prefix : bool) : M Scene bool :=
  let* sel := query ls_selection in
  if negb (list_truthy sel) then
    warning "No objects selected." ;; ret false
  else if negb (PyStr.truthy (PyStr.strip name_input)) then
    warning "No name input provided." ;; ret false
  else
    let name := PyStr.strip name_input in
    let* renamed_count := for_in sel (rename_object is_prefix name) 0 in
    (if 0 <? renamed_count
     then confirmDialog "Rename Objects" (renamed_message renamed_count)
     else ret tt) ;;
    ret (0 <? renamed_count).

(** *** AssetManager *)

Definition get_file_list : M Scene (list string) :=
  try_except
    (let* folder := self filepath in
     let* files := query_guarded (getFileList folder) in
     ret (or_list files []))
    (fun _ => ret []).

Definition newline : string := String (ascii_of_nat 10) EmptyString.

Definition save_asset (asset_name file_type : string) : M Scene bool :=
  if negb (PyStr.truthy (PyStr.strip asset_name)) then
    warning "No asset name provided." ;; ret false
  else
    let name := PyStr.strip asset_name in
    let* folder := self filepath in
    let full_path := path_join folder name in
    try_except
      (call (file_rename full_path) ;;
       let* full_path :=
         if String.eqb file_type "MA" then
           call (file_save "mayaAscii") ;; ret (full_path +:+ ".ma")
         else
           call (file_save "mayaBinary") ;; ret (full_path +:+ ".mb") in
       confirmDialog "Asset Saved"
         ("Asset saved successfully:" +:+ newline +:+ full_path) ;;
       ret true)
      (fun e => warning ("Failed to save asset: " +:+ str_exn e) ;; ret false).

End Managers.

(** ** A reference host

    A small scene graph that implements the host interface, used to run
    the managers on concrete scenes.  Node names are unique in a scene;
    a command that is asked for a taken name picks the next free one by
    counting up its trailing number, and a command on a missing node
    raises. *)

Module MiniScene.

Inductive kind : Type :=
| Joint | Transform | Constraint | IkHandle | Effector | Mesh | SkinCluster.

Definition kind_eqb (a b : kind) : bool :=
  match a, b with
  | Joint, Joint | Transform, Transform | Constraint, Constraint
  | IkHandle, IkHandle | Effector, Effector | Mesh, Mesh
  | SkinCluster, SkinCluster => true
  | _, _ => false
  end.

Record node : Type := {
  name : string;
  kind_of : kind;
  parent_of : option string;     (* the parent in the hierarchy *)
  hidden : bool;
  draw_style : Z;                (* joints: the drawStyle attribute *)
  locked : list string;          (* names of the locked attributes *)
  skin : option string;          (* the skin cluster in the node's history *)
  read_only : bool               (* a locked node cannot be renamed *)
}.

Record graph : Type := {
  nodes : list node;
  selection : list string;
  file_name : string;            (* the name the scene will be saved under *)
  saved : list string            (* the files written so far *)
}.

Definition mk (k : kind) (n : string) (p : option string) : node :=
  {| name := n; kind_of := k; parent_of := p; hidden := false; draw_style := 0;
     locked := []; skin := None; read_only := false |}.

Definition empty : graph :=
  {| nodes := []; selection := []; file_name := ""; saved := [] |}.

Definition set_nodes (ns : list node) (sc : graph) : graph :=
  {| nodes := ns; selection := selection sc;
     file_name := file_name sc; saved := saved sc |}.

Definition set_selection (sel : list string) (sc : graph) : graph :=
  {| nodes := nodes sc; selection := sel;
     file_name := file_name sc; saved := saved sc |}.

Definition mem (n : string) (l : list string) : bool := existsb (String.eqb n) l.

Definition names (ns : list node) : list string := map name ns.

Definition find_node (ns : list node) (n : string) : option node :=
  List.find (fun nd => String.eqb (name nd) n) ns.

Definition has_kind (ns : list node) (k : kind) (n : string) : bool :=
  match find_node ns n with
  | Some nd => kind_eqb (kind_of nd) k
  | None => false
  end.

Definition names_of_kind (ns : list node) (k : kind) : list string :=
  names (List.filter (fun nd => kind_eqb (kind_of nd) k) ns).

(** Change the node called [n]. *)
Definition update (n : string) (f : node -> node) (ns : list node) : list node :=
  map (fun nd => if String.eqb (name nd) n then f nd else nd) ns.

Definition set_parent (p : option string) (nd : node) : node :=
  {| name := name nd; kind_of := kind_of nd; parent_of := p; hidden := hidden nd;
     draw_style := draw_style nd; locked := locked nd; skin := skin nd;
     read_only := read_only nd |}.

Definition set_name (n : string) (nd : node) : node :=
  {| name := n; kind_of := kind_of nd; parent_of := parent_of nd; hidden := hidden nd;
     draw_style := draw_style nd; locked := locked nd; skin := skin nd;
     read_only := read_only nd |}.

Definition set_hidden (h : bool) (nd : node) : node :=
  {| name := name nd; kind_of := kind_of nd; parent_of := parent_of nd; hidden := h;
     draw_style := draw_style nd; locked := locked nd; skin := skin nd;
     read_only := read_only nd |}.

Definition set_draw_style (v : Z) (nd : node) : node :=
  {| name := name nd; kind_of := kind_of nd; parent_of := parent_of nd;
     hidden := hidden nd; draw_style := v; locked := locked nd; skin := skin nd;
     read_only := read_only nd |}.

Definition set_locked (l : list string) (nd : node) : node :=
  {| name := name nd; kind_of := kind_of nd; parent_of := parent_of nd;
     hidden := hidden nd; draw_style := draw_style nd; locked := l; skin := skin nd;
     read_only := read_only nd |}.

Definition set_skin (k : option string) (nd : node) : node :=
  {| name := name nd; kind_of := kind_of nd; parent_of := parent_of nd;
     hidden := hidden nd; draw_style := draw_style nd; locked := locked nd; skin := k;
     read_only := read_only nd |}.

Definition set_read_only (b : bool) (nd : node) : node :=
  {| name := name nd; kind_of := kind_of nd; parent_of := parent_of nd;
     hidden := hidden nd; draw_style := draw_style nd; locked := locked nd;
     skin := skin nd; read_only := b |}.

(** *** Unique names *)

Definition digit (c : ascii) : option nat := Ascii.is_nat c.

(** The trailing digits of a reversed name, least significant first. *)
Fixpoint trailing (r : list ascii) : list nat :=
  match r with
  | c :: r' => match digit c with Some d => d :: trailing r' | None => [] end
  | [] => []
  end.

Definition split_number (s : string) : string * nat :=
  let r := rev (String.list_ascii_of_string s) in
  let ds := trailing r in
  (String.string_of_list_ascii (rev (drop (length ds) r)),
   fold_right (fun d a => d + 10 * a) 0 ds).

Fixpoint first_free (taken : list string) (base : string) (k fuel : nat) : string :=
  let candidate := base +:+ PyStr.of_nat k in
  match fuel with
  | O => candidate
  | S fuel' =>
      if mem candidate taken then first_free taken base (S k) fuel' else candidate
  end.

Definition unique (taken : list string) (n : string) : string :=
  if mem n taken then
    let (base, k) := split_number n in
    first_free taken base (S k) (length taken)
  else n.

(** *** Hierarchy *)

Definition children (ns : list node) (n : string) : list string :=
  names (List.filter (fun nd => match parent_of nd with
                           | Some p => String.eqb p n
                           | None => false
                           end) ns).

(** Every descendant of [n], each one after its own descendants. *)
Fixpoint descendants (fuel : nat) (ns : list node) (n : string) : list string :=
  match fuel with
  | O => []
  | S fuel' => flat_map (fun c => descendants fuel' ns c ++ [c]) (children ns n)
  end.

(** Copy the tree under [n] of the scene [orig] into [acc], under [p]. *)
Fixpoint copy_tree (fuel : nat) (orig : list node) (n : string) (p : option string)
    (acc : list node) : list node :=
  match fuel with
  | O => acc
  | S fuel' =>
      match find_node orig n with
      | None => acc
      | Some nd =>
          let n' := unique (names acc) n in
          fold_left (fun a c => copy_tree fuel' orig c (Some n') a)
            (children orig n)
            (acc ++ [set_read_only false (set_parent p (set_name n' nd))])
      end
  end.

(** *** Queries *)

Definition glob (pattern : string) (ns : list node) : list string :=
  match pattern with
  | String "*" suffix =>
      List.filter (fun n => String.prefix (String.rev suffix) (String.rev n)) (names ns)
  | _ => List.filter (String.eqb pattern) (names ns)
  end.

Definition history (ns : list node) (obj : string) : option (list string) :=
  match find_node ns obj with
  | Some nd => Some (match skin nd with Some k => [obj; k] | None => [obj] end)
  | None => None
  end.

(** [ls] of an empty list or of [None] lists the whole scene. *)
Definition skin_clusters (h : option (list string)) (ns : list node) : list string :=
  match h with
  | Some (a :: l) => List.filter (has_kind ns SkinCluster) (a :: l)
  | Some [] | None => names_of_kind ns SkinCluster
  end.

Definition some_if_any (l : list string) : option (list string) :=
  match l with [] => None | _ :: _ => Some l end.

Definition joint_descendants (n : string) (ns : list node) : option (list string) :=
  some_if_any (List.filter (has_kind ns Joint) (descendants (length ns) ns n)).

Definition joint_parent (n : string) (ns : list node) : option (list string) :=
  match find_node ns n with
  | Some nd =>
      match parent_of nd with
      | Some p => if has_kind ns Joint p then Some [p] else None
      | None => None
      end
  | None => None
  end.

Definition join (a b : string) : string :=
  if String.prefix "/" b then b
  else if PyStr.is_empty a || String.prefix "/" (String.rev a) then a +:+ b
  else a +:+ "/" +:+ b.

(** *** Commands *)

Definition missing {A} (n : string) (sc : graph) : result A * graph :=
  (Raise (RuntimeError ("No object matches name: " +:+ n)), sc).

Definition present (n : string) (sc : graph) : bool := mem n (names (nodes sc)).

(** Add a node under a free name and select it. *)
Definition create (k : kind) (n : string) (p : option string) (sc : graph)
  : string * graph :=
  let n' := unique (names (nodes sc)) n in
  (n', set_selection [n'] (set_nodes (nodes sc ++ [mk k n' p]) sc)).

Definition do_parent (child new_parent : string) (sc : graph) : result unit * graph :=
  if present child sc && present new_parent sc then
    (Ok tt, set_nodes (update child (set_parent (Some new_parent)) (nodes sc)) sc)
  else missing (if present child sc then new_parent else child) sc.

Definition do_group (member n : string) (sc : graph) : result string * graph :=
  match find_node (nodes sc) member with
  | Some nd =>
      let (g, sc') := create Transform n (parent_of nd) sc in
      (Ok g, set_nodes (update member (set_parent (Some g)) (nodes sc')) sc')
  | None => missing member sc
  end.

Definition do_duplicate (n : string) (sc : graph) : result (list string) * graph :=
  if present n sc then
    let n' := unique (names (nodes sc)) n in
    let p := match find_node (nodes sc) n with
             | Some nd => parent_of nd
             | None => None
             end in
    (Ok [n'],
     set_selection [n']
       (set_nodes (copy_tree (length (nodes sc)) (nodes sc) n p (nodes sc)) sc))
  else missing n sc.

Definition rename_in (old new : string) (nd : node) : node :=
  let nd' := if String.eqb (name nd) old then set_name new nd else nd in
  match parent_of nd' with
  | Some p => if String.eqb p old then set_parent (Some new) nd' else nd'
  | None => nd'
  end.

Definition do_rename (old new : string) (sc : graph) : result string * graph :=
  match find_node (nodes sc) old with
  | Some nd =>
      if read_only nd then
        (Raise (RuntimeError "Cannot rename a read only node."), sc)
      else
        let new' := if String.eqb old new then old
                    else unique (names (nodes sc)) new in
        (Ok new',
         set_selection
           (map (fun n => if String.eqb n old then new' else n) (selection sc))
           (set_nodes (map (rename_in old new') (nodes sc)) sc))
  | None => missing old sc
  end.

Definition do_ikHandle (sj ee : string) (sc : graph) : result (list string) * graph :=
  if present sj sc && present ee sc then
    let (h, sc1) := create IkHandle "ikHandle1" None sc in
    let (e, sc2) := create Effector "effector1" (Some ee) sc1 in
    (Ok [h; e], set_selection [h] sc2)
  else missing (if present sj sc then ee else sj) sc.

Definition on_node (n : string) (f : node -> node) (sc : graph) : result unit * graph :=
  if present n sc then (Ok tt, set_nodes (update n f (nodes sc)) sc)
  else missing n sc.

(** ["obj.attr"] split at its last dot. *)
Fixpoint split_attr (s : string) : option (string * string) :=
  match s with
  | EmptyString => None
  | String c s' =>
      match split_attr s' with
      | Some (obj, a) => Some (String c obj, a)
      | None => if Ascii.eqb c "." then Some (EmptyString, s') else None
      end
  end.

Definition transform_attrs : list string :=
  ["translateX"; "translateY"; "translateZ"; "rotateX"; "rotateY"; "rotateZ";
   "scaleX"; "scaleY"; "scaleZ"].

Definition has_transform (k : kind) : bool :=
  negb (kind_eqb k SkinCluster).

Definition do_setAttr_flags (attr : string) (lock : bool) (sc : graph)
  : result unit * graph :=
  match split_attr attr with
  | Some (obj, a) =>
      match find_node (nodes sc) obj with
      | Some nd =>
          if has_transform (kind_of nd) && mem a transform_attrs then
            let l := List.filter (fun x => negb (String.eqb x a)) (locked nd) in
            (Ok tt,
             set_nodes (update obj (set_locked (if lock then a :: l else l)) (nodes sc)) sc)
          else missing attr sc
      | None => missing attr sc
      end
  | None => missing attr sc
  end.

Definition do_setAttr_value (attr : string) (v : Z) (sc : graph) : result unit * graph :=
  match split_attr attr with
  | Some (obj, a) =>
      match find_node (nodes sc) obj with
      | Some nd =>
          if kind_eqb (kind_of nd) Joint && String.eqb a "drawStyle" then
            if mem a (locked nd) then
              (Raise (RuntimeError
                 ("The attribute '" +:+ attr +:+ "' is locked or connected and cannot be modified.")),
               sc)
            else (Ok tt, set_nodes (update obj (set_draw_style v) (nodes sc)) sc)
          else missing attr sc
      | None => missing attr sc
      end
  | None => missing attr sc
  end.

Definition do_copySkinWeights (ss ds : string) (sc : graph) : result unit * graph :=
  if has_kind (nodes sc) SkinCluster ss && has_kind (nodes sc) SkinCluster ds
  then (Ok tt, sc)
  else missing (if has_kind (nodes sc) SkinCluster ss then ds else ss) sc.

Definition do_file_save (sc : graph) : result unit * graph :=
  if PyStr.is_empty (file_name sc) then
    (Raise (RuntimeError "File not saved: no name."), sc)
  else
    (Ok tt, {| nodes := nodes sc; selection := selection sc;
               file_name := file_name sc; saved := saved sc ++ [file_name sc] |}).

Definition run (c : command) : graph -> result (ret_of c) * graph :=
  match c return graph -> result (ret_of c) * graph with
  | select_clear => fun sc => (Ok tt, set_selection [] sc)
  | joint n _ => fun sc => let (j, sc') := create Joint n None sc in (Ok j, sc')
  | parent child new_parent => do_parent child new_parent
  | circle n => fun sc => let (c, sc') := create Transform n None sc in (Ok [c], sc')
  | group member n => do_group member n
  | matchTransform target source => fun sc =>
      if present target sc && present source sc then (Ok tt, sc)
      else missing (if present target sc then source else target) sc
  | parentConstraint driver driven => fun sc =>
      if present driver sc && present driven sc then
        (Ok tt, snd (create Constraint (driven +:+ "_parentConstraint1") (Some driven) sc))
      else missing (if present driver sc then driven else driver) sc
  | duplicate n => do_duplicate n
  | rename old new => do_rename old new
  | ikHandle sj ee => do_ikHandle sj ee
  | hide n => on_node n (set_hidden true)
  | showHidden n => on_node n (set_hidden false)
  | setAttr_flags attr lock _ _ => do_setAttr_flags attr lock
  | setAttr_value attr v => do_setAttr_value attr v
  | copySkinWeights ss ds => do_copySkinWeights ss ds
  | file_rename path => fun sc =>
      (Ok tt, {| nodes := nodes sc; selection := selection sc;
                 file_name := path; saved := saved sc |})
  | file_save _ => do_file_save
  end.

#[global] Instance host : Host graph := {|
  ls_selection sc := selection sc;
  ls_selected_joints sc := List.filter (has_kind (nodes sc) Joint) (selection sc);
  ls_joints sc := names_of_kind (nodes sc) Joint;
  ls_pattern p sc := glob p (nodes sc);
  ls_skinClusters h sc := skin_clusters h (nodes sc);
  listHistory obj sc := history (nodes sc) obj;
  objExists n sc := present n sc;
  listRelatives_ad n sc := joint_descendants n (nodes sc);
  listRelatives_parent n sc := joint_parent n (nodes sc);
  getFileList _ sc := Ok (some_if_any (saved sc));
  exec := run;
  path_join := join
|}.

(** A scene with the given nodes and selection, and fresh managers. *)
Definition start (ns : list node) (sel : list string) : state graph :=
  {| scene := {| nodes := ns; selection := sel; file_name := ""; saved := [] |};
     mgr := init_managers "/home/artist/maya/scripts/Asset/" |}.

End MiniScene.

(** * Specification vocabulary *)

(** ** Reading a trace *)

Definition prepend {Scene A} (evs : list event) (o : outcome Scene A)
  : outcome Scene A :=
  {| res := res o; final := final o; out := evs ++ out o |}.

Definition warnings (evs : list event) : nat :=
  length (List.filter is_warning evs).

(** Every command that raised is directly followed by a warning. *)
Fixpoint surfaced (evs : list event) : bool :=
  match evs with
  | [] => true
  | ECall _ false :: rest =>
      match rest with
      | EWarning _ :: _ => surfaced rest
      | _ => false
      end
  | _ :: rest => surfaced rest
  end.

(** The operation returned normally and surfaced each failure. *)
Definition quiet {Scene A} (o : outcome Scene A) : Prop :=
  is_ok (res o) = true /\ surfaced (out o) = true.

(** The operation returned [False] after one warning and did nothing else. *)
Definition rejected {Scene} (s : state Scene) (o : outcome Scene bool) : Prop :=
  res o = Ok false /\ final o = s /\ exists msg, out o = [EWarning msg].

(** What a state becomes when a command has run. *)
Definition after {Scene} `{!Host Scene} (c : command) (s : state Scene) : state Scene :=
  {| scene := snd (exec c (scene s)); mgr := mgr s |}.

(** ** Batches

    A batch operation walks a list of items.  Each item has a run:
    whether it succeeded and what it emitted. *)

Definition count_ok (runs : list (bool * list event)) : nat :=
  length (List.filter fst runs).

Definition emitted (runs : list (bool * list event)) : list event :=
  concat (map snd runs).

(** Every item of [items] has its run, in order. *)
Definition runs_of {X} (item : X -> bool -> list event -> Prop)
    (items : list X) (runs : list (bool * list event)) : Prop :=
  Forall2 (fun x r => item x (fst r) (snd r)) items runs.

(** The outcome of a batch that reports the count of its successes:
    the runs of all items, each item either a success or one warning,
    then the report when the count is positive; the result is [True]
    iff the count is positive. *)
Definition batch {Scene X} (item : X -> bool -> list event -> Prop)
    (items : list X) (report : nat -> event) (o : outcome Scene bool) : Prop :=
  exists runs,
    runs_of item items runs
    /\ count_ok runs + warnings (emitted runs) = length items
    /\ out o = emitted runs
               ++ (if 0 <? count_ok runs then [report (count_ok runs)] else [])
    /\ res o = Ok (0 <? count_ok runs).

(** One item, one command: it succeeds, or it raises and a warning follows. *)
Inductive attempted {X} (cmd : X -> command) (x : X) : bool -> list event -> Prop :=
| attempted_ok :
    attempted cmd x true [ECall (cmd x) true]
| attempted_failed msg :
    attempted cmd x false [ECall (cmd x) false; EWarning msg].

(** One target of [copy_weights]: skipped with a warning, or one
    [copySkinWeights] from the source's cluster to the target's. *)
Inductive copied (source_skin target : string) : bool -> list event -> Prop :=
| copied_skipped msg :
    copied source_skin target false [EWarning msg]
| copied_attempted dest_skin ok evs :
    attempted (fun _ : string => copySkinWeights source_skin dest_skin) target ok evs ->
    copied source_skin target ok evs.

(** What [lock_unlock_attributes] asks for one attribute of one object. *)
Definition set_flags (lock : bool) (obj attr : string) : command :=
  setAttr_flags (obj +:+ attr) lock (negb lock) (negb lock).

(** One object of [lock_unlock_attributes]: every attribute is set, or
    the attributes are set up to the first that raises and a warning
    follows. *)
Inductive flagged (lock : bool) (attrs : list string) (obj : string)
  : bool -> list event -> Prop :=
| flagged_all :
    flagged lock attrs obj true
      (map (fun a => ECall (set_flags lock obj a) true) attrs)
| flagged_failed done a rest msg :
    attrs = done ++ a :: rest ->
    flagged lock attrs obj false
      (map (fun a => ECall (set_flags lock obj a) true) done
       ++ [ECall (set_flags lock obj a) false; EWarning msg]).

(** The attributes of the enabled groups, in the order of the source. *)
Definition enabled_attrs (translate rotate scale : bool) : list string :=
  (if translate then [".translateX"; ".translateY"; ".translateZ"] else [])
  ++ (if rotate then [".rotateX"; ".rotateY"; ".rotateZ"] else [])
  ++ (if scale then [".scaleX"; ".scaleY"; ".scaleZ"] else []).

(** What [toggle_joint_display] asks for one joint. *)
Definition set_style (show : bool) (joint : string) : command :=
  setAttr_value (joint +:+ ".drawStyle") (if show then 0 else 2)%Z.

(** The joints [toggle_joint_display] works on. *)
Definition joint_list {Scene} `{!Host Scene} (selected_only : bool) (sc : Scene)
  : list string :=
  if selected_only then ls_selected_joints sc else ls_joints sc.

(** The outcome of [toggle_joint_display] past its selection check:
    the runs of all joints, each joint either a success or one warning,
    then one printed line with the number of joints in the list; the
    result is [True]. *)
Definition swept {Scene} (show selected_only : bool) (joints : list string)
    (o : outcome Scene bool) : Prop :=
  exists runs,
    runs_of (attempted (set_style show)) joints runs
    /\ count_ok runs + warnings (emitted runs) = length joints
    /\ out o = emitted runs ++ [EPrint (display_message show selected_only joints)]
    /\ res o = Ok true.

(** Each item is a success or one warning. *)
Definition warns_once {X} (item : X -> bool -> list event -> Prop) : Prop :=
  forall x ok evs, item x ok evs -> warnings evs = if ok then 0 else 1.

(** ** Example scenes *)

Module Studio.
Import MiniScene.

(** One joint whose [drawStyle] is locked. *)
Definition locked_elbow : state graph :=
  start [set_locked ["drawStyle"] (mk Joint "elbow_jnt" None)] [].

(** Two meshes bound to skin clusters, a cube without one, a locked
    node; the cube, the locked node and a mesh are selected. *)
Definition props : state graph :=
  start [ set_skin (Some "skinCluster1") (mk Mesh "body" None);
          mk SkinCluster "skinCluster1" None;
          set_skin (Some "skinCluster2") (mk Mesh "two" None);
          mk SkinCluster "skinCluster2" None;
          mk Mesh "three" None;
          mk Mesh "cube" None;
          set_read_only true (mk Transform "ground" None) ]
        ["cube"; "ground"; "skinCluster1"].

(** A lone root joint: a drive skeleton without children. *)
Definition lone_spine : state graph :=
  start [mk Joint "spine_drv_jnt" None] [].

(** The drive skeleton of [create_basic_skeleton] in an empty scene. *)
Definition skeleton : state graph :=
  final (create_basic_skeleton (start [] [])).

(** The same scene once [create_fk_chain] has run. *)
Definition fk_rigged : state graph :=
  final (create_fk_chain skeleton).
End Studio.

(** An outcome inside a [try]: it returned with every failure surfaced,
    or it stopped on the command that raised, the failures before it
    surfaced. *)
Definition pending {Scene A} (o : outcome Scene A) : Prop :=
  match res o with
  | Ok _ => surfaced (out o) = true
  | Raise _ => exists pre c, out o = pre ++ [ECall c false] /\ surfaced pre = true
  end.

(** ** The managers' fields across a method *)

(** A method keeps the managers' fields related by [R] to what they were. *)
Definition preserves {Scene A} (R : managers -> managers -> Prop) (m : M Scene A)
  : Prop :=
  forall s, R (mgr s) (mgr (final (m s))).

(** Equal but for [fk_ctrls]. *)
Definition same_but_fk_ctrls (m m' : managers) : Prop :=
  target_objects m = target_objects m'
  /\ attributes m = attributes m'
  /\ filepath m = filepath m'.

(** The state with another [fk_ctrls]. *)
Definition with_fk_ctrls {Scene} (d : gmap string string) (s : state Scene)
  : state Scene :=
  {| scene := scene s; mgr := set_fk_ctrls d (mgr s) |}.

(** A method that never looks at [fk_ctrls]: with another dictionary it
    returns and emits the same, leaves the same scene, and leaves that
    dictionary in place. *)
Definition blind {Scene A} (m : M Scene A) : Prop :=
  forall d s,
    res (m (with_fk_ctrls d s)) = res (m s)
    /\ out (m (with_fk_ctrls d s)) = out (m s)
    /\ final (m (with_fk_ctrls d s)) = with_fk_ctrls d (final (m s)).

(** The manager methods other than [create_fk_chain], with their
    arguments, indexed by what they return. *)
Inductive method : Type -> Type :=
| joint_creation_ (name : string) (pos : position) (parent_name : option string)
  : method string
| setup_control_ (jnt : string) : method string
| create_basic_skeleton_ : method unit
| create_ik_setup_ : method unit
| show_display_mode_ (mode : string) : method unit
| get_skin_cluster_ (obj : string) : method (option string)
| copy_weights_ (source_obj : string) (target_list : option (list string)) : method bool
| toggle_joint_display_ (show selected_only : bool) : method bool
| lock_unlock_attributes_ (lock translate rotate scale : bool) : method bool
| rename_objects_ (name_input : string) (is_prefix : bool) : method bool
| get_file_list_ : method (list string)
| save_asset_ (asset_name file_type : string) : method bool.

Definition perform {Scene} `{!Host Scene} {A} (m : method A) : M Scene A :=
  match m with
  | joint_creation_ name pos parent_name => joint_creation name pos parent_name
  | setup_control_ jnt => setup_control jnt
  | create_basic_skeleton_ => create_basic_skeleton
  | create_ik_setup_ => create_ik_setup
  | show_display_mode_ mode => show_display_mode mode
  | get_skin_cluster_ obj => get_skin_cluster obj
  | copy_weights_ source_obj target_list => copy_weights source_obj target_list
  | toggle_joint_display_ show selected_only => toggle_joint_display show selected_only
  | lock_unlock_attributes_ lock translate rotate scale =>
      lock_unlock_attributes lock translate rotate scale
  | rename_objects_ name_input is_prefix => rename_objects name_input is_prefix
  | get_file_list_ => get_file_list
  | save_asset_ asset_name file_type => save_asset asset_name file_type
  end.

(** ** Joint names *)

(** [s] with its suffix [old] replaced by [new], and [s] itself when it
    does not end in [old]. *)
Fixpoint replace_suffix (old new s : string) : string :=
  if String.eqb s old then new
  else match s with
       | EmptyString => EmptyString
       | String c s' => String c (replace_suffix old new s')
       end.

(** Every [rename] in the trace gives the root its name or replaces the
    suffix [old] of the node's name by [new]. *)
Definition renames_suffix (old new root : string) (evs : list event) : Prop :=
  forall a b ok,
    In (rename a b, ok) (calls evs) -> b = root \/ b = replace_suffix old new a.

(** The successful rename of [j] with each [_drv_jnt] in its name
    replaced by [tag]. *)
Definition retagged (tag j : string) : event :=
  ECall (rename j (PyStr.replace "_drv_jnt" tag j)) true.

(** ** The FK control hierarchy *)

Section Hierarchy.
Context {Scene : Type} `{!Host Scene}.

(** The state when the joint at position [k] of [joints] gets its turn. *)
Definition turn (joints : list string) (k : nat) (s : state Scene) : state Scene :=
  final (for_each (take k joints) fk_control s).

(** The control and the group the host makes for the joint at position [k]. *)
Definition rigged_at (joints : list string) (k : nat) (s : state Scene)
  : option (string * string) :=
  match joints !! k with
  | Some jnt =>
      match res (fk_rig (fk_base jnt) jnt (turn joints k s)) with
      | Ok made => Some made
      | Raise _ => None
      end
  | None => None
  end.

(** The parent of [jnt] as [fk_attach] sees it in its turn. *)
Definition parent_seen (joints : list string) (k : nat) (jnt : string)
    (s : state Scene) : option (list string) :=
  listRelatives_parent jnt
    (scene (final (fk_rig (fk_base jnt) jnt (turn joints k s)))).

(** The control hierarchy mirrors the joint hierarchy: whenever the
    parent [p] of a joint was processed before it, [fk_ctrls] holds the
    control made for [p] when the joint's turn comes, and the joint's
    group is parented under that control (a control with an empty name
    would be skipped). *)
Definition mirrors (joints : list string) (s : state Scene) : Prop :=
  forall i k p jnt rest,
    i < k ->
    joints !! i = Some p ->
    joints !! k = Some jnt ->
    parent_seen joints k jnt s = Some (p :: rest) ->
    exists ctrl_p grp_p ctrl grp,
      rigged_at joints i s = Some (ctrl_p, grp_p)
      /\ rigged_at joints k s = Some (ctrl, grp)
      /\ fk_ctrls (mgr (turn joints k s)) !! fk_base p = Some ctrl_p
      /\ (ctrl_p <> "" ->
          In (parent grp ctrl_p, true) (calls (out (fk_control jnt (turn joints k s))))).
End Hierarchy.

Module Rigs.
Import MiniScene.

(** The basic skeleton, duplicated and renamed for FK. *)
Definition fk_named : state graph :=
  final (duplicate_for_fk Studio.skeleton).

(** A drive skeleton with an arm that carries a hand and a twist joint
    called [arm]. *)
Definition twisted : state graph :=
  start [ mk Joint "spine_drv_jnt" None;
          mk Joint "arm_drv_jnt" (Some "spine_drv_jnt");
          mk Joint "hand_drv_jnt" (Some "arm_drv_jnt");
          mk Joint "arm" (Some "arm_drv_jnt") ] [].

(** The same, duplicated and renamed for FK. *)
Definition twisted_fk_named : state graph :=
  final (duplicate_for_fk twisted).

(** The order in which its FK joints get their controls. *)
Definition twisted_joints : list string :=
  fk_order (listRelatives_ad "spine_FK_jnt" (scene twisted_fk_named)).

(** The order for the basic skeleton. *)
Definition fk_joints : list string :=
  fk_order (listRelatives_ad "spine_FK_jnt" (scene fk_named)).
End Rigs.

(** ** Traces against the host

    A trace is what a method says it did.  The definitions below say
    what the host did: the scene a trace leads to, whether each command
    of the trace is marked with what the host answered, and the values
    the host returned. *)

Section OnTheHost.
Context {Scene : Type} `{!Host Scene}.

(** The scene once the commands of a trace have run, oldest first. *)
Fixpoint replay (evs : list event) (sc : Scene) : Scene :=
  match evs with
  | [] => sc
  | ECall c _ :: rest => replay rest (snd (exec c sc))
  | _ :: rest => replay rest sc
  end.

(** Each command of the trace is marked as a success exactly when the
    host, in the scene the earlier commands left, did not raise. *)
Fixpoint truthful (evs : list event) (sc : Scene) : Prop :=
  match evs with
  | [] => True
  | ECall c ok :: rest =>
      is_ok (fst (exec c sc)) = ok /\ truthful rest (snd (exec c sc))
  | _ :: rest => truthful rest sc
  end.

(** The outcome of a run from [s]: its commands were run on the host
    in order, are marked as they went, and the final scene is what they
    left. *)
Definition executed {A} (s : state Scene) (o : outcome Scene A) : Prop :=
  truthful (out o) (scene s) /\ scene (final o) = replay (out o) (scene s).

Definition runs_on_host {A} (m : M Scene A) : Prop :=
  forall s, executed s (m s).

(** Nothing is caught: a command that raises is the last event of the
    run, and the run raises what the command raised. *)
Definition propagates {A} (s : state Scene) (o : outcome Scene A) : Prop :=
  forall pre c post,
    out o = pre ++ ECall c false :: post ->
    post = []
    /\ exists e,
         fst (exec c (replay pre (scene s))) = Raise e /\ res o = Raise e.

(** A method without a handler. *)
Definition unguarded {A} (m : M Scene A) : Prop :=
  forall s, executed s (m s) /\ propagates s (m s).

(** A method with a handler around its commands: it returned normally,
    each failure surfaced, and its trace is that of a run on the host. *)
Definition caught {A} (s : state Scene) (o : outcome Scene A) : Prop :=
  quiet o /\ executed s o.

(** A method without one: its trace is that of a run on the host and
    the first command that raises ends it. *)
Definition uncaught {A} (s : state Scene) (o : outcome Scene A) : Prop :=
  executed s o /\ propagates s o.

(** *** Commands with their answers *)

(** A command that succeeded, with the value the host returned. *)
Definition step : Type := { c : command & ret_of c }.

Definition did (c : command) (a : ret_of c) : step := existT c a.

(** From [sc], each command of the list succeeds and returns the value
    written next to it. *)
Fixpoint answered (steps : list step) (sc : Scene) : Prop :=
  match steps with
  | [] => True
  | st :: rest =>
      fst (exec (projT1 st) sc) = Ok (projT2 st)
      /\ answered rest (snd (exec (projT1 st) sc))
  end.

(** The trace of these commands. *)
Definition issued (steps : list step) : list event :=
  map (fun st => ECall (projT1 st) true) steps.

(** The run from [s] consists of these commands, answered as written,
    and of nothing else. *)
Definition ran {A} (steps : list step) (s : state Scene) (o : outcome Scene A) : Prop :=
  answered steps (scene s)
  /\ out o = issued steps
  /\ scene (final o) = replay (issued steps) (scene s).

(** *** The targets of [copy_weights] *)

(** The skin cluster [get_skin_cluster] finds on an object. *)
Definition skin_of (obj : string) (sc : Scene) : option string :=
  truthy_value (match ls_skinClusters (listHistory obj sc) sc with
                | c :: _ => Some c
                | [] => None
                end).

(** [visits source_skin targets sc evs n]: the loop of [copy_weights]
    over [targets] from the scene [sc] emits [evs] and counts [n]
    copies.  A target that is not in the scene or has no skin cluster
    gets a warning; for any other target the host is asked for one
    [copySkinWeights] from the source's cluster to the target's, and a
    warning follows when it raises. *)
Inductive visits (source_skin : string)
  : list string -> Scene -> list event -> nat -> Prop :=
| visits_done sc :
    visits source_skin [] sc [] 0
| visits_missing target targets sc evs n :
    objExists target sc = false ->
    visits source_skin targets sc evs n ->
    visits source_skin (target :: targets) sc
      (EWarning ("Target object '" +:+ target +:+ "' does not exist. Skipping.") :: evs) n
| visits_bare target targets sc evs n :
    objExists target sc = true ->
    skin_of target sc = None ->
    visits source_skin targets sc evs n ->
    visits source_skin (target :: targets) sc
      (EWarning ("No skinCluster found on " +:+ target +:+ ". Skipping.") :: evs) n
| visits_copied target dest_skin targets sc evs n :
    objExists target sc = true ->
    skin_of target sc = Some dest_skin ->
    fst (exec (copySkinWeights source_skin dest_skin) sc) = Ok tt ->
    visits source_skin targets (snd (exec (copySkinWeights source_skin dest_skin) sc))
      evs n ->
    visits source_skin (target :: targets) sc
      (ECall (copySkinWeights source_skin dest_skin) true :: evs) (S n)
| visits_failed target dest_skin e targets sc evs n :
    objExists target sc = true ->
    skin_of target sc = Some dest_skin ->
    fst (exec (copySkinWeights source_skin dest_skin) sc) = Raise e ->
    visits source_skin targets (snd (exec (copySkinWeights source_skin dest_skin) sc))
      evs n ->
    visits source_skin (target :: targets) sc
      (ECall (copySkinWeights source_skin dest_skin) false
       :: EWarning ("Failed to copy weights to " +:+ target +:+ ": " +:+ str_exn e)
       :: evs) n.
End OnTheHost.

(** * Further properties: vocabulary *)

(** ** Display modes *)

Section Display.
Context {Scene : Type} `{!Host Scene}.

(** Everything [show_display_mode] lists before it hides. *)
Definition listed_all (sc : Scene) : list string :=
  ls_pattern "*_drv_jnt" sc ++ ls_pattern "*_FK_jnt" sc ++ ls_pattern "*_IK_jnt" sc ++
  ls_pattern "*_CTRL" sc ++ ls_pattern "*_GRP" sc ++ ls_pattern "*_offset" sc ++
  ls_pattern "*_IKHandle" sc.

(** What it lists to show again, for each of the three modes. *)
Definition listed_for (mode : string) (sc : Scene) : list string :=
  if String.eqb mode "base" then ls_pattern "*_drv_jnt" sc
  else if String.eqb mode "fk" then
    ls_pattern "*_FK_jnt" sc ++ ls_pattern "*_CTRL" sc ++
    ls_pattern "*_GRP" sc ++ ls_pattern "*_offset" sc
  else
    ls_pattern "*_IK_jnt" sc ++ ls_pattern "*_CTRL" sc ++
    ls_pattern "*_GRP" sc ++ ls_pattern "*_offset" sc ++ ls_pattern "*_IKHandle" sc.

(** The state once everything listed has been hidden. *)
Definition all_hidden (s : state Scene) : state Scene :=
  final (for_each (listed_all (scene s)) (hide_or_show hide) s).
End Display.

(** The successful calls of [cmd] on [nodes], in order. *)
Definition done_on (cmd : string -> command) (nodes : list string) : list event :=
  map (fun n => ECall (cmd n) true) nodes.

(** ** The FK controls on record *)

(** No key of [fk_ctrls] is dropped. *)
Definition keeps_keys (m m' : managers) : Prop :=
  dom (fk_ctrls m) ⊆ dom (fk_ctrls m').

(** ** Saved assets *)

Section Assets.
Context {Scene : Type} `{!Host Scene}.

(** The path [save_asset] renames the scene to. *)
Definition asset_path (asset_name : string) (s : state Scene) : string :=
  path_join (filepath (mgr s)) (PyStr.strip asset_name).
End Assets.

(** The type it saves with and the extension it reports. *)
Definition saved_as (file_type : string) : string * string :=
  if String.eqb file_type "MA" then ("mayaAscii", ".ma") else ("mayaBinary", ".mb").

Definition saved_message (path : string) : event :=
  EDialog "Asset Saved" ("Asset saved successfully:" +:+ newline +:+ path).

Definition save_failed (e : exn) : event :=
  EWarning ("Failed to save asset: " +:+ str_exn e).

(** ** Skin weights *)

Definition target_missing (target : string) : event :=
  EWarning ("Target object '" +:+ target +:+ "' does not exist. Skipping.").

(** ** Controls and IK limbs *)

(** What [setup_control] asks of the host for a joint, with what the
    host answers: the control first in the list the circle returns, its
    offset, its group. *)
Definition control_steps (jnt ctrl : string) (more : list string) (offset grp : string)
  : list step :=
  [did (circle (PyStr.replace "_jnt" "_CTRL" jnt)) (ctrl :: more);
   did (group ctrl (PyStr.replace "_jnt" "_offset" jnt)) offset;
   did (group offset (PyStr.replace "_jnt" "_GRP" jnt)) grp;
   did (matchTransform grp jnt) tt;
   did (parentConstraint ctrl jnt) tt].

(** The same for one FK joint, the names built on its base name. *)
Definition rig_steps (base_name jnt ctrl : string) (more : list string)
    (offset grp : string) : list step :=
  [did (circle (base_name +:+ "_CTRL")) (ctrl :: more);
   did (group ctrl (base_name +:+ "_offset")) offset;
   did (group offset (base_name +:+ "_GRP")) grp;
   did (matchTransform grp jnt) tt;
   did (parentConstraint ctrl jnt) tt].

(** ** The drive skeleton *)

(** Each joint with its position and the place in this table of the
    joint it goes under. *)
Definition skeleton_plan : list (string * position * option nat) :=
  [ ("spine", (0, 8, - one_half), None);
    ("hip", (0, 6 + one_half, - one_half), Some 0%nat);
    ("chest", (0, 10, - one_half), Some 0%nat);
    ("head", (0, 12, - one_half), Some 2%nat);
    ("rt_thigh", (1, 5, - one_half), Some 1%nat);
    ("rt_knee", (1, 2, 0), Some 4%nat);
    ("rt_ankle", (1, 0, - one_half), Some 5%nat);
    ("rt_foot", (1, 0, 1), Some 6%nat);
    ("lt_thigh", (- (1), 5, - one_half), Some 1%nat);
    ("lt_knee", (- (1), 2, 0), Some 8%nat);
    ("lt_ankle", (- (1), 0, - one_half), Some 9%nat);
    ("lt_foot", (- (1), 0, 1), Some 10%nat);
    ("rt_shoulder", (- (1), 11, - one_half), Some 2%nat);
    ("rt_elbow", (- (3), 8 + one_half, - (1)), Some 12%nat);
    ("rt_wrist", (- (4), 6, - one_half), Some 13%nat);
    ("lt_shoulder", (1, 11, - one_half), Some 2%nat);
    ("lt_elbow", (3, 8 + one_half, - (1)), Some 15%nat);
    ("lt_wrist", (4, 6, - one_half), Some 16%nat) ]%Q.

(** What [joint_creation] asks of the host, [j] being the name the
    host answers for the joint. *)
Definition joint_steps (name : string) (pos : position) (parent_name : option string)
    (j : string) : list step :=
  did select_clear tt :: did (joint (name +:+ "_drv_jnt") pos) j
  :: match truthy_value parent_name with
     | Some p => [did (parent j p) tt]
     | None => []
     end.

(** The same for a row of the table: [made] holds the names the host
    answered, [j] the one it answered for this row. *)
Definition planned (made : list string) (row : string * position * option nat)
    (j : string) : list step :=
  let '(name, pos, up) := row in
  joint_steps name pos (match up with Some i => made !! i | None => None end) j.

(** ** A leg ready for its IK handle *)

Module Legs.
Import MiniScene.

(** The three joints of the right leg, named as [create_ik_setup] names
    the joints of the duplicate. *)
Definition ik_leg : state graph :=
  start [ mk Joint "rt_thigh_IK_jnt1" None;
          mk Joint "rt_knee_IK_jnt1" (Some "rt_thigh_IK_jnt1");
          mk Joint "rt_ankle_IK_jnt1" (Some "rt_knee_IK_jnt1") ] [].

Definition rt_leg : string * string * string :=
  ("rt_thigh_IK_jnt1", "rt_ankle_IK_jnt1", "rt_leg_IKHandle").
End Legs.

(** ** The FK copy once its root has a control *)

Module Chest.
Import MiniScene.

(** The FK copy of the basic skeleton after the first turn of the
    control loop, the turn of [spine_FK_jnt]. *)
Definition spine_rigged : state graph :=
  turn Rigs.fk_joints 1 Rigs.fk_named.
End Chest.

(** * Properties of the managers *)

(** ** The embedding at work *)

Example strip_blanks : PyStr.strip "  LT  " = "LT" /\ PyStr.strip "   " = "".
Proof. split; reflexivity. Qed.

Example replace_every_occurrence :
  PyStr.replace "_drv_jnt" "_FK_jnt" "hip_drv_jnt1" = "hip_FK_jnt1"
  /\ PyStr.replace "_FK_jnt" "" "hip_FK_jnt1" = "hip1"
  /\ PyStr.replace "aa" "b" "aaa" = "ba"
  /\ PyStr.replace "" "-" "abc" = "-a-b-c-".
Proof. repeat split; reflexivity. Qed.

Example str_of_count : PyStr.of_nat 0 = "0" /\ PyStr.of_nat 120 = "120".
Proof. split; reflexivity. Qed.

Example title_of_action : PyStr.title "shown" = "Shown" /\ PyStr.title "hidden" = "Hidden".
Proof. split; reflexivity. Qed.

Example rename_with_prefix :
  let o := rename_objects " LT " true Studio.props in
  res o = Ok true
  /\ out o = [ ECall (rename "cube" "LT_cube") true;
               ECall (rename "ground" "LT_ground") false;
               EWarning "Failed to rename ground: Cannot rename a read only node.";
               ECall (rename "skinCluster1" "LT_skinCluster1") true;
               EDialog "Rename Objects" "Successfully renamed 2 objects!" ].
Proof. split; vm_compute; reflexivity. Qed.

Example copy_to_default_targets :
  let o := copy_weights "body" None Studio.props in
  res o = Ok true
  /\ out o = [ ECall (copySkinWeights "skinCluster1" "skinCluster2") true;
               EWarning "No skinCluster found on three. Skipping.";
               EWarning "Target object 'four' does not exist. Skipping.";
               EDialog "Copy Skin Weights"
                 "Skin weights copied successfully to 1 objects!" ].
Proof. split; vm_compute; reflexivity. Qed.

Example lock_translate :
  let o := lock_unlock_attributes true true false false Studio.props in
  res o = Ok true
  /\ out o = [ ECall (setAttr_flags "cube.translateX" true false false) true;
               ECall (setAttr_flags "cube.translateY" true false false) true;
               ECall (setAttr_flags "cube.translateZ" true false false) true;
               ECall (setAttr_flags "ground.translateX" true false false) true;
               ECall (setAttr_flags "ground.translateY" true false false) true;
               ECall (setAttr_flags "ground.translateZ" true false false) true;
               ECall (setAttr_flags "skinCluster1.translateX" true false false) false;
               EWarning "Failed to modify attributes on skinCluster1: No object matches name: skinCluster1.translateX";
               EPrint "Successfully locked attributes on 2 objects" ].
Proof. split; vm_compute; reflexivity. Qed.

Example basic_skeleton_joints :
  MiniScene.names (MiniScene.nodes (scene Studio.skeleton))
  = [ "spine_drv_jnt"; "hip_drv_jnt"; "chest_drv_jnt"; "head_drv_jnt";
      "rt_thigh_drv_jnt"; "rt_knee_drv_jnt"; "rt_ankle_drv_jnt"; "rt_foot_drv_jnt";
      "lt_thigh_drv_jnt"; "lt_knee_drv_jnt"; "lt_ankle_drv_jnt"; "lt_foot_drv_jnt";
      "rt_shoulder_drv_jnt"; "rt_elbow_drv_jnt"; "rt_wrist_drv_jnt";
      "lt_shoulder_drv_jnt"; "lt_elbow_drv_jnt"; "lt_wrist_drv_jnt" ].
Proof. vm_compute. reflexivity. Qed.

(** ** The monad *)

Section MonadFacts.
Context {Scene : Type} `{!Host Scene}.

Lemma outcome_eta {A} (o : outcome Scene A) :
  {| res := res o; final := final o; out := out o |} = o.
Proof. by destruct o. Qed.

Lemma prepend_nil {A} (o : outcome Scene A) : prepend [] o = o.
Proof. apply outcome_eta. Qed.

Lemma prepend_prepend {A} evs evs' (o : outcome Scene A) :
  prepend evs (prepend evs' o) = prepend (evs ++ evs') o.
Proof. unfold prepend; simpl. by rewrite app_assoc. Qed.

Lemma bind_ret {A B} (a : A) (f : A -> M Scene B) s : bind (ret a) f s = f a s.
Proof. unfold bind, ret; simpl. apply outcome_eta. Qed.

Lemma bind_query {A B} (q : Scene -> A) (f : A -> M Scene B) s :
  bind (query q) f s = f (q (scene s)) s.
Proof. unfold bind, query; simpl. apply outcome_eta. Qed.

Lemma bind_self {A B} (field : managers -> A) (f : A -> M Scene B) s :
  bind (self field) f s = f (field (mgr s)) s.
Proof. unfold bind, self; simpl. apply outcome_eta. Qed.

Lemma bind_emit {B} e (f : unit -> M Scene B) s :
  bind (emit e) f s = prepend [e] (f tt s).
Proof. reflexivity. Qed.

Lemma bind_warning {B} msg (f : unit -> M Scene B) s :
  bind (warning msg) f s = prepend [EWarning msg] (f tt s).
Proof. reflexivity. Qed.

Lemma bind_raise {A B} e (f : A -> M Scene B) s :
  bind (raise e) f s = {| res := Raise e; final := s; out := [] |}.
Proof. reflexivity. Qed.

Lemma call_eq c s :
  call c s = {| res := fst (exec c (scene s)); final := after c s;
                out := [ECall c (is_ok (fst (exec c (scene s))))] |}.
Proof. unfold call, after. by destruct (exec c (scene s)). Qed.

Lemma bind_call_ok {B} c (f : ret_of c -> M Scene B) s a :
  fst (exec c (scene s)) = Ok a ->
  bind (call c) f s = prepend [ECall c true] (f a (after c s)).
Proof. intros E. unfold bind. rewrite call_eq; simpl. by rewrite E. Qed.

Lemma bind_call_raise {B} c (f : ret_of c -> M Scene B) s e :
  fst (exec c (scene s)) = Raise e ->
  bind (call c) f s = {| res := Raise e; final := after c s; out := [ECall c false] |}.
Proof. intros E. unfold bind. rewrite call_eq; simpl. by rewrite E. Qed.

Lemma bind_assoc {A B C} (m : M Scene A) (f : A -> M Scene B) (g : B -> M Scene C) s :
  bind (bind m f) g s = bind m (fun a => bind (f a) g) s.
Proof.
  unfold bind. destruct (res (m s)) as [a|e]; simpl; [|done].
  destruct (res (f a (final (m s)))); simpl; [|done].
  by rewrite app_assoc.
Qed.
End MonadFacts.

(** ** Validation *)

Section Validation.
Context {Scene : Type} `{!Host Scene}.

Lemma is_empty_spec s : PyStr.is_empty s = true <-> s = "".
Proof. destruct s; simpl; split; congruence. Qed.

Lemma truthy_false s : PyStr.truthy s = false <-> s = "".
Proof. unfold PyStr.truthy. destruct s; simpl; split; congruence. Qed.

Lemma list_truthy_false {A} (l : list A) : list_truthy l = false <-> l = [].
Proof. destruct l; simpl; split; congruence. Qed.

Lemma rejected_warning (s : state Scene) msg :
  rejected s (bind (warning msg) (fun _ => ret false) s).
Proof. repeat split. by exists msg. Qed.

Lemma get_skin_cluster_eq obj (s : state Scene) :
  get_skin_cluster obj s =
  {| res := Ok (match ls_skinClusters (listHistory obj (scene s)) (scene s) with
                | c :: _ => Some c
                | [] => None
                end);
     final := s; out := [] |}.
Proof. unfold get_skin_cluster. by rewrite !bind_query. Qed.

Lemma bind_get_skin_cluster {B} obj (f : option string -> M Scene B) s :
  bind (get_skin_cluster obj) f s =
  f (match ls_skinClusters (listHistory obj (scene s)) (scene s) with
     | c :: _ => Some c
     | [] => None
     end) s.
Proof. unfold bind. rewrite get_skin_cluster_eq; simpl. apply outcome_eta. Qed.

Lemma rename_objects_rejects name_input is_prefix (s : state Scene) :
  ls_selection (scene s) = [] \/ PyStr.strip name_input = "" ->
  rejected s (rename_objects name_input is_prefix s).
Proof.
  intros Hbad. unfold rename_objects. rewrite bind_query.
  destruct (list_truthy (ls_selection (scene s))) eqn:Hsel; simpl.
  - destruct Hbad as [Hnil | Hname].
    + apply list_truthy_false in Hnil. congruence.
    + apply truthy_false in Hname. rewrite Hname; simpl. apply rejected_warning.
  - apply rejected_warning.
Qed.

Lemma copy_weights_rejects source_obj target_list (s : state Scene) :
  source_obj = ""
  \/ objExists source_obj (scene s) = false
  \/ ls_skinClusters (listHistory source_obj (scene s)) (scene s) = [] ->
  rejected s (copy_weights source_obj target_list s).
Proof.
  intros Hbad. unfold copy_weights.
  destruct (PyStr.truthy source_obj) eqn:Hsrc; simpl; [|apply rejected_warning].
  rewrite bind_query.
  destruct (objExists source_obj (scene s)) eqn:Hex; simpl; [|apply rejected_warning].
  rewrite bind_get_skin_cluster.
  destruct Hbad as [Hnil | [Hno | Hskin]].
  - apply truthy_false in Hnil. congruence.
  - congruence.
  - rewrite Hskin; simpl. apply rejected_warning.
Qed.

Lemma save_asset_rejects asset_name file_type (s : state Scene) :
  PyStr.strip asset_name = "" ->
  rejected s (save_asset asset_name file_type s).
Proof.
  intros Hname. unfold save_asset. apply truthy_false in Hname.
  rewrite Hname; simpl. apply rejected_warning.
Qed.

(** C3: [rename_objects], [copy_weights] and [save_asset] check their
    input first.  When the selection is empty or the stripped name is
    empty, when the source is empty, missing or without a skin
    cluster, when the stripped asset name is empty, the operation
    emits one warning and returns [False]; the scene and the managers
    are as before and no command was issued. *)
Theorem validation_rejects (s : state Scene) :
  (forall name_input is_prefix,
      ls_selection (scene s) = [] \/ PyStr.strip name_input = "" ->
      rejected s (rename_objects name_input is_prefix s))
  /\ (forall source_obj target_list,
      source_obj = ""
      \/ objExists source_obj (scene s) = false
      \/ ls_skinClusters (listHistory source_obj (scene s)) (scene s) = [] ->
      rejected s (copy_weights source_obj target_list s))
  /\ (forall asset_name file_type,
      PyStr.strip asset_name = "" ->
      rejected s (save_asset asset_name file_type s)).
Proof.
  split; [|split]; intros.
  - by apply rename_objects_rejects.
  - by apply copy_weights_rejects.
  - by apply save_asset_rejects.
Qed.

(** C6: without a node named [spine_drv_jnt], [create_fk_chain] and
    [create_ik_setup] emit the warning and return at once: no command
    is issued and the scene and the managers are unchanged. *)
Theorem rig_requires_skeleton (s : state Scene) :
  objExists "spine_drv_jnt" (scene s) = false ->
  create_fk_chain s = {| res := Ok tt; final := s; out := [EWarning no_skeleton] |}
  /\ create_ik_setup s = {| res := Ok tt; final := s; out := [EWarning no_skeleton] |}.
Proof.
  intros Hno. unfold create_fk_chain, create_ik_setup.
  rewrite !bind_query, Hno. split; reflexivity.
Qed.

End Validation.

(** C3 at work: a blank name, a source that is not in the scene, a blank
    asset name. *)
Lemma validation_rejects_witness :
  rejected Studio.props (rename_objects "   " true Studio.props)
  /\ rejected Studio.props (copy_weights "torso" None Studio.props)
  /\ rejected Studio.props (save_asset " " "MA" Studio.props).
Proof.
  destruct (validation_rejects Studio.props) as (Hrename & Hcopy & Hsave).
  split; [|split].
  - apply Hrename. right. reflexivity.
  - apply Hcopy. right. left. reflexivity.
  - apply Hsave. reflexivity.
Defined.

(** C6 at work: a scene with one elbow joint and no skeleton. *)
Lemma rig_requires_skeleton_witness :
  objExists "spine_drv_jnt" (scene Studio.locked_elbow) = false
  /\ create_fk_chain Studio.locked_elbow
     = {| res := Ok tt; final := Studio.locked_elbow; out := [EWarning no_skeleton] |}
  /\ create_ik_setup Studio.locked_elbow
     = {| res := Ok tt; final := Studio.locked_elbow; out := [EWarning no_skeleton] |}.
Proof.
  split; [reflexivity|].
  exact (rig_requires_skeleton Studio.locked_elbow eq_refl).
Defined.

(** ** Batch operations *)

Section Batches.
Context {Scene : Type} `{!Host Scene}.

Lemma bind_ok {A B} (m : M Scene A) (f : A -> M Scene B) s a :
  res (m s) = Ok a ->
  bind m f s = prepend (out (m s)) (f a (final (m s))).
Proof. intros E. unfold bind. by rewrite E. Qed.

Lemma bind_raised {A B} (m : M Scene A) (f : A -> M Scene B) s e :
  res (m s) = Raise e ->
  bind m f s = {| res := Raise e; final := final (m s); out := out (m s) |}.
Proof. intros E. unfold bind. by rewrite E. Qed.

Lemma try_ok {A} (m : M Scene A) h s a :
  res (m s) = Ok a -> try_except m h s = m s.
Proof. intros E. unfold try_except. by rewrite E. Qed.

Lemma try_raised {A} (m : M Scene A) h s e :
  res (m s) = Raise e ->
  try_except m h s = prepend (out (m s)) (h e (final (m s))).
Proof. intros E. unfold try_except. by rewrite E. Qed.

Lemma count_ok_cons ok evs runs :
  count_ok ((ok, evs) :: runs) = (if ok then 1 else 0) + count_ok runs.
Proof. unfold count_ok. by destruct ok. Qed.

(** A loop whose body counts one success or emits the run of a
    failure goes through every item. *)
Lemma for_in_runs {X} (item : X -> bool -> list event -> Prop)
    (body : X -> nat -> M Scene nat) :
  (forall x n s, exists ok : bool,
      res (body x n s) = Ok (n + (if ok then 1 else 0))
      /\ item x ok (out (body x n s))) ->
  forall xs n s, exists runs,
    runs_of item xs runs
    /\ res (for_in xs body n s) = Ok (n + count_ok runs)
    /\ out (for_in xs body n s) = emitted runs.
Proof.
  intros Hbody xs. induction xs as [|x xs IH]; intros n s.
  - exists (@nil (bool * list event)). split; [constructor|].
    simpl. split; [f_equal; unfold count_ok; simpl; lia | done].
  - destruct (Hbody x n s) as (ok & Hres & Hitem).
    destruct (IH (n + (if ok then 1 else 0)) (final (body x n s)))
      as (runs & Hruns & Hres' & Hout').
    exists ((ok, out (body x n s)) :: runs). split; [by constructor|].
    simpl. rewrite (bind_ok _ _ _ _ Hres); simpl.
    rewrite Hres', Hout', count_ok_cons. split; [f_equal; lia | done].
Qed.

Lemma warnings_app evs evs' : warnings (evs ++ evs') = warnings evs + warnings evs'.
Proof. unfold warnings. by rewrite List.filter_app, length_app. Qed.

Lemma runs_tally {X} (item : X -> bool -> list event -> Prop) items runs :
  warns_once item ->
  runs_of item items runs ->
  count_ok runs + warnings (emitted runs) = length items.
Proof.
  intros Hone Hruns. induction Hruns as [|x [ok evs] items runs Hitem _ IH]; [done|].
  unfold emitted in *; simpl in *. rewrite count_ok_cons, warnings_app.
  rewrite (Hone _ _ _ Hitem). destruct ok; lia.
Qed.

Lemma attempted_warns_once {X} (cmd : X -> command) : warns_once (attempted cmd).
Proof. by intros x ok evs []. Qed.

Lemma copied_warns_once source_skin : warns_once (copied source_skin).
Proof. intros x ok evs [|ds ok' evs' []]; done. Qed.

Lemma flagged_warns_once lock attrs : warns_once (flagged lock attrs).
Proof.
  intros x ok evs [|done a rest msg _]; rewrite ?warnings_app.
  - induction attrs; [done | by simpl].
  - assert (warnings (map (fun a => ECall (set_flags lock x a) true) done) = 0) as ->;
      [|done]. by induction done.
Qed.

(** The end of the three counting operations. *)
Lemma report_batch {X} (item : X -> bool -> list event -> Prop) items
    (loop : M Scene nat) (say : nat -> M Scene unit) (report : nat -> event) s runs :
  (forall n s', say n s' = {| res := Ok tt; final := s'; out := [report n] |}) ->
  warns_once item ->
  runs_of item items runs ->
  res (loop s) = Ok (count_ok runs) ->
  out (loop s) = emitted runs ->
  batch item items report
    (bind loop (fun n =>
       bind (if 0 <? n then say n else ret tt) (fun _ => ret (0 <? n))) s).
Proof.
  intros Hsay Hone Hruns Hres Hout. exists runs. split; [done|].
  split; [by eapply runs_tally|].
  rewrite (bind_ok _ _ _ _ Hres); simpl. rewrite Hout.
  destruct (0 <? count_ok runs).
  - unfold bind. rewrite !Hsay; simpl. done.
  - by rewrite bind_ret.
Qed.

(** *** rename_objects *)

Lemma rename_object_run is_prefix name obj n (s : state Scene) :
  exists ok : bool,
    res (rename_object is_prefix name obj n s) = Ok (n + (if ok then 1 else 0))
    /\ attempted (fun obj => rename obj (new_name is_prefix name obj)) obj ok
         (out (rename_object is_prefix name obj n s)).
Proof.
  unfold rename_object.
  destruct (fst (exec (rename obj (new_name is_prefix name obj)) (scene s)))
    as [a|e] eqn:E.
  - exists true. rewrite (try_ok _ _ _ (n + 1)); rewrite (bind_call_ok _ _ _ _ E);
      simpl; [|done]. split; [done|].
    exact (attempted_ok (fun obj => rename obj (new_name is_prefix name obj)) obj).
  - exists false. rewrite (try_raised _ _ _ e); rewrite (bind_call_raise _ _ _ _ E);
      simpl; [|done]. split; [f_equal; lia|].
    exact (attempted_failed (fun obj => rename obj (new_name is_prefix name obj)) obj _).
Qed.

Lemma rename_objects_batch name_input is_prefix (s : state Scene) :
  ls_selection (scene s) <> [] ->
  PyStr.strip name_input <> "" ->
  batch (attempted (fun obj => rename obj (new_name is_prefix (PyStr.strip name_input) obj)))
    (ls_selection (scene s))
    (fun n => EDialog "Rename Objects" (renamed_message n))
    (rename_objects name_input is_prefix s).
Proof.
  intros Hsel Hname. unfold rename_objects. rewrite bind_query.
  destruct (list_truthy (ls_selection (scene s))) eqn:Hs; simpl;
    [|by apply list_truthy_false in Hs].
  destruct (PyStr.truthy (PyStr.strip name_input)) eqn:Hn; simpl;
    [|by apply truthy_false in Hn].
  destruct (for_in_runs _ _ (rename_object_run is_prefix (PyStr.strip name_input))
              (ls_selection (scene s)) 0 s) as (runs & Hruns & Hres & Hout).
  eapply (report_batch _ _ _ (fun n => confirmDialog "Rename Objects" (renamed_message n)));
    eauto using attempted_warns_once.
Qed.

(** *** copy_weights *)

Lemma copy_to_run source_skin target n (s : state Scene) :
  exists ok : bool,
    res (copy_to source_skin target n s) = Ok (n + (if ok then 1 else 0))
    /\ copied source_skin target ok (out (copy_to source_skin target n s)).
Proof.
  unfold copy_to. rewrite bind_query.
  destruct (objExists target (scene s)); cbn [negb].
  2:{ exists false. split; [simpl; f_equal; lia | apply copied_skipped]. }
  rewrite bind_get_skin_cluster.
  destruct (truthy_value _) as [dest_skin|].
  2:{ exists false. split; [simpl; f_equal; lia | apply copied_skipped]. }
  destruct (fst (exec (copySkinWeights source_skin dest_skin) (scene s)))
    as [a|e] eqn:E.
  - exists true. rewrite (try_ok _ _ _ (n + 1)); rewrite (bind_call_ok _ _ _ _ E);
      simpl; [|done]. split; [done|].
    apply (copied_attempted _ _ dest_skin).
    exact (attempted_ok (fun _ : string => copySkinWeights source_skin dest_skin) target).
  - exists false. rewrite (try_raised _ _ _ e); rewrite (bind_call_raise _ _ _ _ E);
      simpl; [|done]. split; [f_equal; lia|].
    apply (copied_attempted _ _ dest_skin).
    exact (attempted_failed (fun _ : string => copySkinWeights source_skin dest_skin)
             target _).
Qed.

Lemma copy_weights_batch source_obj target_list source_skin (s : state Scene) :
  source_obj <> "" ->
  objExists source_obj (scene s) = true ->
  res (get_skin_cluster source_obj s) = Ok (Some source_skin) ->
  source_skin <> "" ->
  batch (copied source_skin)
    (or_list target_list (target_objects (mgr s)))
    (fun n => EDialog "Copy Skin Weights" (copied_message n))
    (copy_weights source_obj target_list s).
Proof.
  intros Hsrc Hex Hskin Hne. unfold copy_weights.
  destruct (PyStr.truthy source_obj) eqn:Ht; simpl; [|by apply truthy_false in Ht].
  rewrite bind_query, Hex; simpl. rewrite bind_get_skin_cluster.
  rewrite get_skin_cluster_eq in Hskin; simpl in Hskin.
  injection Hskin as ->. simpl.
  destruct (PyStr.truthy source_skin) eqn:Hs; [|by apply truthy_false in Hs].
  rewrite bind_self.
  destruct (for_in_runs _ _ (copy_to_run source_skin)
              (or_list target_list (target_objects (mgr s))) 0 s)
    as (runs & Hruns & Hres & Hout).
  eapply (report_batch _ _ _
            (fun n => confirmDialog "Copy Skin Weights" (copied_message n)));
    eauto using copied_warns_once.
Qed.

(** *** lock_unlock_attributes *)

Lemma for_in_cons {X A} x xs (body : X -> A -> M Scene A) acc s :
  for_in (x :: xs) body acc s = bind (body x acc) (fun acc' => for_in xs body acc') s.
Proof. reflexivity. Qed.

Lemma for_each_cons {X} x xs (body : X -> M Scene unit) s :
  for_each (x :: xs) body s = bind (body x) (fun _ => for_each xs body) s.
Proof.
  unfold for_each; simpl. unfold bind. by destruct (res (body x s)) as [[]|].
Qed.

Lemma for_each_set_flags lock obj attrs (s : state Scene) :
  let o := for_each attrs (fun attr => call (set_flags lock obj attr)) s in
  (res o = Ok tt /\ out o = map (fun a => ECall (set_flags lock obj a) true) attrs)
  \/ (exists done a rest e,
         attrs = done ++ a :: rest /\ res o = Raise e
         /\ out o = map (fun a => ECall (set_flags lock obj a) true) done
                    ++ [ECall (set_flags lock obj a) false]).
Proof.
  revert s. induction attrs as [|a attrs IH]; intros s; [by left|].
  cbv zeta. rewrite for_each_cons.
  destruct (fst (exec (set_flags lock obj a) (scene s))) as [[]|e] eqn:E.
  - rewrite (bind_call_ok _ _ _ _ E); simpl.
    destruct (IH (after (set_flags lock obj a) s))
      as [[-> ->] | (done & b & rest & e & -> & -> & ->)]; [by left|].
    right. by exists (a :: done), b, rest, e.
  - rewrite (bind_call_raise _ _ _ _ E); simpl.
    right. by exists [], a, attrs, e.
Qed.

Lemma lock_object_run lock attrs obj n (s : state Scene) :
  exists ok : bool,
    res (lock_object lock attrs obj n s) = Ok (n + (if ok then 1 else 0))
    /\ flagged lock attrs obj ok (out (lock_object lock attrs obj n s)).
Proof.
  unfold lock_object.
  change (fun attr => call (setAttr_flags (obj +:+ attr) lock (negb lock) (negb lock)))
    with (fun attr => call (Scene := Scene) (set_flags lock obj attr)).
  destruct (for_each_set_flags lock obj attrs s)
    as [[Hres Hout] | (done & a & rest & e & Hattrs & Hres & Hout)].
  - exists true. rewrite (try_ok _ _ _ (n + 1)); rewrite (bind_ok _ _ _ _ Hres);
      simpl; [|done]. rewrite Hout, app_nil_r. split; [done | constructor].
  - exists false. rewrite (try_raised _ _ _ e); rewrite (bind_raised _ _ _ _ Hres);
      simpl; [|done]. rewrite Hout, <- app_assoc; simpl.
    split; [f_equal; lia | by eapply flagged_failed].
Qed.

Lemma init_attributes_lookup :
  init_attributes !! "Translate" = Some [".translateX"; ".translateY"; ".translateZ"]
  /\ init_attributes !! "Rotate" = Some [".rotateX"; ".rotateY"; ".rotateZ"]
  /\ init_attributes !! "Scale" = Some [".scaleX"; ".scaleY"; ".scaleZ"].
Proof. repeat split; vm_compute; reflexivity. Qed.

Lemma attr_groups_enabled translate rotate scale {B}
    (f : list string -> M Scene B) (s : state Scene) :
  attributes (mgr s) = init_attributes ->
  bind (extend_if translate "Translate" []) (fun g =>
    bind (extend_if rotate "Rotate" g) (fun g =>
      bind (extend_if scale "Scale" g) f)) s
  = f (enabled_attrs translate rotate scale) s.
Proof.
  intros Hinit. destruct init_attributes_lookup as (Ht & Hr & Hs).
  assert (Hext : forall flag key v acc (k : list string -> M Scene B) s',
             mgr s' = mgr s -> init_attributes !! key = Some v ->
             bind (extend_if flag key acc) k s' = k (acc ++ if flag then v else []) s').
  { intros flag key v acc k s' Hm Hk. unfold extend_if, attributes_item.
    destruct flag; [|by rewrite bind_ret, app_nil_r].
    rewrite !bind_assoc, bind_self, Hm, Hinit, Hk. by rewrite !bind_ret. }
  rewrite (Hext _ _ _ _ _ _ eq_refl Ht), (Hext _ _ _ _ _ _ eq_refl Hr),
    (Hext _ _ _ _ _ _ eq_refl Hs).
  unfold enabled_attrs. by rewrite <- app_assoc.
Qed.

Lemma lock_unlock_attributes_batch lock translate rotate scale (s : state Scene) :
  ls_selection (scene s) <> [] ->
  attributes (mgr s) = init_attributes ->
  translate || rotate || scale = true ->
  batch (flagged lock (enabled_attrs translate rotate scale))
    (ls_selection (scene s))
    (fun n => EPrint (locked_message lock n))
    (lock_unlock_attributes lock translate rotate scale s).
Proof.
  intros Hsel Hinit Hany. unfold lock_unlock_attributes. rewrite bind_query.
  destruct (list_truthy (ls_selection (scene s))) eqn:Hs; simpl;
    [|by apply list_truthy_false in Hs].
  rewrite attr_groups_enabled by done.
  destruct (list_truthy (enabled_attrs translate rotate scale)) eqn:Ha; simpl.
  2:{ by destruct translate, rotate, scale. }
  destruct (for_in_runs _ _
              (lock_object_run lock (enabled_attrs translate rotate scale))
              (ls_selection (scene s)) 0 s) as (runs & Hruns & Hres & Hout).
  eapply (report_batch _ _ _ (fun n => print (locked_message lock n)));
    eauto using flagged_warns_once.
Qed.

Lemma lock_unlock_attributes_none lock (s : state Scene) :
  ls_selection (scene s) <> [] ->
  attributes (mgr s) = init_attributes ->
  lock_unlock_attributes lock false false false s
  = {| res := Ok false; final := s; out := [EWarning "No attributes specified."] |}.
Proof.
  intros Hsel Hinit. unfold lock_unlock_attributes. rewrite bind_query.
  destruct (list_truthy (ls_selection (scene s))) eqn:Hs; cbn [negb];
    [|by apply list_truthy_false in Hs].
  by rewrite (attr_groups_enabled false false false) by done.
Qed.

(** *** toggle_joint_display *)

Lemma for_each_runs {X} (item : X -> bool -> list event -> Prop)
    (body : X -> M Scene unit) :
  (forall x s, exists ok : bool,
      res (body x s) = Ok tt /\ item x ok (out (body x s))) ->
  forall xs s, exists runs,
    runs_of item xs runs
    /\ res (for_each xs body s) = Ok tt
    /\ out (for_each xs body s) = emitted runs.
Proof.
  intros Hbody xs. induction xs as [|x xs IH]; intros s.
  - exists (@nil (bool * list event)). by split; [constructor|].
  - destruct (Hbody x s) as (ok & Hres & Hitem).
    destruct (IH (final (body x s))) as (runs & Hruns & Hres' & Hout').
    exists ((ok, out (body x s)) :: runs). split; [by constructor|].
    rewrite for_each_cons, (bind_ok _ _ _ _ Hres); simpl.
    by rewrite Hres', Hout'.
Qed.

Lemma set_draw_style_run (show : bool) joint (s : state Scene) :
  let o := set_draw_style (if show then 0 else 2)%Z joint s in
  exists ok : bool, res o = Ok tt /\ attempted (set_style show) joint ok (out o).
Proof.
  unfold set_draw_style. fold (set_style show joint).
  destruct (fst (exec (set_style show joint) (scene s))) as [[]|e] eqn:E.
  - exists true. rewrite (try_ok _ _ _ tt); rewrite call_eq; cbn [res out]; rewrite E;
      [|done]. split; [done | constructor].
  - exists false. rewrite (try_raised _ _ _ e); rewrite call_eq; cbn [res out];
      rewrite E; [|done]. split; [done | constructor].
Qed.

Lemma toggle_joint_display_swept (show selected_only : bool) (s : state Scene) :
  selected_only = false \/ ls_selected_joints (scene s) <> [] ->
  swept show selected_only (joint_list selected_only (scene s))
    (toggle_joint_display show selected_only s).
Proof.
  intros Hsel.
  assert (Hrest : forall joints,
    swept show selected_only joints
      (bind (for_each joints (set_draw_style (if show then 0 else 2)%Z)) (fun _ =>
         bind (print (display_message show selected_only joints)) (fun _ => ret true)) s)).
  { intros joints.
    destruct (for_each_runs _ _ (set_draw_style_run show) joints s)
      as (runs & Hruns & Hres & Hout).
    exists runs. split; [done|].
    split; [by eapply runs_tally; [apply attempted_warns_once|]|].
    rewrite (bind_ok _ _ _ _ Hres); simpl. by rewrite Hout. }
  unfold toggle_joint_display, joint_list. destruct selected_only.
  - rewrite bind_query.
    destruct (list_truthy (ls_selected_joints (scene s))) eqn:Hj; simpl;
      [apply Hrest|].
    apply list_truthy_false in Hj. by destruct Hsel.
  - rewrite bind_query. apply Hrest.
Qed.

(** *** The claims on batches *)

Lemma calls_app evs evs' : calls (evs ++ evs') = calls evs ++ calls evs'.
Proof.
  induction evs as [|[] evs IH]; simpl; try done. by rewrite IH.
Qed.

Lemma attempted_calls {X} (cmd : X -> command) items runs :
  runs_of (attempted cmd) items runs ->
  map fst (calls (emitted runs)) = map cmd items
  /\ existsb snd (calls (emitted runs)) = (0 <? count_ok runs).
Proof.
  intros Hruns. induction Hruns as [|x [ok evs] items runs Hitem _ [IH1 IH2]]; [done|].
  unfold emitted in *; simpl in *. rewrite calls_app, map_app, existsb_app, count_ok_cons.
  rewrite IH1, IH2. destruct Hitem; simpl; [|done].
  split; [done|]. by destruct (count_ok runs).
Qed.

(** C1 (amended): [rename_objects], [copy_weights] and
    [lock_unlock_attributes], past their validation, go through every
    item; an item that fails emits one warning and the loop goes on;
    the count of the items that succeeded is shown in the dialog or
    printed line, which appears only when the count is positive, and
    the result is [True] iff the count is positive.
    [toggle_joint_display] also goes through every joint and warns on
    each failure, but it prints the number of joints in its list and
    returns [True] whatever failed. *)
Theorem batch_operations (s : state Scene) :
  (forall name_input is_prefix,
      ls_selection (scene s) <> [] ->
      PyStr.strip name_input <> "" ->
      batch (attempted (fun obj =>
               rename obj (new_name is_prefix (PyStr.strip name_input) obj)))
        (ls_selection (scene s))
        (fun n => EDialog "Rename Objects" (renamed_message n))
        (rename_objects name_input is_prefix s))
  /\ (forall source_obj target_list source_skin,
      source_obj <> "" ->
      objExists source_obj (scene s) = true ->
      res (get_skin_cluster source_obj s) = Ok (Some source_skin) ->
      source_skin <> "" ->
      batch (copied source_skin)
        (or_list target_list (target_objects (mgr s)))
        (fun n => EDialog "Copy Skin Weights" (copied_message n))
        (copy_weights source_obj target_list s))
  /\ (forall lock translate rotate scale,
      ls_selection (scene s) <> [] ->
      attributes (mgr s) = init_attributes ->
      translate || rotate || scale = true ->
      batch (flagged lock (enabled_attrs translate rotate scale))
        (ls_selection (scene s))
        (fun n => EPrint (locked_message lock n))
        (lock_unlock_attributes lock translate rotate scale s))
  /\ (forall show selected_only,
      selected_only = false \/ ls_selected_joints (scene s) <> [] ->
      swept show selected_only (joint_list selected_only (scene s))
        (toggle_joint_display show selected_only s)).
Proof.
  repeat split; intros.
  - by apply rename_objects_batch.
  - by apply copy_weights_batch.
  - by apply lock_unlock_attributes_batch.
  - by apply toggle_joint_display_swept.
Qed.
End Batches.

(** C1 at work: the four operations on concrete scenes. *)
Lemma batch_operations_witness :
  batch (attempted (fun obj => rename obj (new_name true "LT" obj)))
    ["cube"; "ground"; "skinCluster1"]
    (fun n => EDialog "Rename Objects" (renamed_message n))
    (rename_objects " LT " true Studio.props)
  /\ batch (copied "skinCluster1") ["two"; "three"; "four"]
       (fun n => EDialog "Copy Skin Weights" (copied_message n))
       (copy_weights "body" (Some []) Studio.props)
  /\ batch (flagged false (enabled_attrs false true false))
       ["cube"; "ground"; "skinCluster1"]
       (fun n => EPrint (locked_message false n))
       (lock_unlock_attributes false false true false Studio.props)
  /\ swept false false ["elbow_jnt"]
       (toggle_joint_display false false Studio.locked_elbow).
Proof.
  destruct (batch_operations Studio.props) as (Hrename & Hcopy & Hlock & _).
  destruct (batch_operations Studio.locked_elbow) as (_ & _ & _ & Htoggle).
  split; [|split; [|split]].
  - apply (Hrename " LT " true); vm_compute; discriminate.
  - apply (Hcopy "body" (Some []) "skinCluster1");
      [discriminate | reflexivity | reflexivity | discriminate].
  - apply (Hlock false false true false);
      [vm_compute; discriminate | reflexivity | reflexivity].
  - apply (Htoggle false false). left; reflexivity.
Defined.

(** C1 as stated fails on [toggle_joint_display]: with one joint whose
    [drawStyle] is locked nothing succeeds, yet the line printed says one
    joint and the result is [True]; no report of the count of successes
    fits this outcome. *)
Lemma toggle_joint_display_miscounts :
  let o := toggle_joint_display true false Studio.locked_elbow in
  joint_list false (scene Studio.locked_elbow) = ["elbow_jnt"]
  /\ calls (out o) = [(set_style true "elbow_jnt", false)]
  /\ In (EPrint "Shown 1 all joints") (out o)
  /\ res o = Ok true
  /\ ~ (exists report,
          batch (attempted (set_style true)) ["elbow_jnt"] report o).
Proof.
  split; [reflexivity|]. split; [reflexivity|].
  split; [vm_compute; tauto|]. split; [reflexivity|].
  intros (report & runs & Hruns & _ & Hout & Hres).
  inversion Hruns as [|x [ok evs] xs rs Hitem Hrest]; subst.
  inversion Hrest; subst. clear Hruns Hrest.
  simpl in Hitem. inversion Hitem; subst.
  - vm_compute in Hout. discriminate.
  - vm_compute in Hres. discriminate.
Qed.

(** ** Failures caught inside the operation *)

Section Guarded.
Context {Scene : Type} `{!Host Scene}.

Lemma surfaced_app evs evs' :
  surfaced evs = true -> surfaced (evs ++ evs') = surfaced evs'.
Proof.
  induction evs as [|e evs IH]; [done|].
  destruct e as [| | |c []]; simpl; auto.
  destruct evs as [|[] evs]; simpl; try discriminate. exact IH.
Qed.

Lemma surfaced_failed pre c msg rest :
  surfaced pre = true ->
  surfaced (pre ++ [ECall c false] ++ EWarning msg :: rest) = surfaced rest.
Proof. intros Hpre. by rewrite surfaced_app. Qed.

Lemma quiet_pending {A} (o : outcome Scene A) : quiet o -> pending o.
Proof. intros [Hok Hs]. unfold pending. by destruct (res o). Qed.

Lemma quiet_ret {A} (a : A) (s : state Scene) : quiet (ret a s).
Proof. done. Qed.

Lemma quiet_emit e (s : state Scene) :
  (forall c, e <> ECall c false) -> quiet (emit e s).
Proof. intros He. split; [done|]. destruct e as [| | |c []]; try done. by destruct (He c). Qed.

Lemma quiet_bind {A B} (m : M Scene A) (f : A -> M Scene B) s :
  quiet (m s) -> (forall a s', quiet (f a s')) -> quiet (bind m f s).
Proof.
  intros [Hok Hs] Hf. unfold bind. destruct (res (m s)) as [a|e]; [|done].
  destruct (Hf a (final (m s))) as [Hok' Hs']. split; [done|].
  simpl. by rewrite surfaced_app.
Qed.

Lemma pending_bind {A B} (m : M Scene A) (f : A -> M Scene B) s :
  pending (m s) -> (forall a s', pending (f a s')) -> pending (bind m f s).
Proof.
  unfold pending at 1 3, bind. intros Hm Hf.
  destruct (res (m s)) as [a|e]; simpl; [|done].
  specialize (Hf a (final (m s))). unfold pending in Hf.
  destruct (res (f a (final (m s)))).
  - by rewrite surfaced_app.
  - destruct Hf as (pre & c & -> & Hpre). exists (out (m s) ++ pre), c.
    split; [by rewrite app_assoc | by rewrite surfaced_app].
Qed.

Lemma pending_call c (s : state Scene) : pending (call c s).
Proof.
  unfold pending. rewrite call_eq; simpl.
  destruct (fst (exec c (scene s))); [done|]. by exists [], c.
Qed.

Lemma quiet_for_in {X A} (body : X -> A -> M Scene A) xs :
  (forall x a s, quiet (body x a s)) -> forall a s, quiet (for_in xs body a s).
Proof.
  intros Hbody. induction xs as [|x xs IH]; intros a s; [done|].
  rewrite for_in_cons. by apply quiet_bind.
Qed.

Lemma pending_for_each {X} (body : X -> M Scene unit) xs :
  (forall x s, pending (body x s)) -> forall s, pending (for_each xs body s).
Proof.
  intros Hbody. induction xs as [|x xs IH]; intros s; [done|].
  rewrite for_each_cons. by apply pending_bind.
Qed.

(** A [try] whose handler begins with a warning surfaces what it catches. *)
Lemma quiet_try {A} (m : M Scene A) (h : exn -> M Scene A) msg (a : exn -> A) s :
  pending (m s) ->
  (forall e s', h e s' = bind (warning (msg e)) (fun _ => ret (a e)) s') ->
  quiet (try_except m h s).
Proof.
  unfold pending, try_except. intros Hm Hh. destruct (res (m s)) as [x|e] eqn:E.
  - split; [by rewrite E | done].
  - destruct Hm as (pre & c & Hout & Hpre). rewrite Hh. split; [done|].
    simpl. rewrite Hout, <- app_assoc. by rewrite surfaced_failed.
Qed.

Lemma quiet_warning_ret {A} msg (a : A) (s : state Scene) :
  quiet (bind (warning msg) (fun _ => ret a) s).
Proof. done. Qed.

Lemma quiet_if {A} (b : bool) (m m' : M Scene A) s :
  quiet (m s) -> quiet (m' s) -> quiet ((if b then m else m') s).
Proof. by destruct b. Qed.

Lemma quiet_report {A} (say : M Scene unit) (n : nat) (a : A) (s : state Scene) :
  (forall s', quiet (say s')) ->
  quiet (bind (if 0 <? n then say else ret tt) (fun _ => ret a) s).
Proof.
  intros Hsay. apply quiet_bind; [|done]. destruct (0 <? n); [apply Hsay | done].
Qed.

Lemma quiet_rename_objects name_input is_prefix (s : state Scene) :
  quiet (rename_objects name_input is_prefix s).
Proof.
  unfold rename_objects. rewrite bind_query.
  repeat (apply quiet_if; [apply quiet_warning_ret|]).
  apply quiet_bind; [|intros; by apply quiet_report].
  apply quiet_for_in. intros obj n s'. unfold rename_object.
  eapply (quiet_try _ _ (fun e => "Failed to rename " +:+ obj +:+ ": " +:+ str_exn e));
    [|done].
  apply pending_bind; [apply pending_call | done].
Qed.

Lemma quiet_copy_to source_skin target n (s : state Scene) :
  quiet (copy_to source_skin target n s).
Proof.
  unfold copy_to. rewrite bind_query. apply quiet_if; [apply quiet_warning_ret|].
  rewrite bind_get_skin_cluster. destruct (truthy_value _); [|apply quiet_warning_ret].
  eapply (quiet_try _ _
            (fun e => "Failed to copy weights to " +:+ target +:+ ": " +:+ str_exn e));
    [|done].
  apply pending_bind; [apply pending_call | done].
Qed.

Lemma quiet_copy_weights source_obj target_list (s : state Scene) :
  quiet (copy_weights source_obj target_list s).
Proof.
  unfold copy_weights. apply quiet_if; [apply quiet_warning_ret|].
  rewrite bind_query. apply quiet_if; [apply quiet_warning_ret|].
  rewrite bind_get_skin_cluster. destruct (truthy_value _); [|apply quiet_warning_ret].
  rewrite bind_self. apply quiet_bind; [|intros; by apply quiet_report].
  apply quiet_for_in. intros. apply quiet_copy_to.
Qed.

Lemma quiet_toggle_joint_display show selected_only (s : state Scene) :
  quiet (toggle_joint_display show selected_only s).
Proof.
  assert (Hrest : forall joints s',
    quiet (bind (for_each joints (set_draw_style (if show then 0 else 2)%Z)) (fun _ =>
             bind (print (display_message show selected_only joints))
               (fun _ => ret true)) s')).
  { intros joints s'. apply quiet_bind; [|done].
    apply quiet_for_in. intros joint [] s''. unfold set_draw_style.
    eapply (quiet_try _ _
              (fun e => "Failed to set display for " +:+ joint +:+ ": " +:+ str_exn e)
              (fun _ => tt)).
    - exact (pending_call (setAttr_value _ _) _).
    - intros e s3. unfold bind, warning, emit; simpl. reflexivity. }
  unfold toggle_joint_display. destruct selected_only; rewrite bind_query; [|apply Hrest].
  apply quiet_if; [apply quiet_warning_ret | apply Hrest].
Qed.

Lemma quiet_save_asset asset_name file_type (s : state Scene) :
  quiet (save_asset asset_name file_type s).
Proof.
  unfold save_asset. apply quiet_if; [apply quiet_warning_ret|]. rewrite bind_self.
  eapply (quiet_try _ _ (fun e => "Failed to save asset: " +:+ str_exn e)); [|done].
  apply pending_bind; [apply pending_call|]. intros _ s1.
  apply pending_bind; [|done].
  destruct (String.eqb file_type "MA");
    (apply pending_bind; [apply pending_call | done]).
Qed.

Lemma quiet_lock_unlock_attributes lock translate rotate scale (s : state Scene) :
  attributes (mgr s) = init_attributes ->
  quiet (lock_unlock_attributes lock translate rotate scale s).
Proof.
  intros Hinit. unfold lock_unlock_attributes. rewrite bind_query.
  apply quiet_if; [apply quiet_warning_ret|].
  rewrite attr_groups_enabled by done.
  apply quiet_if; [apply quiet_warning_ret|].
  apply quiet_bind; [|intros; by apply quiet_report].
  apply quiet_for_in. intros obj n s'. unfold lock_object.
  eapply (quiet_try _ _
            (fun e => "Failed to modify attributes on " +:+ obj +:+ ": " +:+ str_exn e));
    [|done].
  apply pending_bind; [|done].
  apply pending_for_each. intros. exact (pending_call (setAttr_flags _ _ _ _) _).
Qed.

End Guarded.

(** C2 as stated fails on RigBuilder, which catches nothing: a mode
    other than [base], [fk] and [ik] leaves [nodes_to_show] unbound; a
    parent that is not in the scene makes [parent] raise inside
    [joint_creation]; a skeleton without children makes
    [create_fk_chain] iterate over [None]. *)
Lemma rig_builder_raises :
  res (show_display_mode "wireframe" Studio.skeleton)
  = Raise (UnboundLocalError "nodes_to_show")
  /\ res (joint_creation "tail" (0, 0, 0)%Q (Some "pelvis_drv_jnt") Studio.skeleton)
     = Raise (RuntimeError "No object matches name: pelvis_drv_jnt")
  /\ res (create_fk_chain Studio.lone_spine)
     = Raise (TypeError "'NoneType' object is not iterable").
Proof. repeat split; vm_compute; reflexivity. Qed.

(** ** The managers' own state *)

Section Frame.
Context {Scene : Type} `{!Host Scene}.
Context (R : managers -> managers -> Prop) `{!PreOrder R}.

Lemma preserves_ret {A} (a : A) : preserves (Scene := Scene) R (ret a).
Proof. intros s. reflexivity. Qed.

Lemma preserves_raise {A} e : preserves (Scene := Scene) (A := A) R (raise e).
Proof. intros s. reflexivity. Qed.

Lemma preserves_emit e : preserves (Scene := Scene) R (emit e).
Proof. intros s. reflexivity. Qed.

Lemma preserves_query {A} (q : Scene -> A) : preserves R (query q).
Proof. intros s. reflexivity. Qed.

Lemma preserves_query_guarded {A} (q : Scene -> result A) : preserves R (query_guarded q).
Proof. intros s. reflexivity. Qed.

Lemma preserves_self {A} (field : managers -> A) : preserves (Scene := Scene) R (self field).
Proof. intros s. reflexivity. Qed.

Lemma preserves_call c : preserves R (call c).
Proof. intros s. rewrite call_eq. reflexivity. Qed.

Lemma preserves_update f :
  (forall m, R m (f m)) -> preserves (Scene := Scene) R (self_update f).
Proof. intros Hf s. apply Hf. Qed.

Lemma preserves_bind {A B} (m : M Scene A) (f : A -> M Scene B) :
  preserves R m -> (forall a, preserves R (f a)) -> preserves R (bind m f).
Proof.
  intros Hm Hf s. unfold bind. destruct (res (m s)) as [a|e]; simpl; [|apply Hm].
  etransitivity; [apply Hm | apply Hf].
Qed.

Lemma preserves_try {A} (m : M Scene A) h :
  preserves R m -> (forall e, preserves R (h e)) -> preserves R (try_except m h).
Proof.
  intros Hm Hh s. unfold try_except. destruct (res (m s)) as [a|e]; simpl; [apply Hm|].
  etransitivity; [apply Hm | apply Hh].
Qed.

Lemma preserves_for_in {X A} (body : X -> A -> M Scene A) xs acc :
  (forall x a, preserves R (body x a)) -> preserves R (for_in xs body acc).
Proof.
  intros Hbody. revert acc. induction xs as [|x xs IH]; intros acc; simpl.
  - apply preserves_ret.
  - by apply preserves_bind.
Qed.

Lemma preserves_for_each {X} (body : X -> M Scene unit) xs :
  (forall x, preserves R (body x)) -> preserves R (for_each xs body).
Proof. intros Hbody. by apply preserves_for_in. Qed.

Lemma preserves_iterate {X} (v : option (list X)) : preserves (Scene := Scene) R (iterate v).
Proof. destruct v; [apply preserves_ret | apply preserves_raise]. Qed.

Lemma preserves_index0 {X} (l : list X) : preserves (Scene := Scene) R (index0 l).
Proof. destruct l; [apply preserves_raise | apply preserves_ret]. Qed.

Lemma preserves_unpack2 {X} (l : list X) : preserves (Scene := Scene) R (unpack2 l).
Proof.
  destruct l as [|a [|b [|c l]]]; first [apply preserves_ret | apply preserves_raise].
Qed.
End Frame.

Create HintDb preserves.
#[local] Hint Resolve preserves_ret preserves_raise preserves_emit preserves_query
  preserves_query_guarded preserves_self preserves_call preserves_iterate
  preserves_index0 preserves_unpack2 : preserves.

(** Walk down a method: one rule per construct of the monad. *)
Ltac preserve :=
  repeat first
    [ progress intros
    | progress cbv zeta
    | apply preserves_bind; [typeclasses eauto| |]
    | apply preserves_try; [typeclasses eauto| |]
    | apply preserves_for_in; [typeclasses eauto|]
    | apply preserves_for_each; [typeclasses eauto|]
    | solve [unfold warning, confirmDialog, print; eauto with preserves typeclass_instances]
    | match goal with
      | |- preserves ?R (call ?c) => exact (preserves_call R c)
      | |- preserves _ (if ?b then _ else _) => destruct b
      | |- preserves _ (match ?x with _ => _ end) => destruct x
      end ].

Section Fields.
Context {Scene : Type} `{!Host Scene}.

#[local] Instance same_but_fk_ctrls_preorder : PreOrder same_but_fk_ctrls.
Proof.
  split.
  - by intros m.
  - intros m1 m2 m3 (? & ? & ?) (? & ? & ?). repeat split; congruence.
Qed.

Section AnyRelation.
Context (R : managers -> managers -> Prop) `{!PreOrder R}.

Lemma preserves_joint_creation name pos parent_name :
  preserves (Scene := Scene) R (joint_creation name pos parent_name).
Proof. unfold joint_creation. preserve. Qed.

Lemma preserves_setup_control jnt : preserves (Scene := Scene) R (setup_control jnt).
Proof. unfold setup_control. preserve. Qed.

Lemma preserves_create_basic_skeleton : preserves (Scene := Scene) R create_basic_skeleton.
Proof. unfold create_basic_skeleton. preserve. Qed.

Lemma preserves_fk_rig base_name jnt : preserves (Scene := Scene) R (fk_rig base_name jnt).
Proof. unfold fk_rig. preserve. Qed.

Lemma preserves_ik_limb limb : preserves (Scene := Scene) R (ik_limb limb).
Proof.
  unfold ik_limb. destruct limb as [[start_jnt end_jnt] handle_name].
  preserve.
Qed.

Lemma preserves_create_ik_setup : preserves (Scene := Scene) R create_ik_setup.
Proof. unfold create_ik_setup. preserve. Qed.

Lemma preserves_show_display_mode mode : preserves (Scene := Scene) R (show_display_mode mode).
Proof. unfold show_display_mode, hide_or_show. preserve. Qed.

Lemma preserves_get_skin_cluster obj : preserves (Scene := Scene) R (get_skin_cluster obj).
Proof. unfold get_skin_cluster. preserve. Qed.

Lemma preserves_copy_weights source_obj target_list :
  preserves (Scene := Scene) R (copy_weights source_obj target_list).
Proof.
  unfold copy_weights, copy_to. preserve.
Qed.

Lemma preserves_toggle_joint_display show selected_only :
  preserves (Scene := Scene) R (toggle_joint_display show selected_only).
Proof. unfold toggle_joint_display, set_draw_style. preserve. Qed.

Lemma preserves_lock_unlock_attributes lock translate rotate scale :
  preserves (Scene := Scene) R (lock_unlock_attributes lock translate rotate scale).
Proof.
  unfold lock_unlock_attributes, extend_if, attributes_item, lock_object. preserve.
Qed.

Lemma preserves_rename_objects name_input is_prefix :
  preserves (Scene := Scene) R (rename_objects name_input is_prefix).
Proof. unfold rename_objects, rename_object. preserve. Qed.

Lemma preserves_get_file_list : preserves (Scene := Scene) R get_file_list.
Proof. unfold get_file_list. preserve. Qed.

Lemma preserves_save_asset asset_name file_type :
  preserves (Scene := Scene) R (save_asset asset_name file_type).
Proof. unfold save_asset. preserve. Qed.
End AnyRelation.

Lemma create_fk_chain_writes_fk_ctrls :
  preserves (Scene := Scene) same_but_fk_ctrls create_fk_chain.
Proof.
  unfold create_fk_chain, duplicate_for_fk, create_fk_controls, fk_control, fk_attach.
  preserve.
  all: by apply preserves_update.
Qed.
End Fields.

(** *** Methods that never look at [fk_ctrls] *)

Section Blind.
Context {Scene : Type} `{!Host Scene}.

Lemma blind_pure {A} (r : result A) (evs : list event) :
  blind (Scene := Scene) (fun s => {| res := r; final := s; out := evs |}).
Proof. by intros d s. Qed.

Lemma blind_query {A} (q : Scene -> A) : blind (query q).
Proof. by intros d s. Qed.

Lemma blind_query_guarded {A} (q : Scene -> result A) : blind (query_guarded q).
Proof. by intros d s. Qed.

Lemma blind_self {A} (field : managers -> A) :
  (forall d m, field (set_fk_ctrls d m) = field m) ->
  blind (Scene := Scene) (self field).
Proof. intros Hfield d s. unfold self; simpl. by rewrite Hfield. Qed.

Lemma blind_call c : blind (call c).
Proof. intros d s. by rewrite !call_eq. Qed.

Lemma blind_bind {A B} (m : M Scene A) (f : A -> M Scene B) :
  blind m -> (forall a, blind (f a)) -> blind (bind m f).
Proof.
  intros Hm Hf d s. destruct (Hm d s) as (Hres & Hout & Hfinal).
  unfold bind. rewrite Hres, Hout, Hfinal.
  destruct (res (m s)) as [a|e]; [|done].
  destruct (Hf a d (final (m s))) as (-> & -> & ->). done.
Qed.

Lemma blind_try {A} (m : M Scene A) h :
  blind m -> (forall e, blind (h e)) -> blind (try_except m h).
Proof.
  intros Hm Hh d s. destruct (Hm d s) as (Hres & Hout & Hfinal).
  unfold try_except. rewrite Hres.
  destruct (res (m s)) as [a|e] eqn:E; [by rewrite E|].
  rewrite Hout, Hfinal. destruct (Hh e d (final (m s))) as (-> & -> & ->). done.
Qed.

Lemma blind_for_in {X A} (body : X -> A -> M Scene A) xs acc :
  (forall x a, blind (body x a)) -> blind (for_in xs body acc).
Proof.
  intros Hbody. revert acc. induction xs as [|x xs IH]; intros acc; simpl.
  - apply (blind_pure (Ok acc) []).
  - by apply blind_bind.
Qed.

Lemma blind_for_each {X} (body : X -> M Scene unit) xs :
  (forall x, blind (body x)) -> blind (for_each xs body).
Proof. intros Hbody. by apply blind_for_in. Qed.
End Blind.

Ltac blindly :=
  repeat first
    [ progress intros
    | progress cbv zeta
    | apply blind_bind
    | apply blind_try
    | apply blind_for_in
    | apply blind_for_each
    | apply blind_query
    | apply blind_query_guarded
    | solve [apply blind_self; reflexivity]
    | match goal with
      | |- blind (call ?c) => exact (blind_call c)
      | |- blind (ret ?a) => exact (blind_pure (Ok a) [])
      | |- blind (raise ?e) => exact (blind_pure (Raise e) [])
      | |- blind (emit ?e) => exact (blind_pure (Ok tt) [e])
      | |- blind (warning ?m) => exact (blind_pure (Ok tt) [EWarning m])
      | |- blind (print ?m) => exact (blind_pure (Ok tt) [EPrint m])
      | |- blind (confirmDialog ?t ?m) => exact (blind_pure (Ok tt) [EDialog t m])
      | |- blind (iterate ?v) => destruct v; unfold iterate
      | |- blind (index0 ?l) => destruct l; unfold index0
      | |- blind (unpack2 ?l) => destruct l as [|? [|? [|? ?]]]; unfold unpack2
      | |- blind (if ?b then _ else _) => destruct b
      | |- blind (match ?x with _ => _ end) => destruct x
      end ].

Section State.
Context {Scene : Type} `{!Host Scene}.

Lemma perform_blind {A} (m : method A) : blind (Scene := Scene) (perform m).
Proof.
  destruct m; simpl.
  - unfold joint_creation. blindly.
  - unfold setup_control. blindly.
  - unfold create_basic_skeleton, joint_creation. blindly.
  - unfold create_ik_setup, ik_limb, setup_control. blindly.
  - unfold show_display_mode, hide_or_show. blindly.
  - unfold get_skin_cluster. blindly.
  - unfold copy_weights, copy_to, get_skin_cluster. blindly.
  - unfold toggle_joint_display, set_draw_style. blindly.
  - unfold lock_unlock_attributes, extend_if, attributes_item, lock_object. blindly.
  - unfold rename_objects, rename_object. blindly.
  - unfold get_file_list. blindly.
  - unfold save_asset. blindly.
Qed.

Lemma perform_keeps {A} (m : method A) : preserves (Scene := Scene) eq (perform m).
Proof.
  destruct m; simpl.
  - apply (preserves_joint_creation eq).
  - apply (preserves_setup_control eq).
  - apply (preserves_create_basic_skeleton eq).
  - apply (preserves_create_ik_setup eq).
  - apply (preserves_show_display_mode eq).
  - apply (preserves_get_skin_cluster eq).
  - apply (preserves_copy_weights eq).
  - apply (preserves_toggle_joint_display eq).
  - apply (preserves_lock_unlock_attributes eq).
  - apply (preserves_rename_objects eq).
  - apply (preserves_get_file_list eq).
  - apply (preserves_save_asset eq).
Qed.

(** C8 (amended): every manager method other than [create_fk_chain]
    leaves the fields of the managers as they were and never looks at
    [fk_ctrls]: run with another dictionary it returns and emits the
    same and leaves the same scene.  [create_fk_chain] changes
    [fk_ctrls] and no other field.  So the only stored state that an
    operation leaves behind is [fk_ctrls], and only a later
    [create_fk_chain] reads it. *)
Theorem managers_state :
  (forall A (m : method A) (s : state Scene), mgr (final (perform m s)) = mgr s)
  /\ (forall A (m : method A), blind (Scene := Scene) (perform m))
  /\ (forall s : state Scene,
        same_but_fk_ctrls (mgr s) (mgr (final (create_fk_chain s)))).
Proof.
  split; [|split].
  - intros A m s. symmetry. apply (perform_keeps m).
  - intros A m. apply perform_blind.
  - intros s. apply create_fk_chain_writes_fk_ctrls.
Qed.
End State.

Lemma fk_rigged_spine :
  fk_ctrls (mgr Studio.fk_rigged) !! "spine" = Some "spine_CTRL".
Proof. vm_compute; reflexivity. Qed.

(** C8 as stated fails on [create_fk_chain]: on the basic skeleton with
    fresh managers, whose [fk_ctrls] is empty, it leaves a control
    recorded for each of the eighteen joints. *)
Lemma create_fk_chain_fills_fk_ctrls :
  res (create_fk_chain Studio.skeleton) = Ok tt
  /\ fk_ctrls (mgr Studio.skeleton) = ∅
  /\ fk_ctrls (mgr Studio.fk_rigged) !! "spine" = Some "spine_CTRL"
  /\ fk_ctrls (mgr Studio.fk_rigged) !! "hip1" = Some "hip1_CTRL"
  /\ size (fk_ctrls (mgr Studio.fk_rigged)) = 18
  /\ fk_ctrls (mgr Studio.fk_rigged) <> ∅.
Proof.
  split; [vm_compute; reflexivity|].
  split; [vm_compute; reflexivity|]. split; [exact fk_rigged_spine|].
  split; [vm_compute; reflexivity|]. split; [vm_compute; reflexivity|].
  intros Heq. pose proof fk_rigged_spine as Hspine.
  rewrite Heq in Hspine. discriminate.
Qed.

(** ** Joint variants *)

Section Variants.
Context {Scene : Type} `{!Host Scene}.

Lemma bind_inv {A B} (m : M Scene A) (f : A -> M Scene B) s b :
  res (bind m f s) = Ok b ->
  exists a,
    res (m s) = Ok a
    /\ res (f a (final (m s))) = Ok b
    /\ out (bind m f s) = out (m s) ++ out (f a (final (m s)))
    /\ final (bind m f s) = final (f a (final (m s))).
Proof.
  unfold bind. destruct (res (m s)) as [a|e]; simpl; [|discriminate].
  intros Hres. by exists a.
Qed.

Lemma call_inv c (s : state Scene) a :
  res (call c s) = Ok a ->
  fst (exec c (scene s)) = Ok a /\ out (call c s) = [ECall c true]
  /\ final (call c s) = after c s.
Proof. rewrite call_eq; simpl. intros ->. done. Qed.

Lemma index0_inv {X} (l : list X) (s : state Scene) x :
  res (index0 l s) = Ok x ->
  exists l', l = x :: l' /\ out (index0 l s) = [] /\ final (index0 l s) = s.
Proof. destruct l as [|y l]; simpl; [discriminate|]. intros [= ->]. by exists l. Qed.

(** A loop of renames that returned has renamed every item. *)
Lemma for_each_rename (f : string -> string) js (s : state Scene) :
  res (for_each js (fun j => bind (call (rename j (f j))) (fun _ => ret tt)) s) = Ok tt ->
  out (for_each js (fun j => bind (call (rename j (f j))) (fun _ => ret tt)) s)
  = map (fun j => ECall (rename j (f j)) true) js.
Proof.
  revert s. induction js as [|j js IH]; intros s; [done|].
  rewrite for_each_cons. intros Hres.
  destruct (bind_inv _ _ _ _ Hres) as (u & Hbody & Hrest & -> & _).
  destruct (bind_inv _ _ _ _ Hbody) as (a & Hcall & _ & -> & _).
  destruct (call_inv _ _ _ Hcall) as (_ & -> & _).
  simpl. f_equal. by apply IH.
Qed.

Lemma joint_creation_names name pos parent_name (s : state Scene) j :
  res (joint_creation name pos parent_name s) = Ok j ->
  fst (exec (joint (name +:+ "_drv_jnt") pos) (scene (after select_clear s))) = Ok j
  /\ out (joint_creation name pos parent_name s)
     = ECall select_clear true :: ECall (joint (name +:+ "_drv_jnt") pos) true
       :: match truthy_value parent_name with
          | Some p => [ECall (parent j p) true]
          | None => []
          end.
Proof.
  unfold joint_creation. intros Hres.
  destruct (bind_inv _ _ _ _ Hres) as (u & Hsel & Hrest & -> & _).
  destruct (call_inv _ _ _ Hsel) as (_ & -> & Hs1).
  destruct (bind_inv _ _ _ _ Hrest) as (j' & Hjoint & Hrest' & -> & _).
  destruct (call_inv _ _ _ Hjoint) as (Hexec & -> & _).
  destruct (bind_inv _ _ _ _ Hrest') as (u' & Hparent & Hret & -> & _).
  injection Hret as ->. rewrite Hs1 in Hexec. split; [done|].
  simpl. do 2 f_equal.
  destruct (truthy_value parent_name) as [p|]; [|done].
  rewrite call_eq in Hparent |- *. simpl in *. by rewrite Hparent.
Qed.

Lemma create_fk_chain_renames (s : state Scene) :
  objExists "spine_drv_jnt" (scene s) = true ->
  res (create_fk_chain s) = Ok tt ->
  exists d ds fk_root joints s3,
    let s1 := after (duplicate "spine_drv_jnt") s in
    let s2 := after (rename d "spine_FK_jnt") s1 in
    fst (exec (duplicate "spine_drv_jnt") (scene s)) = Ok (d :: ds)
    /\ fst (exec (rename d "spine_FK_jnt") (scene s1)) = Ok fk_root
    /\ listRelatives_ad fk_root (scene s2) = Some joints
    /\ out (create_fk_chain s)
       = ECall (duplicate "spine_drv_jnt") true
         :: ECall (rename d "spine_FK_jnt") true
         :: map (retagged "_FK_jnt") joints
         ++ out (create_fk_controls s3).
Proof.
  unfold create_fk_chain. rewrite bind_query. intros -> Hres. cbn [negb] in *.
  destruct (bind_inv _ _ _ _ Hres) as (u & Hres0 & _ & -> & _). destruct u.
  unfold duplicate_for_fk in Hres0 |- *.
  destruct (bind_inv _ _ _ _ Hres0) as (dl & Hdup & Hres1 & -> & _).
  destruct (call_inv _ _ _ Hdup) as (Hexec & -> & Hs1).
  destruct (bind_inv _ _ _ _ Hres1) as (d & Hidx & Hres2 & -> & _).
  destruct (index0_inv _ _ _ Hidx) as (ds & -> & -> & Hs1').
  destruct (bind_inv _ _ _ _ Hres2) as (fk_root & Hren & Hres3 & -> & _).
  destruct (call_inv _ _ _ Hren) as (Hexec' & -> & Hs2).
  rewrite bind_query in Hres3 |- *.
  destruct (listRelatives_ad fk_root _) as [joints|] eqn:Hrel; [|discriminate].
  unfold iterate in Hres3 |- *. rewrite bind_ret in Hres3 |- *.
  rewrite (for_each_rename (PyStr.replace "_drv_jnt" "_FK_jnt") _ _ Hres3).
  rewrite Hs2, Hs1', Hs1 in Hrel. rewrite Hs1', Hs1 in Hexec'.
  exists d, ds, fk_root, joints. eexists. cbv zeta.
  split; [done|]. split; [done|]. split; [done|]. reflexivity.
Qed.

Lemma create_ik_setup_renames (s : state Scene) :
  objExists "spine_drv_jnt" (scene s) = true ->
  res (create_ik_setup s) = Ok tt ->
  exists d ds ik_root s3,
    let s1 := after (duplicate "spine_drv_jnt") s in
    let s2 := after (rename d "spine_IK_jnt") s1 in
    fst (exec (duplicate "spine_drv_jnt") (scene s)) = Ok (d :: ds)
    /\ fst (exec (rename d "spine_IK_jnt") (scene s1)) = Ok ik_root
    /\ out (create_ik_setup s)
       = ECall (duplicate "spine_drv_jnt") true
         :: ECall (rename d "spine_IK_jnt") true
         :: map (retagged "_IK_jnt")
              (or_list (listRelatives_ad ik_root (scene s2)) [] ++ [ik_root])
         ++ out (for_each limbs ik_limb s3).
Proof.
  unfold create_ik_setup. rewrite bind_query. intros -> Hres. cbn [negb] in *.
  destruct (bind_inv _ _ _ _ Hres) as (dl & Hdup & Hres1 & -> & _).
  destruct (call_inv _ _ _ Hdup) as (Hexec & -> & Hs1).
  destruct (bind_inv _ _ _ _ Hres1) as (d & Hidx & Hres2 & -> & _).
  destruct (index0_inv _ _ _ Hidx) as (ds & -> & -> & Hs1').
  destruct (bind_inv _ _ _ _ Hres2) as (ik_root & Hren & Hres3 & -> & _).
  destruct (call_inv _ _ _ Hren) as (Hexec' & -> & Hs2).
  rewrite bind_query in Hres3 |- *. cbv zeta in *.
  destruct (bind_inv _ _ _ _ Hres3) as (u & Hloop & _ & -> & _). destruct u.
  rewrite (for_each_rename (PyStr.replace "_drv_jnt" "_IK_jnt") _ _ Hloop).
  rewrite Hs2, Hs1', Hs1. rewrite Hs1', Hs1 in Hexec'.
  exists d, ds, ik_root. eexists.
  split; [done|]. split; [done|]. reflexivity.
Qed.

(** C4 (amended): [joint_creation] asks the host for a joint named
    [name + "_drv_jnt"] and returns the name the host answered.
    [create_fk_chain] duplicates [spine_drv_jnt], renames the duplicate
    to [spine_FK_jnt], then renames every joint the host lists below it
    to its own name with each occurrence of [_drv_jnt] replaced by
    [_FK_jnt], wherever it stands in the name.  [create_ik_setup] does
    the same with [spine_IK_jnt] and [_IK_jnt], the root included in the
    loop.  Both parts are about runs that return. *)
Theorem joint_variants (s : state Scene) :
  (forall name pos parent_name j,
      res (joint_creation name pos parent_name s) = Ok j ->
      fst (exec (joint (name +:+ "_drv_jnt") pos) (scene (after select_clear s))) = Ok j
      /\ out (joint_creation name pos parent_name s)
         = ECall select_clear true :: ECall (joint (name +:+ "_drv_jnt") pos) true
           :: match truthy_value parent_name with
              | Some p => [ECall (parent j p) true]
              | None => []
              end)
  /\ (objExists "spine_drv_jnt" (scene s) = true ->
      res (create_fk_chain s) = Ok tt ->
      exists d ds fk_root joints s3,
        let s1 := after (duplicate "spine_drv_jnt") s in
        let s2 := after (rename d "spine_FK_jnt") s1 in
        fst (exec (duplicate "spine_drv_jnt") (scene s)) = Ok (d :: ds)
        /\ fst (exec (rename d "spine_FK_jnt") (scene s1)) = Ok fk_root
        /\ listRelatives_ad fk_root (scene s2) = Some joints
        /\ out (create_fk_chain s)
           = ECall (duplicate "spine_drv_jnt") true
             :: ECall (rename d "spine_FK_jnt") true
             :: map (retagged "_FK_jnt") joints
             ++ out (create_fk_controls s3))
  /\ (objExists "spine_drv_jnt" (scene s) = true ->
      res (create_ik_setup s) = Ok tt ->
      exists d ds ik_root s3,
        let s1 := after (duplicate "spine_drv_jnt") s in
        let s2 := after (rename d "spine_IK_jnt") s1 in
        fst (exec (duplicate "spine_drv_jnt") (scene s)) = Ok (d :: ds)
        /\ fst (exec (rename d "spine_IK_jnt") (scene s1)) = Ok ik_root
        /\ out (create_ik_setup s)
           = ECall (duplicate "spine_drv_jnt") true
             :: ECall (rename d "spine_IK_jnt") true
             :: map (retagged "_IK_jnt")
                  (or_list (listRelatives_ad ik_root (scene s2)) [] ++ [ik_root])
             ++ out (for_each limbs ik_limb s3)).
Proof.
  split; [|split].
  - intros. by apply joint_creation_names.
  - apply create_fk_chain_renames.
  - apply create_ik_setup_renames.
Qed.
End Variants.

(** C4 at work: a first joint in an empty scene, then the FK and the IK
    copies of the basic skeleton. *)
Lemma joint_variants_witness :
  (res (joint_creation "spine" (0, 8, - one_half)%Q None (MiniScene.start [] []))
   = Ok "spine_drv_jnt"
   /\ out (joint_creation "spine" (0, 8, - one_half)%Q None (MiniScene.start [] []))
      = [ECall select_clear true; ECall (joint "spine_drv_jnt" (0, 8, - one_half)%Q) true])
  /\ (objExists "spine_drv_jnt" (scene Studio.skeleton) = true
      /\ res (create_fk_chain Studio.skeleton) = Ok tt
      /\ exists joints rest,
           length joints = 17
           /\ out (create_fk_chain Studio.skeleton)
              = ECall (duplicate "spine_drv_jnt") true
                :: ECall (rename "spine_drv_jnt1" "spine_FK_jnt") true
                :: map (retagged "_FK_jnt") joints ++ rest)
  /\ (res (create_ik_setup Studio.skeleton) = Ok tt
      /\ exists joints rest,
           length joints = 18
           /\ out (create_ik_setup Studio.skeleton)
              = ECall (duplicate "spine_drv_jnt") true
                :: ECall (rename "spine_drv_jnt1" "spine_IK_jnt") true
                :: map (retagged "_IK_jnt") joints ++ rest).
Proof.
  assert (Hjoint : res (joint_creation "spine" (0, 8, - one_half)%Q None (MiniScene.start [] []))
                   = Ok "spine_drv_jnt") by (vm_compute; reflexivity).
  assert (Hex : objExists "spine_drv_jnt" (scene Studio.skeleton) = true)
    by (vm_compute; reflexivity).
  assert (Hfk : res (create_fk_chain Studio.skeleton) = Ok tt)
    by (vm_compute; reflexivity).
  assert (Hik : res (create_ik_setup Studio.skeleton) = Ok tt)
    by (vm_compute; reflexivity).
  destruct (joint_variants (MiniScene.start [] [])) as (Hcreate & _ & _).
  destruct (joint_variants Studio.skeleton) as (_ & Hfk' & Hik').
  split; [|split].
  - split; [exact Hjoint|]. exact (proj2 (Hcreate _ _ _ _ Hjoint)).
  - split; [exact Hex|]. split; [exact Hfk|].
    destruct (Hfk' Hex Hfk) as (d & ds & fk_root & joints & s3 & Hd & Hr & Hrel & Hout).
    cbv zeta in *. vm_compute in Hd. injection Hd as <- <-.
    vm_compute in Hr. injection Hr as <-.
    vm_compute in Hrel. injection Hrel as <-.
    eexists _, _. split; [|exact Hout]. reflexivity.
  - split; [exact Hik|].
    destruct (Hik' Hex Hik) as (d & ds & ik_root & s3 & Hd & Hr & Hout).
    cbv zeta in *. vm_compute in Hd. injection Hd as <- <-.
    vm_compute in Hr. injection Hr as <-.
    eexists _, _. split; [|exact Hout]. vm_compute. reflexivity.
Defined.

(** C4 as stated fails on the names the host gives: the duplicate of
    [hip_drv_jnt] is [hip_drv_jnt1], which does not end in [_drv_jnt],
    and [create_fk_chain] renames it to [hip_FK_jnt1]; a second
    [joint_creation("spine")] does not return [spine_drv_jnt]. *)
Lemma fk_names_carry_a_number :
  In (rename "hip_drv_jnt1" "hip_FK_jnt1", true)
     (calls (out (create_fk_chain Studio.skeleton)))
  /\ replace_suffix "_drv_jnt" "_FK_jnt" "hip_drv_jnt1" = "hip_drv_jnt1"
  /\ ~ renames_suffix "_drv_jnt" "_FK_jnt" "spine_FK_jnt"
         (out (create_fk_chain Studio.skeleton))
  /\ res (joint_creation "spine" (0, 8, - one_half)%Q None Studio.skeleton)
     = Ok "spine_drv_jnt1".
Proof.
  assert (Hin : In (rename "hip_drv_jnt1" "hip_FK_jnt1", true)
                  (calls (out (create_fk_chain Studio.skeleton)))).
  { vm_compute. repeat (first [left; reflexivity | right]). }
  split; [exact Hin|]. split; [reflexivity|]. split; [|vm_compute; reflexivity].
  intros Hall. destruct (Hall _ _ _ Hin) as [Hroot | Hsuffix]; discriminate.
Qed.

(** ** The FK control hierarchy *)

Section Hierarchy.
Context {Scene : Type} `{!Host Scene}.

Lemma for_each_app {X} (body : X -> M Scene unit) xs ys s :
  for_each (xs ++ ys) body s = bind (for_each xs body) (fun _ => for_each ys body) s.
Proof.
  revert s. induction xs as [|x xs IH]; intros s.
  - change (for_each [] body) with (ret (Scene := Scene) tt). by rewrite bind_ret.
  - simpl app. rewrite for_each_cons. unfold bind. rewrite for_each_cons. unfold bind.
    destruct (res (body x s)) as [[]|e]; simpl; [|done]. rewrite IH. unfold bind.
    destruct (res (for_each xs body (final (body x s)))); simpl; [|done].
    by rewrite app_assoc.
Qed.

Lemma for_each_one {X} (body : X -> M Scene unit) x s :
  res (for_each [x] body s) = res (body x s)
  /\ final (for_each [x] body s) = final (body x s)
  /\ out (for_each [x] body s) = out (body x s).
Proof.
  rewrite for_each_cons. unfold bind. destruct (res (body x s)) as [[]|e]; simpl; [|done].
  by rewrite app_nil_r.
Qed.

(** A loop that returned has returned from each of its turns. *)
Lemma turn_step joints k jnt (s : state Scene) :
  res (for_each joints fk_control s) = Ok tt ->
  joints !! k = Some jnt ->
  res (fk_control jnt (turn joints k s)) = Ok tt
  /\ turn joints (S k) s = final (fk_control jnt (turn joints k s)).
Proof.
  intros Hres Hk. unfold turn.
  rewrite <- (take_drop (S k) joints), for_each_app in Hres.
  destruct (bind_inv _ _ _ _ Hres) as ([] & Hprefix & _).
  rewrite (take_S_r _ _ _ Hk), for_each_app in Hprefix |- *.
  destruct (bind_inv _ _ _ _ Hprefix) as ([] & Hbefore & Hturn & _ & ->).
  destruct (for_each_one fk_control jnt (final (for_each (take k joints) fk_control s)))
    as (Hr & Hf & _).
  by rewrite <- Hr, <- Hf.
Qed.

Lemma fk_rig_keeps base_name jnt (s : state Scene) :
  mgr (final (fk_rig base_name jnt s)) = mgr s.
Proof. symmetry. apply (preserves_fk_rig eq). Qed.

(** One turn that returned: the control is recorded under the joint's
    base name, and a joint whose parent has a control on record gets its
    group parented under it. *)
Lemma fk_control_turn jnt (s : state Scene) :
  res (fk_control jnt s) = Ok tt ->
  exists ctrl grp,
    res (fk_rig (fk_base jnt) jnt s) = Ok (ctrl, grp)
    /\ fk_ctrls (mgr (final (fk_control jnt s)))
       = <[fk_base jnt := ctrl]> (fk_ctrls (mgr s))
    /\ forall p rest ctrl_p,
        listRelatives_parent jnt (scene (final (fk_rig (fk_base jnt) jnt s)))
        = Some (p :: rest) ->
        fk_ctrls (mgr s) !! fk_base p = Some ctrl_p ->
        ctrl_p <> "" ->
        In (parent grp ctrl_p, true) (calls (out (fk_control jnt s))).
Proof.
  unfold fk_control. cbv zeta. intros Hres.
  destruct (bind_inv _ _ _ _ Hres) as ([ctrl grp] & Hrig & Hattach & Hout & Hfinal).
  exists ctrl, grp. split; [done|]. rewrite Hout, Hfinal. clear Hout Hfinal Hres.
  pose proof (fk_rig_keeps (fk_base jnt) jnt s) as Hmgr.
  set (s1 := final (fk_rig (fk_base jnt) jnt s)) in *.
  unfold fk_attach in *. simpl fst in *. simpl snd in *.
  rewrite bind_query in Hattach |- *.
  destruct (bind_inv _ _ _ _ Hattach) as ([] & Hparent & _ & Hout & Hfinal).
  rewrite Hout, Hfinal. clear Hout Hfinal Hattach. split.
  - unfold self_update; simpl. f_equal.
    assert (Hkeep : preserves (Scene := Scene) eq
             (match listRelatives_parent jnt (scene s1) with
              | Some (p :: _) =>
                  bind (self (fun m => fk_ctrls m !! fk_base p)) (fun parent_ctrl =>
                    match truthy_value parent_ctrl with
                    | Some pc => call (parent grp pc)
                    | None => ret tt
                    end)
              | _ => ret tt
              end)) by preserve.
    by rewrite <- (Hkeep s1), Hmgr.
  - intros p rest ctrl_p Hp Hctrl Hne. rewrite Hp in Hparent |- *.
    assert (Ht : PyStr.truthy ctrl_p = true).
    { destruct (PyStr.truthy ctrl_p) eqn:Ht; [done | by apply truthy_false in Ht]. }
    rewrite bind_self in Hparent |- *. rewrite Hmgr, Hctrl in Hparent |- *.
    unfold truthy_value in Hparent |- *. rewrite Ht in Hparent |- *.
    rewrite call_eq in Hparent |- *. simpl in Hparent. simpl out.
    rewrite Hparent, !calls_app. apply in_or_app. right.
    apply in_or_app. left. by left.
Qed.

(** With distinct base names, what a joint's turn recorded is still on
    record at every later turn. *)
Lemma recorded_until joints (s : state Scene) :
  res (for_each joints fk_control s) = Ok tt ->
  NoDup (fk_base <$> joints) ->
  forall k i p,
    i < k -> k <= length joints -> joints !! i = Some p ->
    exists ctrl_p grp_p,
      rigged_at joints i s = Some (ctrl_p, grp_p)
      /\ fk_ctrls (mgr (turn joints k s)) !! fk_base p = Some ctrl_p.
Proof.
  intros Hres Hdistinct k. induction k as [|k IH]; intros i p Hik Hk Hi; [lia|].
  destruct (lookup_lt_is_Some_2 joints k) as [jk Hjk]; [lia|].
  destruct (turn_step _ _ _ _ Hres Hjk) as [Hstep ->].
  destruct (fk_control_turn _ _ Hstep) as (ctrl & grp & Hrig & -> & _).
  destruct (decide (i = k)) as [->|Hne].
  - assert (p = jk) as -> by congruence.
    exists ctrl, grp. unfold rigged_at. rewrite Hjk, Hrig.
    split; [done|]. apply lookup_insert_eq.
  - destruct (IH i p) as (ctrl_p & grp_p & Hrigged & Hlook); [lia | lia | done |].
    exists ctrl_p, grp_p. split; [done|].
    rewrite lookup_insert_ne; [done|]. intros Hsame.
    apply Hne. symmetry. apply (NoDup_lookup _ _ _ (fk_base p) Hdistinct).
    + rewrite list_lookup_fmap, Hjk. simpl. congruence.
    + by rewrite list_lookup_fmap, Hi.
Qed.

Lemma mirrors_distinct joints (s : state Scene) :
  res (for_each joints fk_control s) = Ok tt ->
  NoDup (fk_base <$> joints) ->
  mirrors joints s.
Proof.
  intros Hres Hdistinct i k p jnt rest Hik Hi Hk Hparent.
  destruct (recorded_until _ _ Hres Hdistinct k i p)
    as (ctrl_p & grp_p & Hrigged & Hlook);
    [done | by apply Nat.lt_le_incl, (lookup_lt_Some joints k jnt) | done |].
  destruct (turn_step _ _ _ _ Hres Hk) as [Hstep _].
  destruct (fk_control_turn _ _ Hstep) as (ctrl & grp & Hrig & _ & Hattach).
  exists ctrl_p, grp_p, ctrl, grp. split; [done|]. split.
  { unfold rigged_at. by rewrite Hk, Hrig. }
  split; [done|]. intros Hne. by apply (Hattach p rest).
Qed.

(** C10 (amended): the FK joints get their controls root first, the
    descendants the host lists following in reverse order.  When the
    loop returns and no two of these joints share a base name (the name
    without [_FK_jnt]), the control hierarchy mirrors the joint
    hierarchy: for every joint whose parent was processed before it,
    [fk_ctrls] holds the parent's control when the joint's turn comes
    and the joint's group is parented under it. *)
Theorem fk_controls_mirror_joints (s : state Scene) :
  let listed := listRelatives_ad "spine_FK_jnt" (scene s) in
  fk_order listed = "spine_FK_jnt" :: rev (or_list listed [])
  /\ (res (create_fk_controls s) = Ok tt ->
      NoDup (fk_base <$> fk_order listed) ->
      mirrors (fk_order listed) s).
Proof.
  intros listed. split.
  - unfold fk_order. by rewrite rev_app_distr.
  - unfold create_fk_controls. rewrite bind_query. fold listed.
    apply mirrors_distinct.
Qed.
End Hierarchy.

Lemma fk_named_returns : res (create_fk_controls Rigs.fk_named) = Ok tt.
Proof. vm_compute. reflexivity. Qed.

Lemma fk_named_distinct : NoDup (fk_base <$> Rigs.fk_joints).
Proof. refine (bool_decide_unpack _ _). vm_compute. exact I. Qed.

(** C10 at work: the FK copy of the basic skeleton, eighteen joints with
    eighteen base names. *)
Lemma fk_controls_mirror_joints_witness :
  res (create_fk_controls Rigs.fk_named) = Ok tt
  /\ NoDup (fk_base <$> Rigs.fk_joints)
  /\ mirrors Rigs.fk_joints Rigs.fk_named.
Proof.
  split; [exact fk_named_returns|]. split; [exact fk_named_distinct|].
  exact (proj2 (fk_controls_mirror_joints Rigs.fk_named)
           fk_named_returns fk_named_distinct).
Defined.

Lemma twisted_order :
  Rigs.twisted_joints = ["spine_FK_jnt"; "arm_FK_jnt1"; "arm1"; "hand_FK_jnt1"].
Proof. vm_compute. reflexivity. Qed.

Lemma twisted_returns : res (create_fk_controls Rigs.twisted_fk_named) = Ok tt.
Proof. vm_compute. reflexivity. Qed.

Lemma twisted_hand_parent :
  parent_seen Rigs.twisted_joints 3 "hand_FK_jnt1" Rigs.twisted_fk_named
  = Some ["arm_FK_jnt1"].
Proof. vm_compute. reflexivity. Qed.

Lemma twisted_arm_control :
  rigged_at Rigs.twisted_joints 1 Rigs.twisted_fk_named = Some ("arm1_CTRL", "arm1_GRP").
Proof. vm_compute. reflexivity. Qed.

Lemma twisted_record :
  fk_ctrls (mgr (turn Rigs.twisted_joints 3 Rigs.twisted_fk_named)) !! fk_base "arm_FK_jnt1"
  = Some "arm1_CTRL1".
Proof. vm_compute. reflexivity. Qed.

Lemma twisted_hand_attached :
  In (parent "hand1_GRP" "arm1_CTRL1", true) (calls (out (create_fk_chain Rigs.twisted))).
Proof. vm_compute. repeat (first [left; reflexivity | right]). Qed.

(** C10 as stated fails when two joints share a base name.  The arm's
    duplicate [arm_FK_jnt1] and the twist joint's duplicate [arm1] both
    have the base name [arm1]; parents come before children in the
    order, yet when the hand's turn comes the entry of its parent has
    been overwritten with the twist joint's control, and the hand's
    group is parented under that one. *)
Lemma twisted_arm_breaks_mirror :
  Rigs.twisted_joints = ["spine_FK_jnt"; "arm_FK_jnt1"; "arm1"; "hand_FK_jnt1"]
  /\ res (create_fk_controls Rigs.twisted_fk_named) = Ok tt
  /\ parent_seen Rigs.twisted_joints 3 "hand_FK_jnt1" Rigs.twisted_fk_named
     = Some ["arm_FK_jnt1"]
  /\ rigged_at Rigs.twisted_joints 1 Rigs.twisted_fk_named = Some ("arm1_CTRL", "arm1_GRP")
  /\ fk_ctrls (mgr (turn Rigs.twisted_joints 3 Rigs.twisted_fk_named))
       !! fk_base "arm_FK_jnt1"
     = Some "arm1_CTRL1"
  /\ In (parent "hand1_GRP" "arm1_CTRL1", true)
        (calls (out (create_fk_chain Rigs.twisted)))
  /\ ~ mirrors Rigs.twisted_joints Rigs.twisted_fk_named.
Proof.
  split; [exact twisted_order|]. split; [exact twisted_returns|].
  split; [exact twisted_hand_parent|]. split; [exact twisted_arm_control|].
  split; [exact twisted_record|]. split; [exact twisted_hand_attached|].
  intros Hmirrors.
  destruct (Hmirrors 1 3 "arm_FK_jnt1" "hand_FK_jnt1" [])
    as (ctrl_p & grp_p & ctrl & grp & Hrigged & _ & Hrecord & _).
  - lia.
  - by rewrite twisted_order.
  - by rewrite twisted_order.
  - exact twisted_hand_parent.
  - rewrite twisted_arm_control in Hrigged. injection Hrigged as <- <-.
    rewrite twisted_record in Hrecord. discriminate.
Qed.

(** * Traces against the host *)

Section OnTheHost.
Context {Scene : Type} `{!Host Scene}.

Lemma replay_app evs evs' (sc : Scene) :
  replay (evs ++ evs') sc = replay evs' (replay evs sc).
Proof.
  revert sc. induction evs as [|[| | |c ok] evs IH]; intros sc; simpl; by rewrite ?IH.
Qed.

Lemma truthful_app evs evs' (sc : Scene) :
  truthful (evs ++ evs') sc <-> truthful evs sc /\ truthful evs' (replay evs sc).
Proof.
  revert sc. induction evs as [|[| | |c ok] evs IH]; intros sc; simpl;
    rewrite ?IH; tauto.
Qed.

Lemma executed_pure {A} (r : result A) (s : state Scene) :
  executed s {| res := r; final := s; out := [] |}.
Proof. by split. Qed.

Lemma runs_ret {A} (a : A) : runs_on_host (Scene := Scene) (ret a).
Proof. intros s. apply executed_pure. Qed.

Lemma runs_raise {A} e : runs_on_host (Scene := Scene) (A := A) (raise e).
Proof. intros s. apply executed_pure. Qed.

Lemma runs_query {A} (q : Scene -> A) : runs_on_host (query q).
Proof. intros s. apply executed_pure. Qed.

Lemma runs_query_guarded {A} (q : Scene -> result A) : runs_on_host (query_guarded q).
Proof. intros s. apply executed_pure. Qed.

Lemma runs_self {A} (field : managers -> A) : runs_on_host (Scene := Scene) (self field).
Proof. intros s. apply executed_pure. Qed.

Lemma runs_update f : runs_on_host (Scene := Scene) (self_update f).
Proof. by split. Qed.

Lemma runs_warning msg : runs_on_host (Scene := Scene) (warning msg).
Proof. by split. Qed.

Lemma runs_confirmDialog title msg : runs_on_host (Scene := Scene) (confirmDialog title msg).
Proof. by split. Qed.

Lemma runs_print line : runs_on_host (Scene := Scene) (print line).
Proof. by split. Qed.

Lemma runs_call c : runs_on_host (call c).
Proof. intros s. rewrite call_eq. by split. Qed.

Lemma runs_bind {A B} (m : M Scene A) (f : A -> M Scene B) :
  runs_on_host m -> (forall a, runs_on_host (f a)) -> runs_on_host (bind m f).
Proof.
  intros Hm Hf s. destruct (Hm s) as [Htrue Hscene]. unfold bind.
  destruct (res (m s)) as [a|e]; [|by split].
  destruct (Hf a (final (m s))) as [Htrue' Hscene']. split; simpl.
  - apply truthful_app. by rewrite <- Hscene.
  - by rewrite replay_app, <- Hscene.
Qed.

Lemma runs_try {A} (m : M Scene A) h :
  runs_on_host m -> (forall e, runs_on_host (h e)) -> runs_on_host (try_except m h).
Proof.
  intros Hm Hh s. destruct (Hm s) as [Htrue Hscene]. unfold try_except.
  destruct (res (m s)) as [a|e]; [by split|].
  destruct (Hh e (final (m s))) as [Htrue' Hscene']. split; simpl.
  - apply truthful_app. by rewrite <- Hscene.
  - by rewrite replay_app, <- Hscene.
Qed.

Lemma runs_for_in {X A} (body : X -> A -> M Scene A) xs acc :
  (forall x a, runs_on_host (body x a)) -> runs_on_host (for_in xs body acc).
Proof.
  intros Hbody. revert acc. induction xs as [|x xs IH]; intros acc; simpl.
  - apply runs_ret.
  - by apply runs_bind.
Qed.

Lemma runs_for_each {X} (body : X -> M Scene unit) xs :
  (forall x, runs_on_host (body x)) -> runs_on_host (for_each xs body).
Proof. intros Hbody. by apply runs_for_in. Qed.

Lemma runs_iterate {X} (v : option (list X)) : runs_on_host (Scene := Scene) (iterate v).
Proof. destruct v; [apply runs_ret | apply runs_raise]. Qed.

Lemma runs_index0 {X} (l : list X) : runs_on_host (Scene := Scene) (index0 l).
Proof. destruct l; [apply runs_raise | apply runs_ret]. Qed.

Lemma runs_unpack2 {X} (l : list X) : runs_on_host (Scene := Scene) (unpack2 l).
Proof. destruct l as [|a [|b [|c l]]]; first [apply runs_ret | apply runs_raise]. Qed.

(** *** Without a handler *)

Lemma propagates_silent {A} (r : result A) (s s' : state Scene) evs :
  Forall (fun ev => forall c, ev <> ECall c false) evs ->
  propagates s {| res := r; final := s'; out := evs |}.
Proof.
  intros Hnone pre c post Hout. simpl in Hout. subst evs.
  apply Forall_app in Hnone as [_ Hnone]. apply Forall_cons in Hnone as [Hnone _].
  by destruct (Hnone c).
Qed.

Lemma unguarded_ret {A} (a : A) : unguarded (Scene := Scene) (ret a).
Proof. intros s. split; [apply runs_ret | by apply propagates_silent]. Qed.

Lemma unguarded_raise {A} e : unguarded (Scene := Scene) (A := A) (raise e).
Proof. intros s. split; [apply runs_raise | by apply propagates_silent]. Qed.

Lemma unguarded_query {A} (q : Scene -> A) : unguarded (query q).
Proof. intros s. split; [apply runs_query | by apply propagates_silent]. Qed.

Lemma unguarded_self {A} (field : managers -> A) : unguarded (Scene := Scene) (self field).
Proof. intros s. split; [apply runs_self | by apply propagates_silent]. Qed.

Lemma unguarded_update f : unguarded (Scene := Scene) (self_update f).
Proof. intros s. split; [apply runs_update | by apply propagates_silent]. Qed.

Lemma unguarded_warning msg : unguarded (Scene := Scene) (warning msg).
Proof.
  intros s. split; [apply runs_warning|]. apply propagates_silent.
  by repeat constructor.
Qed.

Lemma unguarded_call c : unguarded (call c).
Proof.
  intros s. split; [apply runs_call|]. rewrite call_eq. intros pre c' post Hout.
  simpl in Hout. destruct pre as [|ev pre]; simpl in Hout.
  - injection Hout as <- Hok <-. split; [done|]. simpl.
    destruct (fst (exec c (scene s))) as [a|e]; [discriminate | by exists e].
  - injection Hout as _ Hout. by destruct pre.
Qed.

Lemma unguarded_bind {A B} (m : M Scene A) (f : A -> M Scene B) :
  unguarded m -> (forall a, unguarded (f a)) -> unguarded (bind m f).
Proof.
  intros Hm Hf s. split.
  { apply runs_bind; [intros s'; apply Hm | intros a s'; apply Hf]. }
  destruct (Hm s) as [[_ Hscene] Hstop]. unfold bind.
  destruct (res (m s)) as [a|e] eqn:Hres.
  2: { intros pre c post Hout.
       destruct (Hstop pre c post Hout) as [-> (e' & Hexec & Hraise)].
       rewrite Hres in Hraise. injection Hraise as ->.
       split; [done|]. by exists e'. }
  destruct (Hf a (final (m s))) as [_ Hstop']. intros pre c post Hout. simpl in Hout.
  apply app_eq_app in Hout as [mid [[Hpre Hmid] | [Hpre Hmid]]].
  - destruct mid as [|ev mid]; simpl in Hmid.
    + rewrite app_nil_r in Hpre. subst pre.
      destruct (Hstop' [] c post) as [-> (e & Hexec & Hraise)]; [done|].
      split; [done|]. exists e. simpl in Hexec. by rewrite <- Hscene.
    + injection Hmid as <- ->.
      destruct (Hstop pre c mid) as [_ (e & _ & Hraise)]; [done|]. congruence.
  - destruct (Hstop' mid c post) as [-> (e & Hexec & Hraise)]; [done|].
    split; [done|]. exists e. subst pre. by rewrite replay_app, <- Hscene.
Qed.

Lemma unguarded_for_in {X A} (body : X -> A -> M Scene A) xs acc :
  (forall x a, unguarded (body x a)) -> unguarded (for_in xs body acc).
Proof.
  intros Hbody. revert acc. induction xs as [|x xs IH]; intros acc; simpl.
  - apply unguarded_ret.
  - by apply unguarded_bind.
Qed.

Lemma unguarded_for_each {X} (body : X -> M Scene unit) xs :
  (forall x, unguarded (body x)) -> unguarded (for_each xs body).
Proof. intros Hbody. by apply unguarded_for_in. Qed.

Lemma unguarded_iterate {X} (v : option (list X)) : unguarded (Scene := Scene) (iterate v).
Proof. destruct v; [apply unguarded_ret | apply unguarded_raise]. Qed.

Lemma unguarded_index0 {X} (l : list X) : unguarded (Scene := Scene) (index0 l).
Proof. destruct l; [apply unguarded_raise | apply unguarded_ret]. Qed.

Lemma unguarded_unpack2 {X} (l : list X) : unguarded (Scene := Scene) (unpack2 l).
Proof.
  destruct l as [|a [|b [|c l]]]; first [apply unguarded_ret | apply unguarded_raise].
Qed.
End OnTheHost.

Create HintDb on_host.
#[local] Hint Resolve runs_ret runs_raise runs_query runs_query_guarded runs_self
  runs_update runs_warning runs_confirmDialog runs_print runs_iterate runs_index0
  runs_unpack2 : on_host.
#[local] Hint Resolve unguarded_ret unguarded_raise unguarded_query unguarded_self
  unguarded_update unguarded_warning unguarded_iterate unguarded_index0
  unguarded_unpack2 : on_host.

(** Walk down a method, one rule per construct of the monad. *)
Ltac on_host :=
  repeat first
    [ progress intros
    | progress cbv zeta
    | apply runs_bind
    | apply runs_try
    | apply runs_for_in
    | apply runs_for_each
    | apply unguarded_bind
    | apply unguarded_for_in
    | apply unguarded_for_each
    | solve [eauto with on_host]
    | match goal with
      | |- runs_on_host (call ?c) => exact (runs_call c)
      | |- unguarded (call ?c) => exact (unguarded_call c)
      | |- runs_on_host (if ?b then _ else _) => destruct b
      | |- unguarded (if ?b then _ else _) => destruct b
      | |- runs_on_host (match ?x with _ => _ end) => destruct x
      | |- unguarded (match ?x with _ => _ end) => destruct x
      end ].

Section Managers.
Context {Scene : Type} `{!Host Scene}.

Lemma runs_rename_objects name_input is_prefix :
  runs_on_host (Scene := Scene) (rename_objects name_input is_prefix).
Proof. unfold rename_objects, rename_object. on_host. Qed.

Lemma runs_copy_weights source_obj target_list :
  runs_on_host (Scene := Scene) (copy_weights source_obj target_list).
Proof. unfold copy_weights, copy_to, get_skin_cluster. on_host. Qed.

Lemma runs_toggle_joint_display show selected_only :
  runs_on_host (Scene := Scene) (toggle_joint_display show selected_only).
Proof. unfold toggle_joint_display, set_draw_style. on_host. Qed.

Lemma runs_lock_unlock_attributes lock translate rotate scale :
  runs_on_host (Scene := Scene) (lock_unlock_attributes lock translate rotate scale).
Proof. unfold lock_unlock_attributes, lock_object, extend_if, attributes_item. on_host. Qed.

Lemma runs_save_asset asset_name file_type :
  runs_on_host (Scene := Scene) (save_asset asset_name file_type).
Proof. unfold save_asset. on_host. Qed.

Lemma unguarded_joint_creation name pos parent_name :
  unguarded (Scene := Scene) (joint_creation name pos parent_name).
Proof. unfold joint_creation. on_host. Qed.

Lemma unguarded_setup_control jnt : unguarded (Scene := Scene) (setup_control jnt).
Proof. unfold setup_control. on_host. Qed.

Lemma unguarded_create_basic_skeleton : unguarded (Scene := Scene) create_basic_skeleton.
Proof.
  unfold create_basic_skeleton.
  repeat (apply unguarded_bind; [apply unguarded_joint_creation | intros ?]).
  apply unguarded_ret.
Qed.

Lemma unguarded_create_fk_chain : unguarded (Scene := Scene) create_fk_chain.
Proof.
  unfold create_fk_chain, duplicate_for_fk, create_fk_controls, fk_control, fk_rig,
    fk_attach.
  on_host.
Qed.

Lemma unguarded_create_ik_setup : unguarded (Scene := Scene) create_ik_setup.
Proof.
  unfold create_ik_setup, ik_limb, setup_control. on_host.
Qed.

Lemma unguarded_show_display_mode mode : unguarded (Scene := Scene) (show_display_mode mode).
Proof. unfold show_display_mode, hide_or_show. on_host. Qed.
End Managers.

(** ** Failures caught inside the operation, and failures let out *)

Section Handlers.
Context {Scene : Type} `{!Host Scene}.

Lemma get_file_list_eq (s : state Scene) :
  get_file_list s
  = {| res := Ok (match getFileList (filepath (mgr s)) (scene s) with
                  | Ok files => or_list files []
                  | Raise _ => []
                  end);
       final := s; out := [] |}.
Proof.
  unfold get_file_list, try_except. rewrite bind_self. unfold bind, query_guarded; simpl.
  by destruct (getFileList (filepath (mgr s)) (scene s)) as [files|e].
Qed.

(** C2 (amended): the five operations that wrap host commands in [try]
    never let an exception out, whatever the input and the scene: every
    command in the trace of [rename_objects], [copy_weights],
    [toggle_joint_display], [lock_unlock_attributes] or [save_asset]
    was run on the host, a command that raised is followed at once by a
    warning, and the operation returns.  [get_file_list] emits nothing
    and returns the host's list, or the empty list when the host raises
    or has nothing to list.  The six methods of RigBuilder have no
    handler: their commands are run on the host as well, and the first
    one that raises is the last event of the run, which raises what the
    command raised. *)
Theorem guarded_operations_return (s : state Scene) :
  (forall name_input is_prefix, caught s (rename_objects name_input is_prefix s))
  /\ (forall source_obj target_list, caught s (copy_weights source_obj target_list s))
  /\ (forall show selected_only, caught s (toggle_joint_display show selected_only s))
  /\ (forall asset_name file_type, caught s (save_asset asset_name file_type s))
  /\ (attributes (mgr s) = init_attributes ->
      forall lock translate rotate scale,
        caught s (lock_unlock_attributes lock translate rotate scale s))
  /\ get_file_list s
     = {| res := Ok (match getFileList (filepath (mgr s)) (scene s) with
                     | Ok files => or_list files []
                     | Raise _ => []
                     end);
          final := s; out := [] |}
  /\ (forall name pos parent_name, uncaught s (joint_creation name pos parent_name s))
  /\ (forall jnt, uncaught s (setup_control jnt s))
  /\ uncaught s (create_basic_skeleton s)
  /\ uncaught s (create_fk_chain s)
  /\ uncaught s (create_ik_setup s)
  /\ (forall mode, uncaught s (show_display_mode mode s)).
Proof.
  split; [|split; [|split; [|split; [|split; [|split]]]]].
  - intros. split; [apply quiet_rename_objects | apply runs_rename_objects].
  - intros. split; [apply quiet_copy_weights | apply runs_copy_weights].
  - intros. split; [apply quiet_toggle_joint_display | apply runs_toggle_joint_display].
  - intros. split; [apply quiet_save_asset | apply runs_save_asset].
  - intros. split; [by apply quiet_lock_unlock_attributes | apply runs_lock_unlock_attributes].
  - apply get_file_list_eq.
  - split; [|split; [|split; [|split; [|split]]]]; intros.
    + apply unguarded_joint_creation.
    + apply unguarded_setup_control.
    + apply unguarded_create_basic_skeleton.
    + apply unguarded_create_fk_chain.
    + apply unguarded_create_ik_setup.
    + apply unguarded_show_display_mode.
Qed.
End Handlers.

(** C2 at work: every guarded operation on a scene where renaming,
    locking and copying partly fail; a joint under a parent that is not
    in the scene. *)
Lemma guarded_operations_return_witness :
  attributes (mgr Studio.props) = init_attributes
  /\ caught Studio.props (rename_objects "RT" false Studio.props)
  /\ caught Studio.props (copy_weights "body" None Studio.props)
  /\ caught Studio.props (toggle_joint_display true true Studio.props)
  /\ caught Studio.props (save_asset "hero" "MB" Studio.props)
  /\ caught Studio.props (lock_unlock_attributes true true true true Studio.props)
  /\ uncaught Studio.skeleton
       (joint_creation "tail" (0, 0, 0)%Q (Some "pelvis_drv_jnt") Studio.skeleton).
Proof.
  destruct (guarded_operations_return Studio.props)
    as (Hrename & Hcopy & Htoggle & Hsave & Hlock & _).
  destruct (guarded_operations_return Studio.skeleton)
    as (_ & _ & _ & _ & _ & _ & Hjoint & _).
  split; [reflexivity|].
  split; [apply Hrename|]. split; [apply Hcopy|]. split; [apply Htoggle|].
  split; [apply Hsave|]. split; [apply Hlock; reflexivity|]. apply Hjoint.
Defined.

(** ** Renaming and locking on the host *)

Section OnSelection.
Context {Scene : Type} `{!Host Scene}.

(** C5: with a non-empty selection and a name that is not blank,
    [rename_objects] asks the host for one [rename] per selected
    object, in order, to [name_obj] as a prefix and to [obj_name] as a
    suffix, [name] being the stripped input.  Each of these commands is
    run on the host, in the scene the earlier ones left, and is marked
    as a success exactly when the host did not raise; the final scene is
    the one they left.  The result is [True] iff one of them
    succeeded. *)
Theorem rename_objects_renames name_input is_prefix (s : state Scene) :
  ls_selection (scene s) <> [] ->
  PyStr.strip name_input <> "" ->
  let name := PyStr.strip name_input in
  let o := rename_objects name_input is_prefix s in
  map fst (calls (out o))
  = map (fun obj => rename obj (if is_prefix : bool
                                then name +:+ "_" +:+ obj
                                else obj +:+ "_" +:+ name))
      (ls_selection (scene s))
  /\ res o = Ok (existsb snd (calls (out o)))
  /\ executed s o.
Proof.
  intros Hsel Hname name o.
  destruct (rename_objects_batch name_input is_prefix s Hsel Hname)
    as (runs & Hruns & _ & Hout & Hres).
  destruct (attempted_calls _ _ _ Hruns) as [Hcmds Hany].
  split; [|split; [|apply runs_rename_objects]];
    fold o in Hout, Hres; rewrite ?Hout, ?Hres, calls_app, ?map_app, ?existsb_app,
      ?Hcmds, ?Hany;
    destruct (0 <? count_ok runs); simpl; by rewrite ?app_nil_r, ?orb_false_r.
Qed.

(** C7 (amended): with a non-empty selection, [lock_unlock_attributes]
    returns [False] after one warning when no group is enabled.
    Otherwise it walks the selection: on each object it asks the host
    to set, for the X, Y and Z attributes of the enabled groups in
    order, [lock] to the argument and [keyable] and [channelBox] to its
    negation, up to the first attribute on which the host raises, which
    ends that object with a warning, its remaining attributes untried.
    Every command of the trace is run on the host and marked as it
    went.  The method prints the count of the objects done in full and
    returns [True] iff there is one. *)
Theorem lock_unlock_attributes_flags lock translate rotate scale (s : state Scene) :
  ls_selection (scene s) <> [] ->
  attributes (mgr s) = init_attributes ->
  let o := lock_unlock_attributes lock translate rotate scale s in
  if translate || rotate || scale then
    batch (flagged lock (enabled_attrs translate rotate scale))
      (ls_selection (scene s))
      (fun n => EPrint (locked_message lock n)) o
    /\ executed s o
  else
    o = {| res := Ok false; final := s; out := [EWarning "No attributes specified."] |}.
Proof.
  intros Hsel Hinit o. destruct (translate || rotate || scale) eqn:Hany.
  - split; [by apply lock_unlock_attributes_batch | apply runs_lock_unlock_attributes].
  - destruct translate, rotate, scale; try done.
    by apply lock_unlock_attributes_none.
Qed.
End OnSelection.

(** C5 at work: a prefix on three selected nodes, one of them locked. *)
Lemma rename_objects_renames_witness :
  ls_selection (scene Studio.props) <> []
  /\ PyStr.strip " LT " <> ""
  /\ map fst (calls (out (rename_objects " LT " true Studio.props)))
     = [rename "cube" "LT_cube"; rename "ground" "LT_ground";
        rename "skinCluster1" "LT_skinCluster1"]
  /\ res (rename_objects " LT " true Studio.props) = Ok true
  /\ executed Studio.props (rename_objects " LT " true Studio.props).
Proof.
  assert (Hsel : ls_selection (scene Studio.props) <> []) by (vm_compute; discriminate).
  assert (Hname : PyStr.strip " LT " <> "") by (vm_compute; discriminate).
  split; [exact Hsel|]. split; [exact Hname|].
  destruct (rename_objects_renames " LT " true Studio.props Hsel Hname)
    as (Hcmds & Hres & Hrun).
  split; [rewrite Hcmds; vm_compute; reflexivity|].
  split; [rewrite Hres; vm_compute; reflexivity | exact Hrun].
Defined.

(** C7 at work: locking translate and scale on the same selection. *)
Lemma lock_unlock_attributes_flags_witness :
  ls_selection (scene Studio.props) <> []
  /\ attributes (mgr Studio.props) = init_attributes
  /\ batch (flagged true (enabled_attrs true false true))
       (ls_selection (scene Studio.props))
       (fun n => EPrint (locked_message true n))
       (lock_unlock_attributes true true false true Studio.props)
  /\ executed Studio.props (lock_unlock_attributes true true false true Studio.props).
Proof.
  assert (Hsel : ls_selection (scene Studio.props) <> []) by (vm_compute; discriminate).
  split; [exact Hsel|]. split; [reflexivity|].
  exact (lock_unlock_attributes_flags true true false true Studio.props Hsel eq_refl).
Defined.

(** C7 as stated fails on an object on which the host raises: the skin
    cluster is selected and has no [translateX]; the command for it
    raises, the commands for its other attributes are never issued, and
    nothing is set on it. *)
Lemma failed_object_left_untried :
  let o := lock_unlock_attributes true true false false Studio.props in
  In "skinCluster1" (ls_selection (scene Studio.props))
  /\ In (set_flags true "skinCluster1" ".translateX", false) (calls (out o))
  /\ ~ In (set_flags true "skinCluster1" ".translateY") (map fst (calls (out o)))
  /\ ~ In (set_flags true "skinCluster1" ".translateZ") (map fst (calls (out o)))
  /\ res o = Ok true.
Proof.
  split; [vm_compute; tauto|]. split; [vm_compute; tauto|].
  split; [|split; [|reflexivity]]; vm_compute;
    intros Hin; repeat (destruct Hin as [Hin|Hin]; [discriminate|]); exact Hin.
Qed.

(** ** The default targets of [copy_weights] *)

Lemma truthy_true s : s <> "" -> PyStr.truthy s = true.
Proof. intros Hne. destruct (PyStr.truthy s) eqn:E; [done|]. by apply truthy_false in E. Qed.

Section Targets.
Context {Scene : Type} `{!Host Scene}.

(** The loop of [copy_weights] visits every target. *)
Lemma copy_loop_visits source_skin targets count (s : state Scene) :
  exists evs n,
    visits source_skin targets (scene s) evs n
    /\ for_in targets (copy_to source_skin) count s
       = {| res := Ok (count + n);
            final := {| scene := replay evs (scene s); mgr := mgr s |};
            out := evs |}.
Proof.
  revert count s. induction targets as [|target targets IH]; intros count s.
  - exists [], 0. split; [constructor|]. simpl. unfold ret. destruct s. do 2 f_equal. lia.
  - rewrite for_in_cons. unfold copy_to at 1. rewrite bind_assoc, bind_query.
    destruct (objExists target (scene s)) eqn:Hfound; cbn [negb].
    2:{ destruct (IH count s) as (evs & n & Hvisits & Heq).
        eexists _, n. split; [by apply visits_missing|].
        by rewrite bind_assoc, bind_warning, bind_ret, Heq. }
    rewrite bind_assoc, bind_get_skin_cluster. fold (skin_of target (scene s)).
    destruct (skin_of target (scene s)) as [dest_skin|] eqn:Hskin.
    2:{ destruct (IH count s) as (evs & n & Hvisits & Heq).
        eexists _, n. split; [by apply visits_bare|].
        by rewrite bind_assoc, bind_warning, bind_ret, Heq. }
    destruct (fst (exec (copySkinWeights source_skin dest_skin) (scene s)))
      as [[]|e] eqn:E.
    + destruct (IH (count + 1) (after (copySkinWeights source_skin dest_skin) s))
        as (evs & n & Hvisits & Heq).
      eexists _, (S n). split; [by apply (visits_copied _ _ dest_skin)|].
      unfold bind at 1. rewrite (try_ok _ _ _ (count + 1));
        rewrite (bind_call_ok _ _ _ _ E); [|done]. simpl.
      rewrite Heq. simpl. do 2 f_equal. lia.
    + destruct (IH count (after (copySkinWeights source_skin dest_skin) s))
        as (evs & n & Hvisits & Heq).
      eexists _, n. split; [by apply (visits_failed _ _ dest_skin e)|].
      unfold bind at 1. rewrite (try_raised _ _ _ e);
        rewrite (bind_call_raise _ _ _ _ E); [|done]. simpl.
      by rewrite Heq.
Qed.

(** C9: an empty [target_list] is falsy, so [copy_weights(source, [])]
    behaves as [copy_weights(source)]: with the managers as their
    constructors leave them and a source that has a skin cluster, the
    loop visits the default targets [two], [three] and [four], one
    after the other.  Each of them gets its warning when it is not in
    the scene or has no skin cluster, and its [copySkinWeights] on the
    host otherwise; the dialog and the result report the number of
    copies that succeeded. *)
Theorem copy_weights_empty_targets source_obj source_skin target_list sc asset_dir :
  let s := {| scene := sc; mgr := init_managers asset_dir |} in
  target_list = None \/ target_list = Some [] ->
  source_obj <> "" ->
  objExists source_obj sc = true ->
  skin_of source_obj sc = Some source_skin ->
  copy_weights source_obj (Some []) s = copy_weights source_obj None s
  /\ exists evs n,
       visits source_skin ["two"; "three"; "four"] sc evs n
       /\ copy_weights source_obj target_list s
          = {| res := Ok (0 <? n);
               final := {| scene := replay evs sc; mgr := init_managers asset_dir |};
               out := evs ++ (if 0 <? n
                              then [EDialog "Copy Skin Weights" (copied_message n)]
                              else []) |}.
Proof.
  intros s Hfalsy Hsrc Hfound Hskin.
  assert (Hsame : forall tl, tl = None \/ tl = Some [] ->
            copy_weights source_obj tl s = copy_weights source_obj None s).
  { intros tl [-> | ->]; [done|]. unfold copy_weights.
    destruct (PyStr.truthy source_obj); simpl; [|done].
    rewrite !bind_query. destruct (objExists source_obj (scene s)); simpl; [|done].
    rewrite !bind_get_skin_cluster. destruct (truthy_value _); [|done].
    by rewrite !bind_self. }
  split; [apply Hsame; by right|]. rewrite (Hsame _ Hfalsy).
  destruct (copy_loop_visits source_skin ["two"; "three"; "four"] 0 s)
    as (evs & n & Hvisits & Heq).
  exists evs, n. split; [done|].
  unfold copy_weights. rewrite (truthy_true _ Hsrc). cbn [negb].
  rewrite bind_query. change (scene s) with sc. rewrite Hfound. cbn [negb].
  rewrite bind_get_skin_cluster. change (scene s) with sc.
  fold (skin_of source_obj sc). rewrite Hskin, bind_self. cbv zeta.
  change (or_list None (target_objects (mgr s))) with ["two"; "three"; "four"].
  unfold bind at 1. rewrite Heq. cbn [res final out]. simpl "+".
  by destruct (0 <? n).
Qed.
End Targets.

Lemma body_skin_cluster : skin_of "body" (scene Studio.props) = Some "skinCluster1".
Proof. vm_compute. reflexivity. Qed.

(** C9 at work: an empty list of targets in a scene that holds [two]
    with a skin cluster, [three] without one, and no [four]. *)
Lemma copy_weights_empty_targets_witness :
  copy_weights "body" (Some []) Studio.props = copy_weights "body" None Studio.props
  /\ exists evs n,
       visits "skinCluster1" ["two"; "three"; "four"] (scene Studio.props) evs n
       /\ copy_weights "body" (Some []) Studio.props
          = {| res := Ok (0 <? n);
               final := {| scene := replay evs (scene Studio.props);
                           mgr := init_managers "/home/artist/maya/scripts/Asset/" |};
               out := evs ++ (if 0 <? n
                              then [EDialog "Copy Skin Weights" (copied_message n)]
                              else []) |}.
Proof.
  refine (copy_weights_empty_targets "body" "skinCluster1" (Some [])
            (scene Studio.props) "/home/artist/maya/scripts/Asset/" _ _ _ body_skin_cluster);
    [by right | discriminate | reflexivity].
Defined.

(** * Further properties *)

(** ** Display modes *)

Section Display.
Context {Scene : Type} `{!Host Scene}.

(** A loop of [hide] or [showHidden] works on a sub-list of its nodes,
    those that exist when their turn comes, and stops at the first
    command that raises. *)
Lemma hide_or_show_loop (cmd : string -> command) nodes (s : state Scene) :
  exists processed,
    sublist processed nodes
    /\ ((res (for_each nodes (hide_or_show cmd) s) = Ok tt
         /\ out (for_each nodes (hide_or_show cmd) s) = done_on cmd processed)
        \/ (exists n e,
              res (for_each nodes (hide_or_show cmd) s) = Raise e
              /\ out (for_each nodes (hide_or_show cmd) s)
                 = done_on cmd processed ++ [ECall (cmd n) false])).
Proof.
  revert s. induction nodes as [|node nodes IH]; intros s.
  - exists []. split; [done|]. by left.
  - rewrite for_each_cons. unfold hide_or_show at 1 3 5 7. rewrite !bind_assoc, !bind_query.
    destruct (objExists node (scene s)).
    + rewrite !bind_assoc.
      destruct (fst (exec (cmd node) (scene s))) as [a|e] eqn:E.
      * rewrite (bind_call_ok _ _ _ _ E), !bind_ret. simpl.
        destruct (IH (after (cmd node) s)) as (processed & Hsub & Hcase).
        exists (node :: processed). split; [by constructor|].
        destruct Hcase as [[-> ->] | (n & e & -> & ->)]; [by left|].
        right. by exists n, e.
      * rewrite (bind_call_raise _ _ _ _ E). simpl.
        exists []. split; [apply sublist_nil_l|]. right. by exists node, e.
    + rewrite !bind_ret. destruct (IH s) as (processed & Hsub & Hcase).
      exists processed. split; [by constructor|]. done.
Qed.

Lemma show_display_mode_eq mode (s : state Scene) :
  show_display_mode mode s
  = (for_each (listed_all (scene s)) (hide_or_show hide) ;;
     if String.eqb mode "base" || String.eqb mode "fk" || String.eqb mode "ik" then
       let* nodes := query (listed_for mode) in
       for_each nodes (hide_or_show showHidden)
     else raise (UnboundLocalError "nodes_to_show")) s.
Proof.
  unfold show_display_mode, listed_all, listed_for. rewrite bind_query.
  unfold bind at 1 3. destruct (for_each _ _ s) as [[[]|e] s1 evs]; [|done]. simpl.
  destruct (String.eqb mode "base"); [done|].
  destruct (String.eqb mode "fk"); [done|].
  by destruct (String.eqb mode "ik").
Qed.

(** X1.  With a mode other than "base", "fk" and "ik" the method hides a
    sub-list of what it listed and then raises: either a [hide] raised,
    or the local [nodes_to_show] was never bound.  It never returns and
    never shows a node again. *)
Theorem show_display_mode_unknown mode (s : state Scene) :
  mode <> "base" -> mode <> "fk" -> mode <> "ik" ->
  exists hidden,
    sublist hidden (listed_all (scene s))
    /\ ((res (show_display_mode mode s) = Raise (UnboundLocalError "nodes_to_show")
         /\ out (show_display_mode mode s) = done_on hide hidden)
        \/ (exists n e,
              res (show_display_mode mode s) = Raise e
              /\ out (show_display_mode mode s)
                 = done_on hide hidden ++ [ECall (hide n) false])).
Proof.
  intros Hbase Hfk Hik. rewrite show_display_mode_eq.
  apply String.eqb_neq in Hbase, Hfk, Hik. rewrite Hbase, Hfk, Hik. cbn [orb].
  destruct (hide_or_show_loop hide (listed_all (scene s)) s) as (hidden & Hsub & Hcase).
  exists hidden. split; [done|].
  destruct Hcase as [[Hres Hout] | (n & e & Hres & Hout)].
  - left. unfold bind. destruct (for_each _ _ s) as [r s1 evs]. simpl in *.
    subst. simpl. by rewrite app_nil_r.
  - right. exists n, e. by rewrite (bind_raised _ _ _ _ Hres).
Qed.

(** X2.  With one of the three modes the method hides a sub-list of
    everything it listed and then shows a sub-list of what the mode
    lists once the hiding is done.  It returns when every command
    succeeded; otherwise it stops at the first [hide] or [showHidden]
    that raised: nothing is caught and no later node is hidden or
    shown.  No other command is issued. *)
Theorem show_display_mode_outcome mode (s : state Scene) :
  mode = "base" \/ mode = "fk" \/ mode = "ik" ->
  exists hidden,
    sublist hidden (listed_all (scene s))
    /\ ((exists n e,
           res (show_display_mode mode s) = Raise e
           /\ out (show_display_mode mode s)
              = done_on hide hidden ++ [ECall (hide n) false])
        \/ exists shown,
             sublist shown (listed_for mode (scene (all_hidden s)))
             /\ ((res (show_display_mode mode s) = Ok tt
                  /\ out (show_display_mode mode s)
                     = done_on hide hidden ++ done_on showHidden shown)
                 \/ (exists n e,
                       res (show_display_mode mode s) = Raise e
                       /\ out (show_display_mode mode s)
                          = done_on hide hidden ++ done_on showHidden shown
                            ++ [ECall (showHidden n) false]))).
Proof.
  intros Hmode. rewrite show_display_mode_eq.
  assert (String.eqb mode "base" || String.eqb mode "fk" || String.eqb mode "ik" = true)
    as ->.
  { destruct Hmode as [-> | [-> | ->]]; reflexivity. }
  destruct (hide_or_show_loop hide (listed_all (scene s)) s) as (hidden & Hsub & Hcase).
  exists hidden. split; [done|].
  destruct Hcase as [[Hres1 Hout1] | (n & e & Hres1 & Hout1)].
  - right. rewrite (bind_ok _ _ _ _ Hres1). unfold prepend. cbn [res out].
    rewrite bind_query. fold (all_hidden s).
    destruct (hide_or_show_loop showHidden (listed_for mode (scene (all_hidden s)))
                (all_hidden s)) as (shown & Hsub2 & Hcase).
    exists shown. split; [done|].
    destruct Hcase as [[Hres2 Hout2] | (n & e & Hres2 & Hout2)].
    + left. by rewrite Hres2, Hout1, Hout2.
    + right. exists n, e. by rewrite Hres2, Hout1, Hout2.
  - left. exists n, e. by rewrite (bind_raised _ _ _ _ Hres1).
Qed.
End Display.

(** ** The FK controls on record *)

Section Records.
Context {Scene : Type} `{!Host Scene}.

#[local] Instance keeps_keys_preorder : PreOrder keeps_keys.
Proof.
  split.
  - intros m. unfold keeps_keys. set_solver.
  - intros m1 m2 m3 H12 H23. unfold keeps_keys in *. set_solver.
Qed.

Lemma keeps_keys_insert k v m :
  keeps_keys m (set_fk_ctrls (<[k := v]> (fk_ctrls m)) m).
Proof. unfold keeps_keys. destruct m; simpl. set_solver. Qed.

Lemma fk_control_keeps_keys jnt : preserves (Scene := Scene) keeps_keys (fk_control jnt).
Proof.
  unfold fk_control, fk_attach, fk_rig. preserve.
  all: apply preserves_update; intros m; apply keeps_keys_insert.
Qed.

(** X3.  [create_fk_chain] never drops a control from [fk_ctrls]: every
    key on record before the call is on record after it, whether the
    call returned or raised on the way. *)
Theorem create_fk_chain_keeps_keys (s : state Scene) :
  dom (fk_ctrls (mgr s)) ⊆ dom (fk_ctrls (mgr (final (create_fk_chain s)))).
Proof.
  revert s. change (preserves (Scene := Scene) keeps_keys create_fk_chain).
  unfold create_fk_chain, duplicate_for_fk, create_fk_controls, fk_control, fk_attach.
  preserve.
  all: apply preserves_update; intros m; apply keeps_keys_insert.
Qed.

(** A loop of [fk_control] that returned has added the base names of
    its joints to the record. *)
Lemma fk_controls_on_record joints (s : state Scene) :
  res (for_each joints fk_control s) = Ok tt ->
  dom (fk_ctrls (mgr (final (for_each joints fk_control s))))
  = list_to_set (fk_base <$> joints) ∪ dom (fk_ctrls (mgr s)).
Proof.
  revert s. induction joints as [|j joints IH]; intros s Hres.
  - simpl. by rewrite (left_id_L ∅ (∪)).
  - rewrite for_each_cons in Hres |- *.
    destruct (bind_inv _ _ _ _ Hres) as ([] & Hturn & Hrest & _ & ->).
    destruct (fk_control_turn _ _ Hturn) as (ctrl & grp & _ & Hrec & _).
    rewrite (IH _ Hrest), Hrec, dom_insert_L, fmap_cons, list_to_set_cons.
    by rewrite (assoc_L (∪)), (comm_L (∪) (list_to_set _) {[_]}).
Qed.

Lemma duplicate_for_fk_keeps (s : state Scene) : mgr (final (duplicate_for_fk s)) = mgr s.
Proof.
  symmetry. revert s. change (preserves (Scene := Scene) eq duplicate_for_fk).
  unfold duplicate_for_fk. preserve.
Qed.

(** X4.  When [create_fk_chain] finds the skeleton and returns, the keys
    of [fk_ctrls] are the keys it had before and the base names of the
    FK joints the method went through, no more and no less. *)
Theorem create_fk_chain_records (s : state Scene) :
  objExists "spine_drv_jnt" (scene s) = true ->
  res (create_fk_chain s) = Ok tt ->
  let named := final (duplicate_for_fk s) in
  let joints := fk_order (listRelatives_ad "spine_FK_jnt" (scene named)) in
  dom (fk_ctrls (mgr (final (create_fk_chain s))))
  = list_to_set (fk_base <$> joints) ∪ dom (fk_ctrls (mgr s)).
Proof.
  unfold create_fk_chain. rewrite bind_query. intros -> Hres. cbn [negb] in *.
  destruct (bind_inv _ _ _ _ Hres) as ([] & _ & Hctrls & _ & ->).
  unfold create_fk_controls in Hctrls |- *. rewrite bind_query in Hctrls |- *.
  cbv zeta. by rewrite (fk_controls_on_record _ _ Hctrls), duplicate_for_fk_keeps.
Qed.

(** Once a joint has had its turn, its control stays on record for as
    long as no later joint has the same base name. *)
Lemma recorded_while_unique joints k jnt (s : state Scene) :
  res (for_each joints fk_control s) = Ok tt ->
  joints !! k = Some jnt ->
  (forall k' jnt', k < k' -> joints !! k' = Some jnt' -> fk_base jnt' <> fk_base jnt) ->
  forall n, k < n -> n <= length joints ->
    exists ctrl grp,
      rigged_at joints k s = Some (ctrl, grp)
      /\ fk_ctrls (mgr (turn joints n s)) !! fk_base jnt = Some ctrl.
Proof.
  intros Hres Hk Hlast n. induction n as [|n IH]; intros Hkn Hn; [lia|].
  destruct (lookup_lt_is_Some_2 joints n) as [jn Hjn]; [lia|].
  destruct (turn_step _ _ _ _ Hres Hjn) as [Hstep ->].
  destruct (fk_control_turn _ _ Hstep) as (ctrl & grp & Hrig & -> & _).
  destruct (decide (k = n)) as [->|Hne].
  - assert (jn = jnt) as -> by congruence.
    exists ctrl, grp. unfold rigged_at. rewrite Hk, Hrig.
    split; [done|]. apply lookup_insert_eq.
  - destruct IH as (ctrl_k & grp_k & Hrigged & Hlook); [lia | lia |].
    exists ctrl_k, grp_k. split; [done|].
    rewrite lookup_insert_ne; [done|]. apply (Hlast n); [lia | done].
Qed.

(** X5.  When two FK joints have the same base name the later one
    wins: after a loop that returned, the control on record under a base
    name is the one made for the last joint with that base name. *)
Theorem fk_ctrls_last_wins (s : state Scene) (k : nat) (jnt : string) :
  let joints := fk_order (listRelatives_ad "spine_FK_jnt" (scene s)) in
  res (create_fk_controls s) = Ok tt ->
  joints !! k = Some jnt ->
  (forall k' jnt', k < k' -> joints !! k' = Some jnt' -> fk_base jnt' <> fk_base jnt) ->
  exists ctrl grp,
    rigged_at joints k s = Some (ctrl, grp)
    /\ fk_ctrls (mgr (final (create_fk_controls s))) !! fk_base jnt = Some ctrl.
Proof.
  intros joints. unfold create_fk_controls. rewrite bind_query. fold joints.
  intros Hres Hk Hlast.
  destruct (recorded_while_unique _ _ _ _ Hres Hk Hlast (length joints))
    as (ctrl & grp & Hrigged & Hlook);
    [by apply (lookup_lt_Some joints k jnt) | done |].
  exists ctrl, grp. split; [done|].
  unfold turn in Hlook. by rewrite firstn_all in Hlook.
Qed.

(** X6.  A skeleton with nothing below its root: when the host lists no
    descendants ([None]) for the renamed duplicate, [create_fk_chain]
    raises a [TypeError].  The duplicate it made and renamed stays in
    the scene, and no control is built. *)
Theorem create_fk_chain_childless (s : state Scene)
    (d : string) (ds : list string) (fk_root : string) :
  let s1 := after (duplicate "spine_drv_jnt") s in
  let s2 := after (rename d "spine_FK_jnt") s1 in
  objExists "spine_drv_jnt" (scene s) = true ->
  fst (exec (duplicate "spine_drv_jnt") (scene s)) = Ok (d :: ds) ->
  fst (exec (rename d "spine_FK_jnt") (scene s1)) = Ok fk_root ->
  listRelatives_ad fk_root (scene s2) = None ->
  create_fk_chain s
  = {| res := Raise (TypeError "'NoneType' object is not iterable");
       final := s2;
       out := [ECall (duplicate "spine_drv_jnt") true;
               ECall (rename d "spine_FK_jnt") true] |}.
Proof.
  intros s1 s2 Hfound Hdup Hren Hrel.
  unfold create_fk_chain. rewrite bind_query, Hfound. cbn [negb].
  unfold duplicate_for_fk. rewrite !bind_assoc.
  rewrite (bind_call_ok _ _ _ _ Hdup). unfold index0. rewrite bind_assoc, bind_ret.
  fold s1. rewrite bind_assoc, (bind_call_ok _ _ _ _ Hren). fold s2.
  rewrite bind_assoc, bind_query, Hrel. unfold iterate.
  rewrite bind_assoc, bind_raise. reflexivity.
Qed.

(** X7.  In the same situation [create_ik_setup] does not raise: it
    takes the missing list for an empty one, renames the root alone and
    goes on to the limbs. *)
Theorem create_ik_setup_childless (s : state Scene)
    (d : string) (ds : list string) (ik_root : string) :
  let s1 := after (duplicate "spine_drv_jnt") s in
  let s2 := after (rename d "spine_IK_jnt") s1 in
  objExists "spine_drv_jnt" (scene s) = true ->
  fst (exec (duplicate "spine_drv_jnt") (scene s)) = Ok (d :: ds) ->
  fst (exec (rename d "spine_IK_jnt") (scene s1)) = Ok ik_root ->
  listRelatives_ad ik_root (scene s2) = None ->
  create_ik_setup s
  = prepend [ECall (duplicate "spine_drv_jnt") true;
             ECall (rename d "spine_IK_jnt") true]
      ((call (rename ik_root (PyStr.replace "_drv_jnt" "_IK_jnt" ik_root)) ;;
        for_each limbs ik_limb) s2).
Proof.
  intros s1 s2 Hfound Hdup Hren Hrel.
  unfold create_ik_setup. rewrite bind_query, Hfound. cbn [negb].
  rewrite (bind_call_ok _ _ _ _ Hdup). unfold index0. rewrite bind_ret.
  fold s1. rewrite (bind_call_ok _ _ _ _ Hren). fold s2.
  rewrite bind_query, Hrel. cbv zeta. simpl or_list. simpl app.
  rewrite prepend_prepend. f_equal.
  unfold bind at 1 3. rewrite for_each_cons.
  unfold bind. destruct (call _ s2) as [[a|e] s3 evs]; simpl; [|done].
  by rewrite !app_nil_r.
Qed.
End Records.

(** ** Saved assets *)

Section Assets.
Context {Scene : Type} `{!Host Scene}.

(** X8.  With a name that is not blank, [save_asset] renames the scene
    to the asset path and then saves it, as Maya ASCII when the type is
    exactly "MA" and as Maya binary for any other type.  When the rename
    raises, no save is attempted.  Either failure ends in one warning
    and [False]; only when both commands succeed does the dialog show,
    with the path and the extension of the type. *)
Theorem save_asset_outcome asset_name file_type (s : state Scene) :
  PyStr.strip asset_name <> "" ->
  let path := asset_path asset_name s in
  let kind := saved_as file_type in
  let renamed := after (file_rename path) s in
  let saved := after (file_save (fst kind)) renamed in
  save_asset asset_name file_type s
  = match fst (exec (file_rename path) (scene s)) with
    | Raise e =>
        {| res := Ok false; final := renamed;
           out := [ECall (file_rename path) false; save_failed e] |}
    | Ok _ =>
        match fst (exec (file_save (fst kind)) (scene renamed)) with
        | Raise e =>
            {| res := Ok false; final := saved;
               out := [ECall (file_rename path) true;
                       ECall (file_save (fst kind)) false; save_failed e] |}
        | Ok _ =>
            {| res := Ok true; final := saved;
               out := [ECall (file_rename path) true;
                       ECall (file_save (fst kind)) true;
                       saved_message (path +:+ snd kind)] |}
        end
    end.
Proof.
  intros Hname path kind renamed saved.
  unfold save_asset. rewrite (truthy_true _ Hname). cbn [negb].
  rewrite bind_self. fold (asset_path asset_name s). fold path.
  assert (Hsave :
    (if String.eqb file_type "MA"
     then call (file_save "mayaAscii") ;; ret (path +:+ ".ma")
     else call (file_save "mayaBinary") ;; ret (path +:+ ".mb"))
    = (call (Scene := Scene) (file_save (fst kind)) ;; ret (path +:+ snd kind))).
  { unfold kind, saved_as. by destruct (String.eqb file_type "MA"). }
  rewrite Hsave. clear Hsave. unfold try_except.
  destruct (fst (exec (file_rename path) (scene s))) as [u|e] eqn:E1.
  - rewrite (bind_call_ok _ _ _ _ E1). fold renamed. rewrite bind_assoc.
    destruct (fst (exec (file_save (fst kind)) (scene renamed))) as [u'|e] eqn:E2.
    + by rewrite (bind_call_ok _ _ _ _ E2).
    + by rewrite (bind_call_raise _ _ _ _ E2).
  - by rewrite (bind_call_raise _ _ _ _ E1).
Qed.
End Assets.

(** The type "ma" in lower case is saved as Maya binary. *)
Lemma save_asset_outcome_witness :
  PyStr.strip " hero " <> ""
  /\ out (save_asset " hero " "ma" Studio.props)
     = [ECall (file_rename "/home/artist/maya/scripts/Asset/hero") true;
        ECall (file_save "mayaBinary") true;
        saved_message "/home/artist/maya/scripts/Asset/hero.mb"].
Proof.
  assert (Hname : PyStr.strip " hero " <> "") by (vm_compute; discriminate).
  split; [exact Hname|].
  rewrite (save_asset_outcome " hero " "ma" Studio.props Hname).
  vm_compute. reflexivity.
Defined.

(** ** Skin weights *)

Section Weights.
Context {Scene : Type} `{!Host Scene}.

Lemma copy_to_missing source_skin targets n (s : state Scene) :
  (forall t, In t targets -> objExists t (scene s) = false) ->
  for_in targets (copy_to source_skin) n s
  = {| res := Ok n; final := s; out := map target_missing targets |}.
Proof.
  induction targets as [|t targets IH]; intros Hmissing; [done|].
  rewrite for_in_cons. unfold copy_to at 1. rewrite bind_assoc, bind_query.
  rewrite (Hmissing t) by (by left). cbn [negb].
  rewrite bind_assoc, bind_warning, bind_ret, IH; [done|].
  intros t' Hin. apply Hmissing. by right.
Qed.

(** X9.  When the source is fit but none of the targets is in the scene
    (the default targets are used when no list or an empty one is
    given), [copy_weights] warns once for each target, in order, issues
    no command, shows no dialog and returns [False]. *)
Theorem copy_weights_missing_targets source_obj target_list source_skin others
    (s : state Scene) :
  source_obj <> "" ->
  objExists source_obj (scene s) = true ->
  ls_skinClusters (listHistory source_obj (scene s)) (scene s) = source_skin :: others ->
  source_skin <> "" ->
  (forall t, In t (or_list target_list (target_objects (mgr s))) ->
             objExists t (scene s) = false) ->
  copy_weights source_obj target_list s
  = {| res := Ok false; final := s;
       out := map target_missing (or_list target_list (target_objects (mgr s))) |}.
Proof.
  intros Hsrc Hfound Hskin Hne Hmissing. unfold copy_weights.
  rewrite (truthy_true _ Hsrc). cbn [negb]. rewrite bind_query, Hfound. cbn [negb].
  rewrite bind_get_skin_cluster, Hskin. unfold truthy_value.
  rewrite (truthy_true _ Hne), bind_self. cbv zeta.
  unfold bind at 1. rewrite (copy_to_missing _ _ _ _ Hmissing). simpl.
  by rewrite app_nil_r.
Qed.
End Weights.

(** ** Joint display *)

Section JointDisplay.
Context {Scene : Type} `{!Host Scene}.

(** X10.  With nothing to work on.  [toggle_joint_display] in the
    selected-only mode rejects an empty selection of joints with one
    warning and [False]; over all joints a scene without joints is no
    error: the method prints a count of 0 and returns [True].
    [lock_unlock_attributes] rejects an empty selection before it looks
    at its flags. *)
Theorem nothing_selected (s : state Scene) :
  (forall show,
      ls_selected_joints (scene s) = [] ->
      toggle_joint_display show true s
      = {| res := Ok false; final := s; out := [EWarning "No joints selected."] |})
  /\ (forall show,
      ls_joints (scene s) = [] ->
      toggle_joint_display show false s
      = {| res := Ok true; final := s;
           out := [EPrint (if show then "Shown 0 all joints"
                           else "Hidden 0 all joints")] |})
  /\ (forall lock translate rotate scale,
      ls_selection (scene s) = [] ->
      lock_unlock_attributes lock translate rotate scale s
      = {| res := Ok false; final := s; out := [EWarning "No objects selected."] |}).
Proof.
  unfold toggle_joint_display, lock_unlock_attributes. cbv zeta.
  split; [|split].
  - intros show Hnone. by rewrite bind_query, Hnone.
  - intros show Hnone. rewrite bind_query, Hnone. by destruct show.
  - intros lock translate rotate scale Hnone. by rewrite bind_query, Hnone.
Qed.
End JointDisplay.

(** ** Names *)

Section Names.
Context {Scene : Type} `{!Host Scene}.

Lemma lstrip_head s :
  match PyStr.lstrip s with
  | String c _ => PyStr.is_space c = false
  | EmptyString => True
  end.
Proof.
  induction s as [|c s IH]; [done|]. simpl.
  destruct (PyStr.is_space c) eqn:E; [done|]. done.
Qed.

Lemma rstrip_head c s :
  PyStr.is_space c = false -> PyStr.rstrip (String c s) = String c (PyStr.rstrip s).
Proof. intros E. simpl. by rewrite E, andb_false_r. Qed.

Lemma rstrip_rstrip s : PyStr.rstrip (PyStr.rstrip s) = PyStr.rstrip s.
Proof.
  induction s as [|c s IH]; [done|]. simpl.
  destruct (PyStr.is_empty (PyStr.rstrip s) && PyStr.is_space c) eqn:E; [done|].
  simpl. by rewrite IH, E.
Qed.

Lemma strip_strip s : PyStr.strip (PyStr.strip s) = PyStr.strip s.
Proof.
  unfold PyStr.strip. pose proof (lstrip_head s) as Hhead.
  destruct (PyStr.lstrip s) as [|c r]; [done|].
  rewrite (rstrip_head _ _ Hhead). simpl PyStr.lstrip. rewrite Hhead.
  by rewrite (rstrip_head _ _ Hhead), rstrip_rstrip.
Qed.

(** X11.  Blanks around the text are ignored: [rename_objects] and
    [save_asset] behave on a text as on the same text stripped. *)
Theorem surrounding_blanks_ignored text (s : state Scene) :
  (forall is_prefix,
      rename_objects text is_prefix s = rename_objects (PyStr.strip text) is_prefix s)
  /\ (forall file_type,
      save_asset text file_type s = save_asset (PyStr.strip text) file_type s).
Proof.
  split; intros; unfold rename_objects, save_asset; by rewrite strip_strip.
Qed.

Lemma length_append a b : String.length (a +:+ b) = String.length a + String.length b.
Proof. induction a as [|c a IH]; simpl; [done | by rewrite IH]. Qed.

Lemma append_inv_tail a b t : a +:+ t = b +:+ t -> a = b.
Proof.
  revert b. induction a as [|c a IH]; intros [|c' b] Heq; simpl in Heq.
  - done.
  - apply (f_equal String.length) in Heq. simpl in Heq.
    rewrite ?length_append in Heq. simpl in Heq. lia.
  - apply (f_equal String.length) in Heq. simpl in Heq.
    rewrite ?length_append in Heq. simpl in Heq. lia.
  - injection Heq as -> Heq. f_equal. by apply IH.
Qed.

(** X12.  Within one call of [rename_objects] two different objects are
    never given the same new name, with a prefix as with a suffix. *)
Theorem new_names_differ is_prefix name obj obj' :
  obj <> obj' -> new_name is_prefix name obj <> new_name is_prefix name obj'.
Proof.
  unfold new_name. intros Hne Heq. apply Hne. destruct is_prefix.
  - apply (inj (String.app name)) in Heq. by injection Heq.
  - by apply append_inv_tail in Heq.
Qed.
End Names.

(** ** Controls and IK limbs *)

Section Answers.
Context {Scene : Type} `{!Host Scene}.

Lemma issued_app steps steps' : issued (steps ++ steps') = issued steps ++ issued steps'.
Proof. apply map_app. Qed.

Lemma answered_app steps steps' (sc : Scene) :
  answered (steps ++ steps') sc
  <-> answered steps sc /\ answered steps' (replay (issued steps) sc).
Proof.
  revert sc. induction steps as [|st steps IH]; intros sc; simpl; [tauto|].
  rewrite IH. tauto.
Qed.

Lemma ran_ret {A} (a : A) (s : state Scene) : ran [] s (ret a s).
Proof. done. Qed.

Lemma ran_update f (s : state Scene) : ran [] s (self_update f s).
Proof. done. Qed.

Lemma ran_call c a (s : state Scene) :
  fst (exec c (scene s)) = Ok a -> ran [did c a] s (call c s).
Proof. intros E. rewrite call_eq. unfold ran; simpl. by rewrite E. Qed.

Lemma ran_bind {A B} (m : M Scene A) (f : A -> M Scene B) a steps steps'
    (s : state Scene) :
  res (m s) = Ok a ->
  ran steps s (m s) ->
  ran steps' (final (m s)) (f a (final (m s))) ->
  ran (steps ++ steps') s (bind m f s).
Proof.
  intros Hres (Hanswered & Hout & Hscene) (Hanswered' & Hout' & Hscene').
  rewrite (bind_ok _ _ _ _ Hres). unfold ran, prepend; simpl.
  rewrite answered_app, issued_app, replay_app, Hout, Hout', Hscene', Hscene.
  rewrite Hscene in Hanswered'. done.
Qed.

(** One command of a run that returned: the host answered it, and what
    the rest of the run did comes after it. *)
Lemma ran_call_inv {B} c (k : ret_of c -> M Scene B) (s : state Scene) b :
  res (bind (call c) k s) = Ok b ->
  exists a,
    fst (exec c (scene s)) = Ok a
    /\ res (k a (after c s)) = Ok b
    /\ forall steps,
         ran steps (after c s) (k a (after c s)) ->
         ran (did c a :: steps) s (bind (call c) k s).
Proof.
  intros Hres. destruct (fst (exec c (scene s))) as [a|e] eqn:E.
  2:{ by rewrite (bind_call_raise _ _ _ _ E) in Hres. }
  exists a. split; [done|]. rewrite (bind_call_ok _ _ _ _ E) in Hres.
  split; [exact Hres|]. intros steps Hran.
  assert (Hcall : res (call c s) = Ok a) by (by rewrite call_eq).
  apply (ran_bind (call c) k a [did c a] steps s Hcall (ran_call c a s E)).
  by rewrite call_eq.
Qed.
End Answers.

Section Limbs.
Context {Scene : Type} `{!Host Scene}.

(** A [setup_control] that returned: the group it returns is the one
    the host answered for the second [group]. *)
Lemma setup_control_ran jnt grp (s : state Scene) :
  res (setup_control jnt s) = Ok grp ->
  exists ctrl more offset,
    ran (control_steps jnt ctrl more offset grp) s (setup_control jnt s).
Proof.
  unfold setup_control. intros Hres.
  apply ran_call_inv in Hres as (shapes & _ & Hres & Hcircle).
  destruct shapes as [|ctrl more]; [discriminate|].
  unfold index0 in Hres, Hcircle. rewrite bind_ret in Hres.
  apply ran_call_inv in Hres as (offset & _ & Hres & Hoffset).
  apply ran_call_inv in Hres as (grp' & _ & Hres & Hgrp).
  apply ran_call_inv in Hres as (u & _ & Hres & Hmatch).
  apply ran_call_inv in Hres as (u' & _ & Hres & Hcons).
  injection Hres as ->. destruct u, u'. exists ctrl, more, offset.
  apply Hcircle. rewrite bind_ret. apply Hoffset, Hgrp, Hmatch, Hcons, ran_ret.
Qed.

(** X13.  A limb is rigged only when both of its joints are in the
    scene: when no limb of a list has both, the loop over the limbs
    issues nothing and leaves the scene as it is. *)
Theorem ik_limbs_skipped table (s : state Scene) :
  (forall start_jnt end_jnt handle_name,
      In (start_jnt, end_jnt, handle_name) table ->
      objExists start_jnt (scene s) && objExists end_jnt (scene s) = false) ->
  for_each table ik_limb s = {| res := Ok tt; final := s; out := [] |}.
Proof.
  induction table as [|[[start_jnt end_jnt] handle_name] table IH]; intros Hnone; [done|].
  rewrite for_each_cons. unfold ik_limb at 1. rewrite bind_assoc, bind_query.
  rewrite (Hnone start_jnt end_jnt handle_name) by (by left).
  rewrite bind_ret. apply IH. intros a b c Hin. apply (Hnone a b c). by right.
Qed.

(** X14.  A limb whose two joints are in the scene, when its turn
    returns.  The host is asked for an IK handle from the start joint to
    the end joint and answers a handle and an effector; the handle is
    renamed to the limb's handle name; [setup_control] builds the
    control of the end joint.  Then, only when a node called as the end
    joint with [_jnt1] replaced by [_CTRL1] is in the scene, the handle,
    under the name the rename returned, is put under that node.
    Nothing else is asked of the host. *)
Theorem ik_limb_builds start_jnt end_jnt handle_name (s : state Scene) :
  objExists start_jnt (scene s) && objExists end_jnt (scene s) = true ->
  res (ik_limb (start_jnt, end_jnt, handle_name) s) = Ok tt ->
  exists ik_handle effector named ctrl more offset grp,
    let rig :=
      did (ikHandle start_jnt end_jnt) [ik_handle; effector]
      :: did (rename ik_handle handle_name) named
      :: control_steps end_jnt ctrl more offset grp in
    let ctrl_name := PyStr.replace "_jnt1" "_CTRL1" end_jnt in
    let last :=
      if objExists ctrl_name (replay (issued rig) (scene s))
      then [did (parent named ctrl_name) tt]
      else [] in
    ran (rig ++ last) s (ik_limb (start_jnt, end_jnt, handle_name) s).
Proof.
  unfold ik_limb. rewrite bind_query. intros -> Hres.
  apply ran_call_inv in Hres as (made & _ & Hres & Hik).
  destruct made as [|ik_handle [|effector [|extra made]]]; try discriminate.
  unfold unpack2 in Hres, Hik. rewrite bind_ret in Hres.
  apply ran_call_inv in Hres as (named & _ & Hres & Hren).
  destruct (bind_inv _ _ _ _ Hres) as (grp & Hctrl & Hlast & _).
  destruct (setup_control_ran _ _ _ Hctrl) as (ctrl & more & offset & Hsetup).
  exists ik_handle, effector, named, ctrl, more, offset, grp. cbv zeta.
  apply Hik. rewrite bind_ret. apply Hren.
  apply (ran_bind _ _ _ _ _ _ Hctrl Hsetup).
  destruct Hsetup as (_ & _ & Hscene). rewrite bind_query in Hlast |- *.
  change (replay (issued _) (scene s))
    with (replay (issued (control_steps end_jnt ctrl more offset grp))
            (scene (after (rename ik_handle handle_name)
                      (after (ikHandle start_jnt end_jnt) s)))).
  rewrite <- Hscene.
  destruct (objExists _ _); [|apply ran_ret].
  apply ran_call. rewrite call_eq in Hlast. exact Hlast.
Qed.

(** A [fk_rig] that returned: the control and the group it returns are
    the ones the host answered. *)
Lemma fk_rig_ran base_name jnt ctrl grp (s : state Scene) :
  res (fk_rig base_name jnt s) = Ok (ctrl, grp) ->
  exists more offset,
    ran (rig_steps base_name jnt ctrl more offset grp) s (fk_rig base_name jnt s).
Proof.
  unfold fk_rig. intros Hres.
  apply ran_call_inv in Hres as (shapes & _ & Hres & Hcircle).
  destruct shapes as [|ctrl' more]; [discriminate|].
  unfold index0 in Hres, Hcircle. rewrite bind_ret in Hres.
  apply ran_call_inv in Hres as (offset & _ & Hres & Hoffset).
  apply ran_call_inv in Hres as (grp' & _ & Hres & Hgrp).
  apply ran_call_inv in Hres as (u & _ & Hres & Hmatch).
  apply ran_call_inv in Hres as (u' & _ & Hres & Hcons).
  injection Hres as -> ->. destruct u, u'. exists more, offset.
  apply Hcircle. rewrite bind_ret. apply Hoffset, Hgrp, Hmatch, Hcons, ran_ret.
Qed.

(** X16.  One turn of the control loop of [create_fk_chain], when it
    returns.  The host is asked for a circle named after the joint's
    base name, a group around it for the offset and a group around that
    one; the outer group is matched to the joint and the joint
    constrained to the control, each command on the names the host
    answered.  Then, only when the host lists a parent joint and
    [fk_ctrls] holds a control that is not empty under the parent's
    base name, the group is put under that control.  Nothing else is
    asked of the host, and the control the host answered is recorded
    under the joint's base name. *)
Theorem fk_control_builds jnt (s : state Scene) :
  res (fk_control jnt s) = Ok tt ->
  exists ctrl more offset grp,
    let rig := rig_steps (fk_base jnt) jnt ctrl more offset grp in
    let last :=
      match listRelatives_parent jnt (replay (issued rig) (scene s)) with
      | Some (p :: _) =>
          match truthy_value (fk_ctrls (mgr s) !! fk_base p) with
          | Some parent_ctrl => [did (parent grp parent_ctrl) tt]
          | None => []
          end
      | _ => []
      end in
    ran (rig ++ last) s (fk_control jnt s)
    /\ fk_ctrls (mgr (final (fk_control jnt s)))
       = <[fk_base jnt := ctrl]> (fk_ctrls (mgr s)).
Proof.
  intros Hres.
  destruct (fk_control_turn _ _ Hres) as (ctrl & grp & Hrig & Hrec & _).
  destruct (fk_rig_ran _ _ _ _ _ Hrig) as (more & offset & Hran).
  exists ctrl, more, offset, grp. cbv zeta. split; [|exact Hrec].
  unfold fk_control in Hres |- *. cbv zeta in Hres |- *.
  rewrite (bind_ok _ _ _ _ Hrig) in Hres. unfold prepend in Hres. cbn [res] in Hres.
  apply (ran_bind _ _ _ _ _ _ Hrig Hran).
  pose proof (fk_rig_keeps (fk_base jnt) jnt s) as Hmgr.
  destruct Hran as (_ & _ & Hscene). rewrite <- Hscene.
  set (rigged := final (fk_rig (fk_base jnt) jnt s)) in *.
  unfold fk_attach in Hres |- *. cbn [fst snd] in Hres |- *.
  rewrite bind_query in Hres |- *.
  destruct (listRelatives_parent jnt (scene rigged)) as [[|p others]|].
  - rewrite bind_ret. apply ran_update.
  - rewrite bind_assoc, bind_self, Hmgr in Hres. rewrite bind_assoc, bind_self, Hmgr.
    destruct (truthy_value (fk_ctrls (mgr s) !! fk_base p)) as [parent_ctrl|].
    + apply (ran_call_inv (parent grp parent_ctrl)) in Hres as ([] & _ & _ & Hparent).
      apply Hparent, ran_update.
    + rewrite bind_ret. apply ran_update.
  - rewrite bind_ret. apply ran_update.
Qed.
End Limbs.

(** ** The drive skeleton *)

Section Skeleton.
Context {Scene : Type} `{!Host Scene}.

(** A [joint_creation] that returned. *)
Lemma joint_creation_ran name pos parent_name j (s : state Scene) :
  res (joint_creation name pos parent_name s) = Ok j ->
  ran (joint_steps name pos parent_name j) s (joint_creation name pos parent_name s).
Proof.
  unfold joint_creation, joint_steps. intros Hres.
  apply ran_call_inv in Hres as ([] & _ & Hres & Hclear).
  apply ran_call_inv in Hres as (j' & _ & Hres & Hjoint).
  destruct (truthy_value parent_name) as [p|].
  - apply (ran_call_inv (parent j' p)) in Hres as ([] & _ & Hres & Hparent).
    injection Hres as ->. apply Hclear, Hjoint, Hparent, ran_ret.
  - rewrite bind_ret in Hres. injection Hres as ->.
    apply Hclear, Hjoint. rewrite bind_ret. apply ran_ret.
Qed.

Lemma joint_creation_then {B} name pos parent_name (k : string -> M Scene B) b
    (s : state Scene) :
  res (bind (joint_creation name pos parent_name) k s) = Ok b ->
  exists j,
    res (k j (final (joint_creation name pos parent_name s))) = Ok b
    /\ forall steps,
         ran steps (final (joint_creation name pos parent_name s))
           (k j (final (joint_creation name pos parent_name s))) ->
         ran (joint_steps name pos parent_name j ++ steps) s
           (bind (joint_creation name pos parent_name) k s).
Proof.
  intros Hres. destruct (bind_inv _ _ _ _ Hres) as (j & Hj & Hrest & _).
  exists j. split; [done|]. intros steps Hran.
  exact (ran_bind _ _ _ _ _ _ Hj (joint_creation_ran _ _ _ _ _ Hj) Hran).
Qed.

(** X15.  A [create_basic_skeleton] that returns has asked the host,
    for each of the eighteen joints of the table in order, to clear the
    selection, to make the joint, which the host answers with a name,
    and, for every joint but the first, to put the joint under its
    parent in the table, both by the names the host answered (a parent
    answered with an empty name is passed over).  Nothing else is asked
    of the host. *)
Theorem create_basic_skeleton_plan (s : state Scene) :
  res (create_basic_skeleton s) = Ok tt ->
  exists made,
    length made = length skeleton_plan
    /\ ran (concat (zip_with (planned made) skeleton_plan made)) s
         (create_basic_skeleton s).
Proof.
  unfold create_basic_skeleton. intros Hres.
  repeat
    (let j := fresh "j" in
     let Hthen := fresh "Hthen" in
     apply joint_creation_then in Hres as (j & Hres & Hthen)).
  exists [j; j0; j1; j2; j3; j4; j5; j6; j7; j8; j9; j10; j11; j12; j13; j14; j15; j16].
  split; [reflexivity|].
  apply Hthen, Hthen0, Hthen1, Hthen2, Hthen3, Hthen4, Hthen5, Hthen6, Hthen7, Hthen8,
    Hthen9, Hthen10, Hthen11, Hthen12, Hthen13, Hthen14, Hthen15, Hthen16, ran_ret.
Qed.
End Skeleton.

(** ** The properties at work *)

(** An unknown mode on the drive skeleton: "FK" in capitals. *)
Lemma show_display_mode_unknown_witness :
  exists hidden,
    sublist hidden (listed_all (scene Studio.skeleton))
    /\ ((res (show_display_mode "FK" Studio.skeleton)
           = Raise (UnboundLocalError "nodes_to_show")
         /\ out (show_display_mode "FK" Studio.skeleton) = done_on hide hidden)
        \/ (exists n e,
              res (show_display_mode "FK" Studio.skeleton) = Raise e
              /\ out (show_display_mode "FK" Studio.skeleton)
                 = done_on hide hidden ++ [ECall (hide n) false])).
Proof. apply show_display_mode_unknown; discriminate. Defined.

(** The FK mode on the skeleton with its FK rig. *)
Lemma show_display_mode_outcome_witness :
  exists hidden,
    sublist hidden (listed_all (scene Studio.fk_rigged))
    /\ ((exists n e,
           res (show_display_mode "fk" Studio.fk_rigged) = Raise e
           /\ out (show_display_mode "fk" Studio.fk_rigged)
              = done_on hide hidden ++ [ECall (hide n) false])
        \/ exists shown,
             sublist shown (listed_for "fk" (scene (all_hidden Studio.fk_rigged)))
             /\ ((res (show_display_mode "fk" Studio.fk_rigged) = Ok tt
                  /\ out (show_display_mode "fk" Studio.fk_rigged)
                     = done_on hide hidden ++ done_on showHidden shown)
                 \/ (exists n e,
                       res (show_display_mode "fk" Studio.fk_rigged) = Raise e
                       /\ out (show_display_mode "fk" Studio.fk_rigged)
                          = done_on hide hidden ++ done_on showHidden shown
                            ++ [ECall (showHidden n) false]))).
Proof. apply show_display_mode_outcome. right. left. reflexivity. Defined.

Lemma skeleton_found : objExists "spine_drv_jnt" (scene Studio.skeleton) = true.
Proof. vm_compute. reflexivity. Qed.

Lemma fk_chain_returns : res (create_fk_chain Studio.skeleton) = Ok tt.
Proof. vm_compute. reflexivity. Qed.

(** The FK rig of the basic skeleton: one key for each of its joints. *)
Lemma create_fk_chain_records_witness :
  dom (fk_ctrls (mgr (final (create_fk_chain Studio.skeleton))))
  = list_to_set (fk_base <$> Rigs.fk_joints) ∪ dom (fk_ctrls (mgr Studio.skeleton)).
Proof. exact (create_fk_chain_records Studio.skeleton skeleton_found fk_chain_returns). Defined.

Lemma lone_spine_found : objExists "spine_drv_jnt" (scene Studio.lone_spine) = true.
Proof. vm_compute. reflexivity. Qed.

Lemma lone_spine_duplicate :
  fst (exec (duplicate "spine_drv_jnt") (scene Studio.lone_spine)) = Ok ["spine_drv_jnt1"].
Proof. vm_compute. reflexivity. Qed.

Lemma lone_spine_fk_root :
  fst (exec (rename "spine_drv_jnt1" "spine_FK_jnt")
         (scene (after (duplicate "spine_drv_jnt") Studio.lone_spine)))
  = Ok "spine_FK_jnt".
Proof. vm_compute. reflexivity. Qed.

Lemma lone_spine_fk_childless :
  listRelatives_ad "spine_FK_jnt"
    (scene (after (rename "spine_drv_jnt1" "spine_FK_jnt")
              (after (duplicate "spine_drv_jnt") Studio.lone_spine)))
  = None.
Proof. vm_compute. reflexivity. Qed.

(** A lone root joint under [create_fk_chain]. *)
Lemma create_fk_chain_childless_witness :
  create_fk_chain Studio.lone_spine
  = {| res := Raise (TypeError "'NoneType' object is not iterable");
       final := after (rename "spine_drv_jnt1" "spine_FK_jnt")
                  (after (duplicate "spine_drv_jnt") Studio.lone_spine);
       out := [ECall (duplicate "spine_drv_jnt") true;
               ECall (rename "spine_drv_jnt1" "spine_FK_jnt") true] |}.
Proof.
  exact (create_fk_chain_childless Studio.lone_spine "spine_drv_jnt1" [] "spine_FK_jnt"
           lone_spine_found lone_spine_duplicate lone_spine_fk_root
           lone_spine_fk_childless).
Defined.

Lemma lone_spine_ik_root :
  fst (exec (rename "spine_drv_jnt1" "spine_IK_jnt")
         (scene (after (duplicate "spine_drv_jnt") Studio.lone_spine)))
  = Ok "spine_IK_jnt".
Proof. vm_compute. reflexivity. Qed.

Lemma lone_spine_ik_childless :
  listRelatives_ad "spine_IK_jnt"
    (scene (after (rename "spine_drv_jnt1" "spine_IK_jnt")
              (after (duplicate "spine_drv_jnt") Studio.lone_spine)))
  = None.
Proof. vm_compute. reflexivity. Qed.

(** The same joint under [create_ik_setup]. *)
Lemma create_ik_setup_childless_witness :
  create_ik_setup Studio.lone_spine
  = prepend [ECall (duplicate "spine_drv_jnt") true;
             ECall (rename "spine_drv_jnt1" "spine_IK_jnt") true]
      ((call (rename "spine_IK_jnt" (PyStr.replace "_drv_jnt" "_IK_jnt" "spine_IK_jnt")) ;;
        for_each limbs ik_limb)
         (after (rename "spine_drv_jnt1" "spine_IK_jnt")
            (after (duplicate "spine_drv_jnt") Studio.lone_spine))).
Proof.
  exact (create_ik_setup_childless Studio.lone_spine "spine_drv_jnt1" [] "spine_IK_jnt"
           lone_spine_found lone_spine_duplicate lone_spine_ik_root
           lone_spine_ik_childless).
Defined.

Lemma body_skin :
  ls_skinClusters (listHistory "body" (scene Studio.props)) (scene Studio.props)
  = ["skinCluster1"].
Proof. vm_compute. reflexivity. Qed.

Lemma props_lack_four_and_five :
  forall t, In t (or_list (Some ["four"; "five"]) (target_objects (mgr Studio.props))) ->
            objExists t (scene Studio.props) = false.
Proof. intros t [<-|[<-|[]]]; vm_compute; reflexivity. Qed.

(** Two targets that are not in the scene. *)
Lemma copy_weights_missing_targets_witness :
  copy_weights "body" (Some ["four"; "five"]) Studio.props
  = {| res := Ok false; final := Studio.props;
       out := [target_missing "four"; target_missing "five"] |}.
Proof.
  refine (copy_weights_missing_targets "body" (Some ["four"; "five"]) "skinCluster1" []
            Studio.props _ _ body_skin _ props_lack_four_and_five);
    [discriminate | reflexivity | discriminate].
Defined.

(** A cube and the ground under the prefix LT. *)
Lemma new_names_differ_witness :
  new_name true "LT" "cube" <> new_name true "LT" "ground".
Proof. apply new_names_differ. discriminate. Defined.

Lemma skeleton_without_ik_joints :
  forall start_jnt end_jnt handle_name,
    In (start_jnt, end_jnt, handle_name) limbs ->
    objExists start_jnt (scene Studio.skeleton)
    && objExists end_jnt (scene Studio.skeleton) = false.
Proof.
  intros start_jnt end_jnt handle_name [Heq|[Heq|[Heq|[Heq|[]]]]];
    injection Heq as <- <- <-; vm_compute; reflexivity.
Qed.

(** The drive skeleton alone has none of the IK joints of the limbs. *)
Lemma ik_limbs_skipped_witness :
  for_each limbs ik_limb Studio.skeleton
  = {| res := Ok tt; final := Studio.skeleton; out := [] |}.
Proof. exact (ik_limbs_skipped limbs Studio.skeleton skeleton_without_ik_joints). Defined.

Lemma ik_leg_complete :
  objExists "rt_thigh_IK_jnt1" (scene Legs.ik_leg)
  && objExists "rt_ankle_IK_jnt1" (scene Legs.ik_leg) = true.
Proof. vm_compute. reflexivity. Qed.

Lemma ik_leg_returns : res (ik_limb Legs.rt_leg Legs.ik_leg) = Ok tt.
Proof. vm_compute. reflexivity. Qed.

Lemma ik_leg_handle_parented :
  In (ECall (parent "rt_leg_IKHandle" "rt_ankle_IK_CTRL1") true)
     (out (ik_limb Legs.rt_leg Legs.ik_leg)).
Proof. vm_compute. tauto. Qed.

(** The right leg gets its handle, and the handle goes under the
    control of the ankle. *)
Lemma ik_limb_builds_witness :
  In (ECall (parent "rt_leg_IKHandle" "rt_ankle_IK_CTRL1") true)
     (out (ik_limb Legs.rt_leg Legs.ik_leg))
  /\ exists ik_handle effector named ctrl more offset grp,
       let rig :=
         did (ikHandle "rt_thigh_IK_jnt1" "rt_ankle_IK_jnt1") [ik_handle; effector]
         :: did (rename ik_handle "rt_leg_IKHandle") named
         :: control_steps "rt_ankle_IK_jnt1" ctrl more offset grp in
       let ctrl_name := PyStr.replace "_jnt1" "_CTRL1" "rt_ankle_IK_jnt1" in
       let last :=
         if objExists ctrl_name (replay (issued rig) (scene Legs.ik_leg))
         then [did (parent named ctrl_name) tt]
         else [] in
       ran (rig ++ last) Legs.ik_leg (ik_limb Legs.rt_leg Legs.ik_leg).
Proof.
  split; [exact ik_leg_handle_parented|].
  exact (ik_limb_builds "rt_thigh_IK_jnt1" "rt_ankle_IK_jnt1" "rt_leg_IKHandle"
           Legs.ik_leg ik_leg_complete ik_leg_returns).
Defined.

Lemma basic_skeleton_returns : res (create_basic_skeleton (MiniScene.start [] [])) = Ok tt.
Proof. vm_compute. reflexivity. Qed.

(** The skeleton in an empty scene. *)
Lemma create_basic_skeleton_plan_witness :
  exists made,
    length made = length skeleton_plan
    /\ ran (concat (zip_with (planned made) skeleton_plan made)) (MiniScene.start [] [])
         (create_basic_skeleton (MiniScene.start [] [])).
Proof. exact (create_basic_skeleton_plan (MiniScene.start [] []) basic_skeleton_returns). Defined.

Lemma twisted_twist : Rigs.twisted_joints !! 2 = Some "arm1".
Proof. vm_compute. reflexivity. Qed.

Lemma twisted_twist_last :
  forall k' jnt', 2 < k' -> Rigs.twisted_joints !! k' = Some jnt' ->
                  fk_base jnt' <> fk_base "arm1".
Proof.
  intros k' jnt' Hlater. do 3 (destruct k' as [|k']; [lia|]).
  destruct k' as [|k']; vm_compute; intros [= <-]; discriminate.
Qed.

(** The arm with a twist joint: both have the base name [arm1], and the
    record holds the control of the twist joint, which had its turn
    later. *)
Lemma fk_ctrls_last_wins_witness :
  exists ctrl grp,
    rigged_at Rigs.twisted_joints 2 Rigs.twisted_fk_named = Some (ctrl, grp)
    /\ fk_ctrls (mgr (final (create_fk_controls Rigs.twisted_fk_named))) !! fk_base "arm1"
       = Some ctrl.
Proof.
  exact (fk_ctrls_last_wins Rigs.twisted_fk_named 2 "arm1"
           twisted_returns twisted_twist twisted_twist_last).
Defined.

(** An empty scene with nothing selected. *)
Lemma nothing_selected_witness :
  toggle_joint_display false true (MiniScene.start [] [])
  = {| res := Ok false; final := MiniScene.start [] [];
       out := [EWarning "No joints selected."] |}
  /\ toggle_joint_display true false (MiniScene.start [] [])
     = {| res := Ok true; final := MiniScene.start [] [];
          out := [EPrint "Shown 0 all joints"] |}
  /\ lock_unlock_attributes true true true true (MiniScene.start [] [])
     = {| res := Ok false; final := MiniScene.start [] [];
          out := [EWarning "No objects selected."] |}.
Proof.
  destruct (nothing_selected (MiniScene.start [] [])) as (Hsel & Hall & Hlock).
  split; [|split].
  - apply Hsel. reflexivity.
  - apply (Hall true). reflexivity.
  - apply Hlock. reflexivity.
Defined.

Lemma chest_control_returns : res (fk_control "chest_FK_jnt1" Chest.spine_rigged) = Ok tt.
Proof. vm_compute. reflexivity. Qed.

Lemma chest_group_parented :
  In (ECall (parent "chest1_GRP" "spine_CTRL") true)
     (out (fk_control "chest_FK_jnt1" Chest.spine_rigged)).
Proof. vm_compute. tauto. Qed.

(** The turn of the chest, once the root has its control: the group of
    the chest goes under the control of the spine. *)
Lemma fk_control_builds_witness :
  In (ECall (parent "chest1_GRP" "spine_CTRL") true)
     (out (fk_control "chest_FK_jnt1" Chest.spine_rigged))
  /\ exists ctrl more offset grp,
       let rig := rig_steps (fk_base "chest_FK_jnt1") "chest_FK_jnt1" ctrl more offset grp in
       let last :=
         match listRelatives_parent "chest_FK_jnt1"
                 (replay (issued rig) (scene Chest.spine_rigged)) with
         | Some (p :: _) =>
             match truthy_value (fk_ctrls (mgr Chest.spine_rigged) !! fk_base p) with
             | Some parent_ctrl => [did (parent grp parent_ctrl) tt]
             | None => []
             end
         | _ => []
         end in
       ran (rig ++ last) Chest.spine_rigged (fk_control "chest_FK_jnt1" Chest.spine_rigged)
       /\ fk_ctrls (mgr (final (fk_control "chest_FK_jnt1" Chest.spine_rigged)))
          = <[fk_base "chest_FK_jnt1" := ctrl]> (fk_ctrls (mgr Chest.spine_rigged)).
Proof.
  split; [exact chest_group_parented|].
  exact (fk_control_builds "chest_FK_jnt1" Chest.spine_rigged chest_control_returns).
Defined.
